(** * Contact-form handler (src/lambda/contact-form/index.mjs)

    A shallow embedding of the Lambda handler and of the helpers it
    exports, followed by the properties the design document states
    about them.

    Conventions of the embedding:
    - a JavaScript string is the list of its UTF-16 code units, so that
      [length] is [String.prototype.length];
    - a JavaScript value is a JSON-shaped tree ([jsval]);
    - a number is an IEEE-754 double ([spec_float]);
    - functions of the language runtime that the module only calls
      ([JSON.parse], [JSON.stringify], [Buffer], [URLSearchParams],
      [TextDecoder], the Unicode property tables, the clock, ...) are the
      fields of a [Runtime] record;
    - the three SDK clients are functions from the command they are sent to
      the outcome of the call, and every call the handler makes to them or
      to [console] is recorded in a trace. *)

From Stdlib Require Import List ZArith NArith Lia Bool String Ascii.
From Stdlib Require Import DecimalString SpecFloat.
Import ListNotations.

Set Warnings "-register-all,-notation-for-abbreviation".

(* ===================================================================== *)
(** ** Strings *)
(* ===================================================================== *)

Definition jsstring := list N.

(** An ASCII literal of the source as a list of code units. *)
Definition lit (s : string) : jsstring :=
  map N_of_ascii (list_ascii_of_string s).

Arguments lit s%_string.

Definition jsstring_eqb (a b : jsstring) : bool :=
  if list_eq_dec N.eq_dec a b then true else false.


(** ECMAScript [WhiteSpace] and [LineTerminator] code points: what
    [String.prototype.trim] strips and what [\s] matches. *)
Definition isWhiteSpace (c : N) : bool :=
  ((9 <=? c) && (c <=? 13) || (c =? 32) || (c =? 160) || (c =? 0x1680)
   || (0x2000 <=? c) && (c <=? 0x200A)
   || (c =? 0x2028) || (c =? 0x2029) || (c =? 0x202F) || (c =? 0x205F)
   || (c =? 0x3000) || (c =? 0xFEFF))%N.

Fixpoint trimStart (s : jsstring) : jsstring :=
  match s with
  | [] => []
  | c :: r => if isWhiteSpace c then trimStart r else s
  end.

Definition trimEnd (s : jsstring) : jsstring := rev (trimStart (rev s)).

(** [String.prototype.trim] *)
Definition trim (s : jsstring) : jsstring := trimEnd (trimStart s).

(** [String.prototype.startsWith] *)
Fixpoint startsWith (s p : jsstring) : bool :=
  match p, s with
  | [], _ => true
  | _ :: _, [] => false
  | a :: p', b :: s' => (a =? b)%N && startsWith s' p'
  end.

(** The suffix left after a prefix, when the string starts with it. *)
Fixpoint stripPrefix (p s : jsstring) : option jsstring :=
  match p, s with
  | [], _ => Some s
  | _ :: _, [] => None
  | a :: p', b :: s' => if (a =? b)%N then stripPrefix p' s' else None
  end.

Definition stripSuffix (p s : jsstring) : option jsstring :=
  option_map (@rev N) (stripPrefix (rev p) (rev s)).

(** Number-to-string conversion of an integer (decimal digits, with a
    leading minus sign for a negative one). *)
Definition Z_toString (z : Z) : jsstring :=
  lit (NilZero.string_of_int (Z.to_int z)).

(* ===================================================================== *)
(** ** Regular expressions *)
(* ===================================================================== *)

(** The patterns of the source are all of the shape [/^...$/]: they
    test the whole string.  They are matched with Brzozowski
    derivatives. *)
Inductive regex : Type :=
| RNone
| REps
| RClass (p : N -> bool)
| RSeq (r1 r2 : regex)
| RAlt (r1 r2 : regex)
| RStar (r : regex).

(** [r+] *)
Definition RPlus (r : regex) : regex := RSeq r (RStar r).

Fixpoint nullable (r : regex) : bool :=
  match r with
  | RNone => false
  | REps => true
  | RClass _ => false
  | RSeq r1 r2 => nullable r1 && nullable r2
  | RAlt r1 r2 => nullable r1 || nullable r2
  | RStar _ => true
  end.

Fixpoint deriv (c : N) (r : regex) : regex :=
  match r with
  | RNone => RNone
  | REps => RNone
  | RClass p => if p c then REps else RNone
  | RSeq r1 r2 =>
      if nullable r1 then RAlt (RSeq (deriv c r1) r2) (deriv c r2)
      else RSeq (deriv c r1) r2
  | RAlt r1 r2 => RAlt (deriv c r1) (deriv c r2)
  | RStar r1 => RSeq (deriv c r1) (RStar r1)
  end.

Fixpoint matches (r : regex) (s : list N) : bool :=
  match s with
  | [] => nullable r
  | c :: s' => matches (deriv c r) s'
  end.

Definition isHighSurrogate (c : N) : bool := ((0xD800 <=? c) && (c <=? 0xDBFF))%N.
Definition isLowSurrogate (c : N) : bool := ((0xDC00 <=? c) && (c <=? 0xDFFF))%N.

(** The code points of a string: what a pattern with the [u] flag
    iterates over.  A surrogate pair is one code point, a lone surrogate
    stands for itself. *)
Fixpoint codePoints (s : jsstring) : list N :=
  match s with
  | [] => []
  | h :: t =>
      match t with
      | l :: t' =>
          if isHighSurrogate h && isLowSurrogate l
          then (0x10000 + (h - 0xD800) * 0x400 + (l - 0xDC00))%N :: codePoints t'
          else h :: codePoints t
      | [] => [h]
      end
  end.

(** A [RegExp] object: the [u] flag and the expression between [^] and [$]. *)
Record RegExp := { re_unicode : bool; re_body : regex }.

(** [RegExp.prototype.test] *)
Definition RegExp_test (re : RegExp) (s : jsstring) : bool :=
  matches (re_body re) (if re_unicode re then codePoints s else s).

(* ===================================================================== *)
(** ** Values *)
(* ===================================================================== *)

(** A number is a double. *)
Definition number := spec_float.

Definition NaN : number := S754_nan.
Definition num_of_Z (z : Z) : number := binary_normalize 53 1024 z 0 false.
Definition num_mul (a b : number) : number := SFmul 53 1024 a b.

(** The doubles written [0.9] and [0.8] in the source. *)
Definition num_0_9 : number := S754_finite false 0x1CCCCCCCCCCCCD (-53).
Definition num_0_8 : number := S754_finite false 0x1999999999999A (-53).

(** [a < b] and [a >= b] on numbers: both are false when an operand is NaN. *)
Definition num_lt (a b : number) : bool :=
  match SFcompare a b with Some Lt => true | _ => false end.

Definition num_ge (a b : number) : bool :=
  match SFcompare a b with Some Gt | Some Eq => true | _ => false end.

(** Values as [JSON.parse] builds them, and [undefined].  The fields of
    an object are kept in insertion order; a lookup takes the first
    binding of a key. *)
Inductive jsval : Type :=
| JUndefined
| JNull
| JBool (b : bool)
| JNum (x : number)
| JStr (s : jsstring)
| JArr (items : list jsval)
| JObj (fields : list (jsstring * jsval)).

Definition object := list (jsstring * jsval).

Fixpoint lookup (k : jsstring) (o : object) : jsval :=
  match o with
  | [] => JUndefined
  | (k', v) :: o' => if jsstring_eqb k k' then v else lookup k o'
  end.

(** [Object.hasOwn(o, k)] *)
Definition hasOwn (k : jsstring) (o : object) : bool :=
  existsb (fun kv => jsstring_eqb k (fst kv)) o.

(** Defining a property: an existing key keeps its place. *)
Fixpoint objSet (o : object) (k : jsstring) (v : jsval) : object :=
  match o with
  | [] => [(k, v)]
  | (k', v') :: o' =>
      if jsstring_eqb k k' then (k', v) :: o' else (k', v') :: objSet o' k v
  end.

(** [{...base, ...extra}] *)
Definition spread (base extra : object) : object :=
  fold_left (fun o kv => objSet o (fst kv) (snd kv)) extra base.

Definition isNullish (v : jsval) : bool :=
  match v with JUndefined | JNull => true | _ => false end.

(** ToBoolean *)
Definition truthy (v : jsval) : bool :=
  match v with
  | JUndefined | JNull => false
  | JBool b => b
  | JNum (S754_zero _) | JNum S754_nan => false
  | JNum _ => true
  | JStr [] => false
  | JStr _ => true
  | JArr _ | JObj _ => true
  end.

(** [a || b] *)
Definition js_or (a b : jsval) : jsval := if truthy a then a else b.

(** [v === 'literal'] *)
Definition strictEqStr (v : jsval) (s : jsstring) : bool :=
  match v with JStr s' => jsstring_eqb s' s | _ => false end.

(** [typeof v === 'string'] *)
Definition isString (v : jsval) : bool :=
  match v with JStr _ => true | _ => false end.

(** The code units of a value whose type is string. *)
Definition asString (v : jsval) : jsstring :=
  match v with JStr s => s | _ => [] end.

(** Thrown values.  Everything the module, the runtime and the SDK clients
    throw is an [Error] object; [ValidationError] is the subclass the
    module declares, with its [field].  A client that rejects with a value
    that is not an object ([null], [undefined]), on which the [catch]
    blocks could not read [error.message], has no counterpart here. *)
Inductive exn : Type :=
| ValidationError (field message : jsstring)
| Error (message stack : jsstring).

(** [error.message] *)
Definition exn_message (e : exn) : jsstring :=
  match e with ValidationError _ m => m | Error m _ => m end.

(** An SDK client, seen through its [send] method: the command goes in, the
    promise resolves with a value or rejects with an error. *)
Definition client := jsval -> exn + jsval.

(** What the module takes from the language runtime and from the platform. *)
Record Runtime := {
  (** General categories [\p{L}], [\p{N}], [\p{P}], [\p{Z}] *)
  uc_L : N -> bool;
  uc_N : N -> bool;
  uc_P : N -> bool;
  uc_Z : N -> bool;
  (** the [TypeError] of a property read on [undefined] or [null], and of a
      call of something that is not a function *)
  TypeError : jsstring -> exn;
  (** the [TypeError] of a conversion to a primitive value of an object
      that has no callable [toString] or [valueOf] giving one *)
  TypeError_toPrimitive : exn;
  (** the stack trace captured by [new ValidationError(...)] *)
  ValidationError_stack : jsstring;
  JSON_parse : jsstring -> exn + jsval;
  JSON_stringify : jsval -> jsstring;
  (** [Buffer.from(v, 'base64').toString('utf-8')] *)
  Buffer_base64_utf8 : jsval -> exn + jsstring;
  (** [[...new URLSearchParams(v).entries()]] *)
  URLSearchParams_entries : jsval -> exn + list (jsstring * jsstring);
  (** [new TextDecoder().decode(v)] *)
  TextDecoder_decode : jsval -> exn + jsstring;
  Number_toString : number -> jsstring;
  (** [x.toFixed(1)] *)
  Number_toFixed1 : number -> jsstring;
  StringToNumber : jsstring -> number;
  randomUUID : jsstring;
  Date_now : Z;
  (** [new Date().toISOString()] *)
  Date_toISOString : jsstring;
  new_SESClient : jsstring -> client;
  new_BedrockRuntimeClient : jsstring -> client;
  new_DynamoDBDocumentClient : jsstring -> client
}.

(** Configuration, as the module reads it from the environment when it is
    loaded.  [parseInt] gives an integer or NaN ([None]). *)
Record Config := {
  toAddress : jsstring;
  fromAddress : jsstring;
  allowedOrigin : jsstring;
  region : jsstring;
  maxMessageLength : option Z;
  maxNameLength : option Z;
  maxPhoneLength : option Z;
  subjectWordCount : option Z;
  spamDetectionEnabled : bool;
  spamModelId : jsstring;
  spamConfidenceThreshold : number;
  blockedSubmissionsTable : jsstring
}.

(** The configuration when no environment variable is set. *)
Definition CONFIG_default : Config := {|
  toAddress := lit "Fred Jean <fred@fredjean.net>";
  fromAddress := lit "Contact Form <hello@fredjean.net>";
  allowedOrigin := lit "*";
  region := lit "us-east-1";
  maxMessageLength := Some 2048%Z;
  maxNameLength := Some 100%Z;
  maxPhoneLength := Some 20%Z;
  subjectWordCount := Some 8%Z;
  spamDetectionEnabled := false;
  spamModelId := lit "anthropic.claude-haiku-4-5-20251001-v1:0";
  spamConfidenceThreshold := num_0_8;
  blockedSubmissionsTable := lit "contact-form-blocked-submissions"
|}.

(* ===================================================================== *)
(** ** Computations *)
(* ===================================================================== *)

(** Pure code that may throw. *)
Definition result (A : Type) := (exn + A)%type.

Definition rbind {A B} (m : result A) (f : A -> result B) : result B :=
  match m with inl e => inl e | inr a => f a end.

(** A function that may throw, applied to the elements of a list from left
    to right: the results, or the first error. *)
Fixpoint rmap {A B} (f : A -> result B) (l : list A) : result (list B) :=
  match l with
  | [] => inr []
  | a :: r =>
      match f a with
      | inl e => inl e
      | inr b => match rmap f r with inl e => inl e | inr bs => inr (b :: bs) end
      end
  end.

(** What a run does to the outside, in order. *)
Inductive effect : Type :=
| ConsoleLog (line : jsstring)
| ConsoleError (message : jsstring) (data : jsval)
| BedrockSend (command : jsval)
| DynamoSend (command : jsval)
| SesSend (command : jsval).

(** An [async] body: the effects it performed, and the value it returned
    or the error it threw. *)
Definition io (A : Type) := (list effect * result A)%type.

Definition ret {A} (a : A) : io A := ([], inr a).
Definition throw {A} (e : exn) : io A := ([], inl e).
Definition lift {A} (r : result A) : io A := ([], r).
Definition emit (e : effect) : io unit := ([e], inr tt).

Definition bind {A B} (m : io A) (f : A -> io B) : io B :=
  match snd m with
  | inl e => (fst m, inl e)
  | inr a => (fst m ++ fst (f a), snd (f a))
  end.

(** [try { m } catch (error) { h error }] *)
Definition try_catch {A} (m : io A) (h : exn -> io A) : io A :=
  match snd m with
  | inl e => (fst m ++ fst (h e), snd (h e))
  | inr a => m
  end.

Definition trace {A} (m : io A) : list effect := fst m.
Definition outcome {A} (m : io A) : result A := snd m.

Declare Scope io_scope.
Delimit Scope io_scope with io.
Notation "x <- m ;; k" := (bind m (fun x => k))
  (at level 61, m at next level, right associativity) : io_scope.
Notation "m ;; k" := (bind m (fun _ => k))
  (at level 61, right associativity) : io_scope.

Declare Scope result_scope.
Delimit Scope result_scope with result.
Notation "x <- m ;; k" := (rbind m (fun x => k))
  (at level 61, m at next level, right associativity) : result_scope.


(** The records of the module *)

Record Schema := { maxLength : option Z; pattern : option RegExp }.

Record Validation := {
  v_email : Schema; v_name : Schema; v_phone : Schema; v_message : Schema
}.

Record ContactData := {
  cd_email : jsstring; cd_name : jsstring; cd_phone : jsstring; cd_message : jsstring
}.

Record Response := { statusCode : Z; headers : object; body : jsstring }.

Record ClassificationResult := {
  classification : jsval;
  confidence : jsval;
  reason : jsval;
  (** [undefined] when the object has no such property *)
  failedOpen : jsval
}.

(* ===================================================================== *)
(** ** A runtime and inputs for the examples *)
(* ===================================================================== *)

(** A small runtime on which the module can be run.  Only what the
    examples exercise is filled in: the Unicode tables cover Basic Latin,
    [JSON.parse] knows the texts of the examples, a [TextDecoder] reads a
    string as itself, and [JSON.stringify] writes objects of strings and
    booleans. *)
Module Sample.

Definition letter (c : N) : bool :=
  ((65 <=? c) && (c <=? 90) || (97 <=? c) && (c <=? 122))%N.

Definition digit (c : N) : bool := ((48 <=? c) && (c <=? 57))%N.

Definition punctuation (c : N) : bool :=
  existsb (N.eqb c)
    [33; 34; 35; 37; 38; 39; 40; 41; 42; 44; 45; 46; 47; 58; 59; 63; 64; 91; 92; 93;
     95; 123; 125]%N.

Definition separator (c : N) : bool := (c =? 32)%N.

Definition quoted (s : jsstring) : jsstring := [34%N] ++ s ++ [34%N].

(** The verdict of the model, as text and as value. *)
Definition spamText : jsstring :=
  lit "{" ++ quoted (lit "classification") ++ lit ":" ++ quoted (lit "SPAM")
  ++ lit "," ++ quoted (lit "confidence") ++ lit ":0.95,"
  ++ quoted (lit "reason") ++ lit ":" ++ quoted (lit "Obvious spam") ++ lit "}".

Definition num_0_95 : number := S754_finite false 8556839292003942 (-53).

Definition spamVerdict : jsval :=
  JObj [ (lit "classification", JStr (lit "SPAM"));
         (lit "confidence", JNum num_0_95);
         (lit "reason", JStr (lit "Obvious spam")) ].

(** The body of the model's response, as text and as value. *)
Definition replyText : jsstring := lit "<response of the model: SPAM>".

Definition reply : jsval :=
  JObj [ (lit "content", JArr [ JObj [ (lit "text", JStr spamText) ] ]) ].

(** A response whose text is prose, not JSON. *)
Definition proseReplyText : jsstring := lit "<response of the model: prose>".

Definition proseReply : jsval :=
  JObj [ (lit "content",
          JArr [ JObj [ (lit "text", JStr (lit "This looks like spam to me.")) ] ]) ].

(** A verdict whose confidence is an object with an own [toString], and
    the response that carries it. *)
Definition oddText : jsstring :=
  lit "{" ++ quoted (lit "classification") ++ lit ":" ++ quoted (lit "LEGITIMATE")
  ++ lit "," ++ quoted (lit "confidence") ++ lit ":{" ++ quoted (lit "toString")
  ++ lit ":1}," ++ quoted (lit "reason") ++ lit ":" ++ quoted (lit "x") ++ lit "}".

Definition oddVerdict : jsval :=
  JObj [ (lit "classification", JStr (lit "LEGITIMATE"));
         (lit "confidence", JObj [ (lit "toString", JNum (num_of_Z 1)) ]);
         (lit "reason", JStr (lit "x")) ].

Definition oddReplyText : jsstring := lit "<response of the model: odd confidence>".

Definition oddReply : jsval :=
  JObj [ (lit "content", JArr [ JObj [ (lit "text", JStr oddText) ] ]) ].

Definition syntaxError : exn :=
  Error (lit "Unexpected token") (lit "SyntaxError: Unexpected token").

Definition parse (s : jsstring) : exn + jsval :=
  if jsstring_eqb s spamText then inr spamVerdict
  else if jsstring_eqb s replyText then inr reply
  else if jsstring_eqb s proseReplyText then inr proseReply
  else if jsstring_eqb s oddText then inr oddVerdict
  else if jsstring_eqb s oddReplyText then inr oddReply
  else inl syntaxError.

Definition stringifyField (kv : jsstring * jsval) : option jsstring :=
  match snd kv with
  | JStr s => Some (quoted (fst kv) ++ lit ":" ++ quoted s)
  | JBool true => Some (quoted (fst kv) ++ lit ":true")
  | JBool false => Some (quoted (fst kv) ++ lit ":false")
  | JNull => Some (quoted (fst kv) ++ lit ":null")
  | JUndefined => None
  | _ => Some (quoted (fst kv) ++ lit ":{}")
  end.

Fixpoint commas (l : list jsstring) : jsstring :=
  match l with
  | [] => []
  | x :: r => match r with [] => x | _ :: _ => x ++ lit "," ++ commas r end
  end.

Fixpoint somes {A} (l : list (option A)) : list A :=
  match l with
  | [] => []
  | Some x :: r => x :: somes r
  | None :: r => somes r
  end.

Definition stringify (v : jsval) : jsstring :=
  match v with
  | JObj fields => lit "{" ++ commas (somes (map stringifyField fields)) ++ lit "}"
  | JStr s => quoted s
  | _ => lit "null"
  end.

Definition typeError (k : jsstring) : exn :=
  Error (lit "Cannot read properties of undefined (reading '" ++ k ++ lit "')")
    (lit "TypeError").

Definition decode (v : jsval) : exn + jsstring :=
  match v with
  | JStr s => inr s
  | JUndefined => inr []
  | _ => inl (typeError (lit "decode"))
  end.

Definition sesOk : client :=
  fun _ => inr (JObj [ (lit "MessageId", JStr (lit "test-message-id")) ]).
Definition sesFails : client :=
  fun _ => inl (Error (lit "SES Error") (lit "Error: SES Error")).
Definition bedrockSpam : client :=
  fun _ => inr (JObj [ (lit "body", JStr replyText) ]).
Definition bedrockFails : client :=
  fun _ => inl (Error (lit "Bedrock timeout") (lit "Error: Bedrock timeout")).
Definition bedrockProse : client :=
  fun _ => inr (JObj [ (lit "body", JStr proseReplyText) ]).
Definition bedrockOdd : client :=
  fun _ => inr (JObj [ (lit "body", JStr oddReplyText) ]).
Definition dynamoOk : client := fun _ => inr (JObj []).
Definition dynamoError : exn := Error (lit "DynamoDB error") (lit "Error: DynamoDB error").
Definition dynamoFails : client := fun _ => inl dynamoError.

Definition rt : Runtime := {|
  uc_L := letter;
  uc_N := digit;
  uc_P := punctuation;
  uc_Z := separator;
  TypeError := typeError;
  TypeError_toPrimitive :=
    Error (lit "Cannot convert object to primitive value") (lit "TypeError");
  ValidationError_stack := lit "ValidationError";
  JSON_parse := parse;
  JSON_stringify := stringify;
  Buffer_base64_utf8 := fun _ => inl (Error (lit "base64 bodies are not supported") []);
  URLSearchParams_entries := fun _ => inr [];
  TextDecoder_decode := decode;
  Number_toString := fun _ => lit "0";
  Number_toFixed1 := fun _ => lit "0.0";
  StringToNumber := fun _ => NaN;
  randomUUID := lit "00000000-0000-4000-8000-000000000000";
  Date_now := 1700000000000%Z;
  Date_toISOString := lit "2023-11-14T22:13:20.000Z";
  new_SESClient := fun _ => sesOk;
  new_BedrockRuntimeClient := fun _ => bedrockSpam;
  new_DynamoDBDocumentClient := fun _ => dynamoOk
|}.

(** The default configuration with spam detection switched on. *)
Definition CONFIG_spam : Config := {|
  toAddress := toAddress CONFIG_default;
  fromAddress := fromAddress CONFIG_default;
  allowedOrigin := allowedOrigin CONFIG_default;
  region := region CONFIG_default;
  maxMessageLength := maxMessageLength CONFIG_default;
  maxNameLength := maxNameLength CONFIG_default;
  maxPhoneLength := maxPhoneLength CONFIG_default;
  subjectWordCount := subjectWordCount CONFIG_default;
  spamDetectionEnabled := true;
  spamModelId := spamModelId CONFIG_default;
  spamConfidenceThreshold := spamConfidenceThreshold CONFIG_default;
  blockedSubmissionsTable := blockedSubmissionsTable CONFIG_default
|}.

Definition submission (email name phone message : jsstring) : jsval :=
  JObj [ (lit "email", JStr email); (lit "name", JStr name);
         (lit "phone", JStr phone); (lit "message", JStr message) ].

Definition validData : jsval :=
  submission (lit "test@example.com") (lit "John Doe") (lit "555-1234")
    (lit "Test message").

Definition paddedData : jsval :=
  submission (lit "  test@example.com  ") (lit "  John Doe  ") (lit "  555-1234  ")
    (lit "  Test message  ").

Definition badNameData : jsval :=
  submission (lit "test@example.com") (lit "John123") (lit "555-1234")
    (lit "Test message").

Definition validContact : ContactData :=
  {| cd_email := lit "test@example.com"; cd_name := lit "John Doe";
     cd_phone := lit "555-1234"; cd_message := lit "Test message" |}.

(** An invocation whose body is the submission itself. *)
Definition postEvent : jsval :=
  JObj [ (lit "httpMethod", JStr (lit "POST")); (lit "body", validData) ].

Definition optionsEvent : jsval :=
  JObj [ (lit "httpMethod", JStr (lit "OPTIONS")); (lit "body", JStr (lit "not json")) ].

Definition lambdaContext : jsval :=
  JObj [ (lit "awsRequestId", JStr (lit "test-request-id")) ].

Definition oddResult : ClassificationResult :=
  {| classification := JStr (lit "LEGITIMATE");
     confidence := JObj [ (lit "toString", JNum (num_of_Z 1)) ];
     reason := JStr (lit "x");
     failedOpen := JUndefined |}.

Definition spamResult : ClassificationResult :=
  {| classification := JStr (lit "SPAM");
     confidence := JNum num_0_95;
     reason := JStr (lit "Obvious spam");
     failedOpen := JUndefined |}.

(** The schema of the unit tests of [validateField]: at most 10 code
    units, [/^[a-z]+$/]. *)
Definition testSchema : Schema :=
  {| maxLength := Some 10%Z;
     pattern :=
       Some {| re_unicode := false;
               re_body := RPlus (RClass (fun c => (97 <=? c) && (c <=? 122))%N) |} |}.

(** The configuration read from an environment whose SUBJECT_WORD_COUNT
    and SPAM_CONFIDENCE_THRESHOLD are not numbers ([parseInt] and
    [parseFloat] give NaN), with spam detection switched on. *)
Definition CONFIG_unparsed : Config := {|
  toAddress := toAddress CONFIG_default;
  fromAddress := fromAddress CONFIG_default;
  allowedOrigin := allowedOrigin CONFIG_default;
  region := region CONFIG_default;
  maxMessageLength := maxMessageLength CONFIG_default;
  maxNameLength := maxNameLength CONFIG_default;
  maxPhoneLength := maxPhoneLength CONFIG_default;
  subjectWordCount := None;
  spamDetectionEnabled := true;
  spamModelId := spamModelId CONFIG_default;
  spamConfidenceThreshold := NaN;
  blockedSubmissionsTable := blockedSubmissionsTable CONFIG_default
|}.

(** A request whose body is not JSON, one whose name has digits, one
    without a body, and one that carries the address of the client. *)
Definition jsonErrorEvent : jsval :=
  JObj [ (lit "body", JStr (lit "invalid json")) ].

Definition badNameEvent : jsval :=
  JObj [ (lit "httpMethod", JStr (lit "POST")); (lit "body", badNameData) ].

Definition emptyEvent : jsval :=
  JObj [ (lit "httpMethod", JStr (lit "POST")) ].

Definition gatewayEvent : jsval :=
  JObj [ (lit "httpMethod", JStr (lit "POST"));
         (lit "body", validData);
         (lit "requestContext",
          JObj [ (lit "http", JObj [ (lit "sourceIp", JStr (lit "203.0.113.7")) ]) ]) ].

End Sample.

(* ===================================================================== *)
(** ** The module *)
(* ===================================================================== *)

Section ContactForm.

Variable rt : Runtime.
Variable CONFIG : Config.

(** [error.stack] *)
Definition exn_stack (e : exn) : jsstring :=
  match e with
  | ValidationError _ _ => ValidationError_stack rt
  | Error _ s => s
  end.

(** [o.k] for the property names the module reads (none of them is a
    property of a primitive, of an array or of [Object.prototype]). *)
Definition getProp (o : jsval) (k : jsstring) : jsval :=
  match o with
  | JObj fields => lookup k fields
  | _ => JUndefined
  end.

(** [o.k]: a [TypeError] when [o] is [undefined] or [null]. *)
Definition member (o : jsval) (k : jsstring) : result jsval :=
  if isNullish o then inl (TypeError rt k) else inr (getProp o k).

(** [o?.k] *)
Definition optMember (o : jsval) (k : jsstring) : jsval :=
  if isNullish o then JUndefined else getProp o k.

(** [o[0]] *)
Definition index0 (o : jsval) : result jsval :=
  match o with
  | JUndefined | JNull => inl (TypeError rt (lit "0"))
  | JArr items => inr (hd JUndefined items)
  | JStr (c :: _) => inr (JStr [c])
  | JObj fields => inr (lookup (lit "0") fields)
  | _ => inr JUndefined
  end.

(** [v.trim()]: only a string has the method. *)
Definition callTrim (v : jsval) : result jsstring :=
  match v with
  | JStr s => inr (trim s)
  | _ => inl (TypeError rt (lit "trim"))
  end.

(** [Array.prototype.join] on strings *)
Fixpoint join (sep : jsstring) (l : list jsstring) : jsstring :=
  match l with
  | [] => []
  | x :: r => match r with [] => x | _ :: _ => x ++ sep ++ join sep r end
  end.

(** ToString, as a template literal applies it.  An object or an array is
    first made a primitive (ToPrimitive).  The objects here are those of
    [JSON.parse]: their own properties are never functions, so the
    conversion goes through [Object.prototype.toString] when the object
    has no own [toString], and throws a [TypeError] when it has one (it is
    not callable, and [valueOf], own or inherited, gives no primitive).  An
    array goes through [Array.prototype.join], which converts its elements
    in turn. *)
Fixpoint ToString (v : jsval) : result jsstring :=
  match v with
  | JUndefined => inr (lit "undefined")
  | JNull => inr (lit "null")
  | JBool true => inr (lit "true")
  | JBool false => inr (lit "false")
  | JNum x => inr (Number_toString rt x)
  | JStr s => inr s
  | JArr items =>
      match rmap (fun e => if isNullish e then inr [] else ToString e) items with
      | inl error => inl error
      | inr parts => inr (join (lit ",") parts)
      end
  | JObj fields =>
      if hasOwn (lit "toString") fields then inl (TypeError_toPrimitive rt)
      else inr (lit "[object Object]")
  end.

(** ToNumber, as [<], [>=] and [*] apply it to an operand: an object or an
    array is made a primitive first, which for the objects of [JSON.parse]
    is the string above. *)
Definition ToNumber (v : jsval) : result number :=
  match v with
  | JUndefined => inr NaN
  | JNull => inr (S754_zero false)
  | JBool true => inr (num_of_Z 1)
  | JBool false => inr (S754_zero false)
  | JNum x => inr x
  | JStr s => inr (StringToNumber rt s)
  | JArr _ | JObj _ => (s <- ToString v ;; inr (StringToNumber rt s))%result
  end.

(** [v < x] and [v >= x] against a number *)
Definition js_lt (v : jsval) (x : number) : result bool :=
  (n <- ToNumber v ;; inr (num_lt n x))%result.
Definition js_ge (v : jsval) (x : number) : result bool :=
  (n <- ToNumber v ;; inr (num_ge n x))%result.

(** *** Validation schemas (lines 24-41) *)


Definition isDigit (c : N) : bool := ((48 <=? c) && (c <=? 57))%N.

(** [[^\s@]] *)
Definition class_notSpaceAt (c : N) : bool := negb (isWhiteSpace c || (c =? 64)%N).
(** [[\p{L}\s'-]] *)
Definition class_name (c : N) : bool :=
  uc_L rt c || isWhiteSpace c || (c =? 39)%N || (c =? 45)%N.
(** [[\d\s+()-]] *)
Definition class_phone (c : N) : bool :=
  isDigit c || isWhiteSpace c || (c =? 43)%N || (c =? 40)%N || (c =? 41)%N
  || (c =? 45)%N.
(** [[\p{L}\p{N}\p{P}\p{Z}\n\r]] *)
Definition class_message (c : N) : bool :=
  uc_L rt c || uc_N rt c || uc_P rt c || uc_Z rt c || (c =? 10)%N || (c =? 13)%N.


Definition VALIDATION : Validation := {|
  v_email := {|
    maxLength := Some 255%Z;
    (* /^[^\s@]+@[^\s@]+\.[^\s@]+$/ *)
    pattern := Some {| re_unicode := false;
                       re_body :=
                         RSeq (RPlus (RClass class_notSpaceAt))
                           (RSeq (RClass (N.eqb 64))
                              (RSeq (RPlus (RClass class_notSpaceAt))
                                 (RSeq (RClass (N.eqb 46))
                                    (RPlus (RClass class_notSpaceAt))))) |} |};
  v_name := {|
    maxLength := maxNameLength CONFIG;
    (* /^[\p{L}\s'-]+$/u *)
    pattern := Some {| re_unicode := true; re_body := RPlus (RClass class_name) |} |};
  v_phone := {|
    maxLength := maxPhoneLength CONFIG;
    (* /^[\d\s+()-]+$/ *)
    pattern := Some {| re_unicode := false; re_body := RPlus (RClass class_phone) |} |};
  v_message := {|
    maxLength := maxMessageLength CONFIG;
    (* /^[\p{L}\p{N}\p{P}\p{Z}\n\r]+$/u *)
    pattern := Some {| re_unicode := true; re_body := RPlus (RClass class_message) |} |}
|}.

(** [n > maxLength] for a length [n]; never true against NaN. *)
Definition exceeds (n : nat) (maxLength : option Z) : bool :=
  match maxLength with
  | Some m => (m <? Z.of_nat n)%Z
  | None => false
  end.

(** [`${maxLength}`] *)
Definition maxLength_toString (maxLength : option Z) : jsstring :=
  match maxLength with
  | Some m => Z_toString m
  | None => lit "NaN"
  end.

(** *** validateField (lines 57-80) *)
Definition validateField (value : jsval) (fieldName : jsstring) (schema : Schema)
  : result jsstring :=
  if negb (truthy value) || negb (isString value) then
    inl (ValidationError fieldName (fieldName ++ lit " is required"))
  else
    let trimmed := trim (asString value) in
    if (List.length trimmed =? 0)%nat then
      inl (ValidationError fieldName (fieldName ++ lit " cannot be empty"))
    else if exceeds (List.length trimmed) (maxLength schema) then
      inl (ValidationError fieldName
             (fieldName ++ lit " must be less than "
                ++ maxLength_toString (maxLength schema) ++ lit " characters"))
    else if match pattern schema with
            | Some re => negb (RegExp_test re trimmed)
            | None => false
            end then
      inl (ValidationError fieldName (fieldName ++ lit " contains invalid characters"))
    else inr trimmed.


(** *** validateContactForm (lines 85-92) *)
Definition validateContactForm (data : jsval) : result ContactData :=
  (v <- member data (lit "email") ;;
   email <- validateField v (lit "email") (v_email VALIDATION) ;;
   v <- member data (lit "name") ;;
   name <- validateField v (lit "name") (v_name VALIDATION) ;;
   v <- member data (lit "phone") ;;
   phone <- validateField v (lit "phone") (v_phone VALIDATION) ;;
   v <- member data (lit "message") ;;
   message <- validateField v (lit "message") (v_message VALIDATION) ;;
   inr {| cd_email := email; cd_name := name; cd_phone := phone;
          cd_message := message |})%result.

(** *** createResponse (lines 97-109) *)

Definition createResponse (statusCode : Z) (body : jsval) (additionalHeaders : object)
  : Response :=
  {| statusCode := statusCode;
     headers :=
       spread
         [ (lit "Content-Type", JStr (lit "application/json"));
           (lit "Access-Control-Allow-Origin", JStr (allowedOrigin CONFIG));
           (lit "Access-Control-Allow-Headers", JStr (lit "Content-Type"));
           (lit "Access-Control-Allow-Methods", JStr (lit "POST, OPTIONS")) ]
         additionalHeaders;
     body := JSON_stringify rt body |}.

(** *** generateSubject (lines 114-129) *)

(** [s.replace(/\s+/g, ' ')]: each maximal run of white space becomes one
    space.  [inRun] tells that the previous code unit was white space. *)
Fixpoint replaceSpaceRuns (inRun : bool) (s : jsstring) : jsstring :=
  match s with
  | [] => []
  | c :: r =>
      if isWhiteSpace c then
        if inRun then replaceSpaceRuns true r else 32%N :: replaceSpaceRuns true r
      else c :: replaceSpaceRuns false r
  end.

(** [s.split(' ')] *)
Fixpoint split (s : jsstring) : list jsstring :=
  match s with
  | [] => [[]]
  | c :: r =>
      if (c =? 32)%N then [] :: split r
      else match split r with
           | w :: ws => (c :: w) :: ws
           | [] => [[c]]
           end
  end.

(** [l.slice(0, n)]: NaN counts as 0, a negative [n] counts from the end. *)
Definition slice0 {A} (l : list A) (n : option Z) : list A :=
  match n with
  | None => []
  | Some e =>
      if (e <? 0)%Z then firstn (Z.to_nat (Z.max (Z.of_nat (List.length l) + e) 0)) l
      else firstn (Z.to_nat e) l
  end.


(** The marker put in front of a subject that is not clean: U+1F928 and a space. *)
Definition marker : jsstring := [0xD83E; 0xDD28; 32]%N.

Definition generateSubject (message : jsstring)
    (classificationResult : option ClassificationResult) : result jsstring :=
  let words := split (trim (replaceSpaceRuns false message)) in
  let subject := join (lit " ") (slice0 words (subjectWordCount CONFIG)) in
  let subject :=
    if (List.length subject <? List.length message)%nat
    then subject ++ lit "..." else subject in
  match classificationResult with
  | Some cr =>
      (isNotClean <-
         (if strictEqStr (classification cr) (lit "SALES") then inr true
          else if strictEqStr (classification cr) (lit "LEGITIMATE")
               then js_lt (confidence cr) num_0_9
               else inr false) ;;
       inr (if (isNotClean : bool) then marker ++ subject else subject))%result
  | None => inr subject
  end.

(** *** formatEmailBody (lines 134-163) *)
Definition formatEmailBody (contactData : ContactData)
    (classificationResult : option ClassificationResult) : result jsstring :=
  let lines :=
    [ lit "New Contact Form Submission";
      [];
      lit "Name: " ++ cd_name contactData;
      lit "Email: " ++ cd_email contactData;
      lit "Phone: " ++ cd_phone contactData;
      [] ] in
  (lines <-
     match classificationResult with
     | Some cr =>
         classificationText <- ToString (classification cr) ;;
         confidenceNumber <- ToNumber (confidence cr) ;;
         reasonText <- ToString (reason cr) ;;
         inr (lines
                ++ [ lit "Spam Detection:";
                     lit "  Classification: " ++ classificationText;
                     lit "  Confidence: "
                       ++ Number_toFixed1 rt (num_mul confidenceNumber (num_of_Z 100))
                       ++ lit "%";
                     lit "  Reason: " ++ reasonText ]
                ++ (if truthy (failedOpen cr)
                    then [ lit "  " ++ [0x26A0; 0xFE0F]%N
                             ++ lit "  Bedrock classification failed - failed open" ]
                    else [])
                ++ [ [] ])
     | None => inr lines
     end ;;
   let lines :=
     lines ++ [ lit "Message:"; cd_message contactData; []; lit "---";
                lit "Submitted: " ++ Date_toISOString rt ] in
   inr (join [10%N] lines))%result.

(** [await client.send(command)], recorded in the trace *)
Definition send (call : jsval -> effect) (c : client) (command : jsval) : io jsval :=
  ([call command], c command).

(** *** classifySubmission (lines 168-231) *)

Definition dq : jsstring := [34%N].
Definition nl : jsstring := [10%N].
Definition fence : jsstring := lit "```".

Definition classifyPrompt (contactData : ContactData) : jsstring :=
  lit "Analyze this contact form submission and classify it. Respond ONLY with valid JSON in this exact format:" ++ nl
  ++ lit "{" ++ dq ++ lit "classification" ++ dq ++ lit ": " ++ dq
  ++ lit "LEGITIMATE|SPAM|SALES|GIBBERISH" ++ dq ++ lit ", " ++ dq ++ lit "confidence"
  ++ dq ++ lit ": 0.0-1.0, " ++ dq ++ lit "reason" ++ dq ++ lit ": " ++ dq
  ++ lit "brief explanation" ++ dq ++ lit "}" ++ nl
  ++ nl
  ++ lit "Classifications:" ++ nl
  ++ lit "- LEGITIMATE: Real person with genuine inquiry or feedback" ++ nl
  ++ lit "- SPAM: Automated spam, phishing attempts, or malicious content" ++ nl
  ++ lit "- SALES: Someone trying to sell services, products, or SEO services" ++ nl
  ++ lit "- GIBBERISH: Random text, keyboard mashing, or nonsensical content" ++ nl
  ++ nl
  ++ lit "Submission:" ++ nl
  ++ lit "Name: " ++ cd_name contactData ++ nl
  ++ lit "Email: " ++ cd_email contactData ++ nl
  ++ lit "Phone: " ++ cd_phone contactData ++ nl
  ++ lit "Message: " ++ cd_message contactData.

(** [.replace(/^```(?:json)?\n/, '')] *)
Definition removeOpeningFence (s : jsstring) : jsstring :=
  match stripPrefix (fence ++ lit "json" ++ nl) s with
  | Some r => r
  | None =>
      match stripPrefix (fence ++ nl) s with
      | Some r => r
      | None => s
      end
  end.

(** [.replace(/\n```$/, '')] *)
Definition removeClosingFence (s : jsstring) : jsstring :=
  match stripSuffix (nl ++ fence) s with
  | Some r => r
  | None => s
  end.

(** The [try] block (lines 185-220) *)
Definition classifySubmission_try (prompt : jsstring) (bedrockClient : client)
  : io ClassificationResult :=
  let payload :=
    JObj [ (lit "anthropic_version", JStr (lit "bedrock-2023-05-31"));
           (lit "max_tokens", JNum (num_of_Z 200));
           (lit "messages",
            JArr [ JObj [ (lit "role", JStr (lit "user"));
                          (lit "content",
                           JArr [ JObj [ (lit "type", JStr (lit "text"));
                                         (lit "text", JStr prompt) ] ]) ] ]) ] in
  let command :=
    JObj [ (lit "modelId", JStr (spamModelId CONFIG));
           (lit "contentType", JStr (lit "application/json"));
           (lit "body", JStr (JSON_stringify rt payload)) ] in
  (response <- send BedrockSend bedrockClient command ;;
   lift
     (bytes <- member response (lit "body") ;;
      text <- TextDecoder_decode rt bytes ;;
      responseBody <- JSON_parse rt text ;;
      content <- member responseBody (lit "content") ;;
      first <- index0 content ;;
      text <- member first (lit "text") ;;
      classificationText <- callTrim text ;;
      let classificationText :=
        if startsWith classificationText fence
        then removeClosingFence (removeOpeningFence classificationText)
        else classificationText in
      result <- JSON_parse rt classificationText ;;
      classification <- member result (lit "classification") ;;
      confidence <- member result (lit "confidence") ;;
      reason <- member result (lit "reason") ;;
      inr {| classification := classification;
             confidence := confidence;
             reason := reason;
             failedOpen := JUndefined |})%result)%io.

(** The [catch] block (lines 221-230) *)
Definition classifySubmission_catch (error : exn) : io ClassificationResult :=
  (emit (ConsoleError (lit "Spam classification failed, failing open")
           (JObj [ (lit "error", JStr (exn_message error)) ])) ;;
   ret {| classification := JStr (lit "LEGITIMATE");
          confidence := JNum (S754_zero false);
          reason := JStr (lit "Classification error: " ++ exn_message error);
          failedOpen := JBool true |})%io.

Definition classifySubmission (contactData : ContactData) (bedrockClient : client)
  : io ClassificationResult :=
  let prompt := classifyPrompt contactData in
  try_catch (classifySubmission_try prompt bedrockClient) classifySubmission_catch.

(** *** logBlockedSubmission (lines 236-277) *)
(** The [try] block (lines 238-268) *)
Definition logBlockedSubmission_try (contactData : ContactData)
    (classificationResult : ClassificationResult) (event : jsval)
    (dynamoClient : client) : io jsval :=
  let submissionId := randomUUID rt in
  let timestamp := Date_now rt in
  let ttl := (timestamp / 1000 + 90 * 24 * 60 * 60)%Z in
  (requestContext <- lift (member event (lit "requestContext")) ;;
   let ipAddress :=
     js_or (optMember (optMember requestContext (lit "http")) (lit "sourceIp"))
       (js_or (optMember (optMember requestContext (lit "identity")) (lit "sourceIp"))
          (JStr (lit "unknown"))) in
   let item :=
     JObj [ (lit "submissionId", JStr submissionId);
            (lit "timestamp", JNum (num_of_Z timestamp));
            (lit "ttl", JNum (num_of_Z ttl));
            (lit "name", JStr (cd_name contactData));
            (lit "email", JStr (cd_email contactData));
            (lit "phone", JStr (cd_phone contactData));
            (lit "message", JStr (cd_message contactData));
            (lit "classification", classification classificationResult);
            (lit "confidence", confidence classificationResult);
            (lit "reason", reason classificationResult);
            (lit "ipAddress", ipAddress);
            (lit "blockedAt", JStr (Date_toISOString rt)) ] in
   let command :=
     JObj [ (lit "TableName", JStr (blockedSubmissionsTable CONFIG));
            (lit "Item", item) ] in
   send DynamoSend dynamoClient command ;;
   ret (JStr submissionId))%io.

(** The [catch] block (lines 269-276) *)
Definition logBlockedSubmission_catch (error : exn) : io jsval :=
  (emit (ConsoleError (lit "Failed to log blocked submission to DynamoDB")
           (JObj [ (lit "error", JStr (exn_message error));
                   (lit "stack", JStr (exn_stack error)) ])) ;;
   ret JNull)%io.

Definition logBlockedSubmission (contactData : ContactData)
    (classificationResult : ClassificationResult) (event : jsval)
    (dynamoClient : client) : io jsval :=
  try_catch
    (logBlockedSubmission_try contactData classificationResult event dynamoClient)
    logBlockedSubmission_catch.

(** *** sendEmail (lines 282-309) *)
Definition sendEmail (contactData : ContactData) (sesClient : client)
    (classificationResult : option ClassificationResult) : io jsval :=
  (subject <- lift (generateSubject (cd_message contactData) classificationResult) ;;
   body <- lift (formatEmailBody contactData classificationResult) ;;
   let replyTo := cd_name contactData ++ lit " <" ++ cd_email contactData ++ lit ">" in
   let command :=
     JObj [ (lit "Destination",
             JObj [ (lit "ToAddresses", JArr [ JStr (toAddress CONFIG) ]) ]);
            (lit "Message",
             JObj [ (lit "Body",
                     JObj [ (lit "Text",
                             JObj [ (lit "Data", JStr body);
                                    (lit "Charset", JStr (lit "UTF-8")) ]) ]);
                    (lit "Subject",
                     JObj [ (lit "Data", JStr subject);
                            (lit "Charset", JStr (lit "UTF-8")) ]) ]);
            (lit "Source", JStr (fromAddress CONFIG));
            (lit "ReplyToAddresses", JArr [ JStr replyTo ]) ] in
   result <- send SesSend sesClient command ;;
   lift (member result (lit "MessageId")))%io.

(** *** handler (lines 314-441) *)

(** [String.prototype.includes] *)
Fixpoint String_includes (s p : jsstring) : bool :=
  startsWith s p
  || match s with
     | [] => false
     | _ :: s' => String_includes s' p
     end.

(** [v.includes('literal')]: strings and arrays have the method. *)
Definition callIncludes (v : jsval) (p : jsstring) : result bool :=
  match v with
  | JStr s => inr (String_includes s p)
  | JArr items => inr (existsb (fun e => strictEqStr e p) items)
  | _ => inl (TypeError rt (lit "includes"))
  end.

(** [Object.fromEntries]: a later entry replaces an earlier one with its key. *)
Definition Object_fromEntries (entries : list (jsstring * jsstring)) : object :=
  spread [] (map (fun kv => (fst kv, JStr (snd kv))) entries).

(** The [log] closure of the handler (lines 321-329) *)
Definition requestIdOf (context : jsval) : jsval :=
  js_or (optMember context (lit "awsRequestId"))
    (js_or (optMember context (lit "requestId")) (JStr (lit "local"))).

Definition log (requestId : jsval) (level message : jsstring) (data : object)
  : io unit :=
  emit (ConsoleLog
          (JSON_stringify rt
             (JObj (spread [ (lit "level", JStr level);
                             (lit "requestId", requestId);
                             (lit "message", JStr message) ] data)))).

(** The test of line 333 *)
Definition isPreflight (event : jsval) : result bool :=
  (httpMethod <- member event (lit "httpMethod") ;;
   if strictEqStr httpMethod (lit "OPTIONS") then inr true
   else
     requestContext <- member event (lit "requestContext") ;;
     inr (strictEqStr (optMember (optMember requestContext (lit "http")) (lit "method"))
            (lit "OPTIONS")))%result.

(** Lines 339-364: the decoded request, or the answer the handler returns
    from inside the block. *)
Definition parseRequestBody (requestId event : jsval) : io (Response + jsval) :=
  try_catch
    (body <- lift (member event (lit "body")) ;;
     isBase64 <- lift (member event (lit "isBase64Encoded")) ;;
     decodedBody <-
       lift (if truthy isBase64
             then (s <- Buffer_base64_utf8 rt body ;; inr (JStr s))%result
             else inr body) ;;
     eventHeaders <- lift (member event (lit "headers")) ;;
     let contentType :=
       js_or (optMember eventHeaders (lit "content-type"))
         (js_or (optMember eventHeaders (lit "Content-Type")) (JStr [])) in
     isForm <- lift (callIncludes contentType (lit "application/x-www-form-urlencoded")) ;;
     if (isForm : bool) then
       entries <- lift (URLSearchParams_entries rt decodedBody) ;;
       let data := JObj (Object_fromEntries entries) in
       log requestId (lit "info") (lit "Parsed URL-encoded form data") [] ;;
       ret (inr data)
     else
       data <- lift (if isString decodedBody
                     then JSON_parse rt (asString decodedBody)
                     else inr decodedBody) ;;
       log requestId (lit "info") (lit "Parsed JSON data") [] ;;
       ret (inr data))%io
    (fun error =>
       (log requestId (lit "warn") (lit "Invalid request body")
          [ (lit "error", JStr (exn_message error)) ] ;;
        ret (inl (createResponse 400
                    (JObj [ (lit "error", JStr (lit "Invalid request format")) ]) [])))%io).

(** Lines 366-379 *)
Definition validateInput (requestId data : jsval) : io (Response + ContactData) :=
  try_catch
    (contactData <- lift (validateContactForm data) ;;
     ret (inr contactData))%io
    (fun error =>
       match error with
       | ValidationError field message =>
           (log requestId (lit "warn") (lit "Validation failed")
              [ (lit "field", JStr field); (lit "message", JStr message) ] ;;
            ret (inl (createResponse 400
                        (JObj [ (lit "error", JStr message);
                                (lit "field", JStr field) ]) [])))%io
       | _ => throw error
       end).

(** Lines 381-418: the classification the notifier is given, or the answer
    returned when the submission is blocked. *)
Definition spamDetection (requestId event : jsval) (contactData : ContactData)
    (bedrockClientInstance dynamoClientInstance : client)
  : io (Response + option ClassificationResult) :=
  if spamDetectionEnabled CONFIG then
    (classificationResult <- classifySubmission contactData bedrockClientInstance ;;
     log requestId (lit "info") (lit "Spam classification completed")
       [ (lit "classification", classification classificationResult);
         (lit "confidence", confidence classificationResult);
         (lit "failedOpen", js_or (failedOpen classificationResult) (JBool false)) ] ;;
     let isSpamOrGibberish :=
       strictEqStr (classification classificationResult) (lit "SPAM")
       || strictEqStr (classification classificationResult) (lit "GIBBERISH") in
     isHighConfidence <-
       lift (js_ge (confidence classificationResult) (spamConfidenceThreshold CONFIG)) ;;
     if isSpamOrGibberish && isHighConfidence then
       submissionId <- logBlockedSubmission contactData classificationResult event
                         dynamoClientInstance ;;
       log requestId (lit "warn") (lit "Blocked spam submission")
         [ (lit "submissionId", submissionId);
           (lit "classification", classification classificationResult);
           (lit "confidence", confidence classificationResult);
           (lit "reason", reason classificationResult) ] ;;
       ret (inl (createResponse 200
                   (JObj [ (lit "message",
                            JStr (lit "Thank you for contacting us! Your message has been sent."));
                           (lit "success", JBool true) ]) []))
     else ret (inr (Some classificationResult)))%io
  else ret (inr None).

(** Lines 420-428 *)
Definition forward (requestId : jsval) (contactData : ContactData)
    (sesClientInstance : client) (classificationResult : option ClassificationResult)
  : io Response :=
  (messageId <- sendEmail contactData sesClientInstance classificationResult ;;
   log requestId (lit "info") (lit "Email sent successfully")
     [ (lit "messageId", messageId) ] ;;
   ret (createResponse 200
          (JObj [ (lit "message",
                   JStr (lit "Thank you for contacting us! Your message has been sent."));
                  (lit "success", JBool true) ]) []))%io.

(** An injected client is used when given, a new one is made otherwise. *)
Definition clientOr (injected : option client) (make : jsstring -> client) : client :=
  match injected with
  | Some c => c
  | None => make (region CONFIG)
  end.

(** The [try] block (lines 331-428) *)
Definition handler_try (requestId event : jsval)
    (sesClientInstance bedrockClientInstance dynamoClientInstance : client)
  : io Response :=
  (preflight <- lift (isPreflight event) ;;
   if (preflight : bool) then
     ret (createResponse 200 (JObj [ (lit "message", JStr (lit "OK")) ]) [])
   else
     log requestId (lit "info") (lit "Processing contact form submission") [] ;;
     parsed <- parseRequestBody requestId event ;;
     match parsed with
     | inl response => ret response
     | inr data =>
         validated <- validateInput requestId data ;;
         match validated with
         | inl response => ret response
         | inr contactData =>
             decided <- spamDetection requestId event contactData
                          bedrockClientInstance dynamoClientInstance ;;
             match decided with
             | inl response => ret response
             | inr classificationResult =>
                 forward requestId contactData sesClientInstance classificationResult
             end
         end
     end)%io.

(** The [catch] block (lines 430-440) *)
Definition handler_catch (requestId : jsval) (error : exn) : io Response :=
  (log requestId (lit "error") (lit "Failed to process contact form")
     [ (lit "error", JStr (exn_message error));
       (lit "stack", JStr (exn_stack error)) ] ;;
   ret (createResponse 500
          (JObj [ (lit "error",
                   JStr (lit "Unable to send message. Please try again later.")) ])
          []))%io.

Definition handler (event context : jsval)
    (sesClient bedrockClient dynamoClient : option client) : io Response :=
  let sesClientInstance := clientOr sesClient (new_SESClient rt) in
  let bedrockClientInstance := clientOr bedrockClient (new_BedrockRuntimeClient rt) in
  let dynamoClientInstance := clientOr dynamoClient (new_DynamoDBDocumentClient rt) in
  let requestId := requestIdOf context in
  try_catch
    (handler_try requestId event sesClientInstance bedrockClientInstance
       dynamoClientInstance)
    (handler_catch requestId).

(* ===================================================================== *)
(** ** Notions of the design document *)
(* ===================================================================== *)

Definition allWhiteSpace (s : jsstring) : bool := forallb isWhiteSpace s.

(** The pattern test of line 75, as a fact about the trimmed value. *)
Definition patternAccepts (schema : Schema) (trimmed : jsstring) : bool :=
  match pattern schema with
  | Some re => RegExp_test re trimmed
  | None => true
  end.

(** The fields of the form with their schemas, in the order of the design
    document: email, name, phone, message. *)
Definition formSchemas : list (jsstring * Schema) :=
  [ (lit "email", v_email VALIDATION);
    (lit "name", v_name VALIDATION);
    (lit "phone", v_phone VALIDATION);
    (lit "message", v_message VALIDATION) ].

(** Each field of a record checked on its own. *)
Definition fieldChecks (data : jsval) : list (jsstring * result jsstring) :=
  map (fun ks => (fst ks, validateField (getProp data (fst ks)) (fst ks) (snd ks)))
    formSchemas.

(** The first check of a list that failed, with its field. *)
Fixpoint firstFailure (checks : list (jsstring * result jsstring))
  : option (jsstring * exn) :=
  match checks with
  | [] => None
  | (field, inl e) :: _ => Some (field, e)
  | (_, inr _) :: rest => firstFailure rest
  end.

(** [s'] is [s] with white space added in front and behind. *)
Definition isPadding (s s' : jsstring) : Prop :=
  exists l r, allWhiteSpace l = true /\ allWhiteSpace r = true /\ s' = l ++ s ++ r.

Definition formFields : list jsstring :=
  [ lit "email"; lit "name"; lit "phone"; lit "message" ].

(** [x'] is a record whose four form fields are strings related by [R] to
    those of [x]. *)
Definition fieldsRelated (R : jsstring -> jsstring -> Prop) (x x' : jsval) : Prop :=
  isNullish x' = false /\
  forall k, In k formFields ->
    exists s s', getProp x k = JStr s /\ getProp x' k = JStr s' /\ R s s'.

(** The request is not a preflight, its body decodes, and the validator
    accepts the decoded submission as [contactData]. *)
Definition passesValidation (event context : jsval) (contactData : ContactData)
  : Prop :=
  isPreflight event = inr false /\
  exists data,
    outcome (parseRequestBody (requestIdOf context) event) = inr (inr data)
    /\ validateContactForm data = inr contactData.

(** The decision policy of the design document: block on SPAM or GIBBERISH
    with a confidence at or above the threshold. *)
Definition policyBlocks (cr : ClassificationResult) : Prop :=
  (classification cr = JStr (lit "SPAM") \/ classification cr = JStr (lit "GIBBERISH"))
  /\ js_ge (confidence cr) (spamConfidenceThreshold CONFIG) = inr true.

Definition isDynamoSend (e : effect) : bool :=
  match e with DynamoSend _ => true | _ => false end.
Definition isSesSend (e : effect) : bool :=
  match e with SesSend _ => true | _ => false end.
Definition isBedrockSend (e : effect) : bool :=
  match e with BedrockSend _ => true | _ => false end.

(** How many times a run wrote to the store, dispatched an email, called
    the classifier. *)
Definition storeWrites (t : list effect) : nat := List.length (filter isDynamoSend t).
Definition emailDispatches (t : list effect) : nat := List.length (filter isSesSend t).
Definition classifierCalls (t : list effect) : nat := List.length (filter isBedrockSend t).

(** A trace of [console] lines only. *)
Definition quiet (t : list effect) : Prop :=
  storeWrites t = 0 /\ emailDispatches t = 0 /\ classifierCalls t = 0.

(** The command [classifySubmission] sends to the model (lines 186-201). *)
Definition classifyCommand (contactData : ContactData) : jsval :=
  JObj [ (lit "modelId", JStr (spamModelId CONFIG));
         (lit "contentType", JStr (lit "application/json"));
         (lit "body",
          JStr (JSON_stringify rt
                  (JObj [ (lit "anthropic_version", JStr (lit "bedrock-2023-05-31"));
                          (lit "max_tokens", JNum (num_of_Z 200));
                          (lit "messages",
                           JArr [ JObj [ (lit "role", JStr (lit "user"));
                                         (lit "content",
                                          JArr [ JObj [ (lit "type", JStr (lit "text"));
                                                        (lit "text",
                                                         JStr (classifyPrompt
                                                                 contactData)) ] ]) ] ])
                        ]))) ].

(** The response of the model decodes, and the text of its first content
    block ([responseBody.content[0].text]) is the string [t]. *)
Definition answersWith (response : jsval) (t : jsstring) : Prop :=
  isNullish response = false
  /\ exists text responseBody first rest,
       TextDecoder_decode rt (getProp response (lit "body")) = inr text
       /\ JSON_parse rt text = inr responseBody
       /\ getProp responseBody (lit "content") = JArr (first :: rest)
       /\ getProp first (lit "text") = JStr t.

(** The text of the model without a code fence around it (lines 207-211). *)
Definition unfenced (classificationText : jsstring) : jsstring :=
  if startsWith classificationText fence
  then removeClosingFence (removeOpeningFence classificationText)
  else classificationText.

(** The result [classifySubmission] falls back to on an error. *)
Definition failOpenResult (error : exn) : ClassificationResult :=
  {| classification := JStr (lit "LEGITIMATE");
     confidence := JNum (S754_zero false);
     reason := JStr (lit "Classification error: " ++ exn_message error);
     failedOpen := JBool true |}.

(** The answer of a sent and of a blocked submission. *)
Definition successResponse : Response :=
  {| statusCode := 200;
     headers :=
       [ (lit "Content-Type", JStr (lit "application/json"));
         (lit "Access-Control-Allow-Origin", JStr (allowedOrigin CONFIG));
         (lit "Access-Control-Allow-Headers", JStr (lit "Content-Type"));
         (lit "Access-Control-Allow-Methods", JStr (lit "POST, OPTIONS")) ];
     body :=
       JSON_stringify rt
         (JObj [ (lit "message",
                  JStr (lit "Thank you for contacting us! Your message has been sent."));
                 (lit "success", JBool true) ]) |}.

(** The answer to a failed dispatch. *)
Definition sendFailureResponse : Response :=
  {| statusCode := 500;
     headers :=
       [ (lit "Content-Type", JStr (lit "application/json"));
         (lit "Access-Control-Allow-Origin", JStr (allowedOrigin CONFIG));
         (lit "Access-Control-Allow-Headers", JStr (lit "Content-Type"));
         (lit "Access-Control-Allow-Methods", JStr (lit "POST, OPTIONS")) ];
     body :=
       JSON_stringify rt
         (JObj [ (lit "error",
                  JStr (lit "Unable to send message. Please try again later.")) ]) |}.

(** The answer to a preflight. *)
Definition preflightResponse : Response :=
  {| statusCode := 200;
     headers :=
       [ (lit "Content-Type", JStr (lit "application/json"));
         (lit "Access-Control-Allow-Origin", JStr (allowedOrigin CONFIG));
         (lit "Access-Control-Allow-Headers", JStr (lit "Content-Type"));
         (lit "Access-Control-Allow-Methods", JStr (lit "POST, OPTIONS")) ];
     body := JSON_stringify rt (JObj [ (lit "message", JStr (lit "OK")) ]) |}.

(** What the handler does once a submission is validated (lines 381-428). *)
Definition dispatch (requestId event : jsval) (contactData : ContactData)
    (sesClientInstance bedrockClientInstance dynamoClientInstance : client)
  : io Response :=
  (decided <- spamDetection requestId event contactData
                bedrockClientInstance dynamoClientInstance ;;
   match decided with
   | inl response => ret response
   | inr classificationResult =>
       forward requestId contactData sesClientInstance classificationResult
   end)%io.

(** The test of line 396, false when the comparison of line 394 threw. *)
Definition blockTest (cr : ClassificationResult) : bool :=
  (strictEqStr (classification cr) (lit "SPAM")
   || strictEqStr (classification cr) (lit "GIBBERISH"))
  && match js_ge (confidence cr) (spamConfidenceThreshold CONFIG) with
     | inr isHighConfidence => isHighConfidence
     | inl _ => false
     end.

(** A value that converts to a primitive: it is one, or an object without
    an own [toString], or an array of such values. *)
Fixpoint convertible (v : jsval) : bool :=
  match v with
  | JArr items => forallb convertible items
  | JObj fields => negb (hasOwn (lit "toString") fields)
  | _ => true
  end.

(** A classification result whose label, confidence and reason convert to
    primitives, as those of the documented format (a string, a number, a
    string) do. *)
Definition convertibleResult (cr : ClassificationResult) : bool :=
  convertible (classification cr) && convertible (confidence cr)
  && convertible (reason cr).

(** The same for what the notifier is given: a result, or [null]. *)
Definition convertibleClassification (ocr : option ClassificationResult) : bool :=
  match ocr with
  | Some cr => convertibleResult cr
  | None => true
  end.

(** The words of a message: its maximal runs of code units that are not
    white space.  [cur] is the word being read. *)
Fixpoint wordsFrom (cur : jsstring) (s : jsstring) : list jsstring :=
  match s with
  | [] => match cur with [] => [] | _ :: _ => [cur] end
  | c :: r =>
      if isWhiteSpace c then
        match cur with
        | [] => wordsFrom [] r
        | _ :: _ => cur :: wordsFrom [] r
        end
      else wordsFrom (cur ++ [c]) r
  end.

Definition wordsOf (s : jsstring) : list jsstring := wordsFrom [] s.

(** The message with its runs of white space made single spaces, trimmed. *)
Definition normalize (message : jsstring) : jsstring :=
  trim (replaceSpaceRuns false message).

(** The subject of the design document: the first [n] words, with an
    ellipsis when that prefix is shorter than the normalized message. *)
Definition subjectAsStated (n : nat) (message : jsstring) : jsstring :=
  let prefix := join (lit " ") (firstn n (wordsOf message)) in
  if (List.length prefix <? List.length (normalize message))%nat
  then prefix ++ lit "..." else prefix.

(** The same, with the length of the message as it was given. *)
Definition subjectAsCoded (n : nat) (message : jsstring) : jsstring :=
  let prefix := join (lit " ") (firstn n (wordsOf message)) in
  if (List.length prefix <? List.length message)%nat
  then prefix ++ lit "..." else prefix.

(** No code unit of the string is white space. *)
Definition noWhiteSpace (s : jsstring) : bool :=
  forallb (fun c => negb (isWhiteSpace c)) s.

(** What a regular expression matches: the strings of its language. *)
Inductive Matches : regex -> list N -> Prop :=
| MatchesEps : Matches REps []
| MatchesClass p c : p c = true -> Matches (RClass p) [c]
| MatchesSeq r1 r2 s1 s2 :
    Matches r1 s1 -> Matches r2 s2 -> Matches (RSeq r1 r2) (s1 ++ s2)
| MatchesAltL r1 r2 s : Matches r1 s -> Matches (RAlt r1 r2) s
| MatchesAltR r1 r2 s : Matches r2 s -> Matches (RAlt r1 r2) s
| MatchesStarNil r : Matches (RStar r) []
| MatchesStarApp r s1 s2 :
    Matches r s1 -> Matches (RStar r) s2 -> Matches (RStar r) (s1 ++ s2).

(** The shape [local@domain.tld]: three non-empty parts without white space
    or [@], separated by an [@] and a dot. *)
Definition emailShape (s : jsstring) : Prop :=
  exists a b c,
    s = a ++ 64%N :: b ++ 46%N :: c
    /\ a <> [] /\ b <> [] /\ c <> []
    /\ forallb class_notSpaceAt a = true
    /\ forallb class_notSpaceAt b = true
    /\ forallb class_notSpaceAt c = true.

(** What [validateField] lets through: a non-empty value without white
    space at either end, within the maximum length, accepted by the
    pattern. *)
Definition wellFormedField (schema : Schema) (t : jsstring) : Prop :=
  t <> [] /\ trim t = t
  /\ exceeds (List.length t) (maxLength schema) = false
  /\ patternAccepts schema t = true.

(** The record made of validated contact data. *)
Definition contactObject (cd : ContactData) : jsval :=
  JObj [ (lit "email", JStr (cd_email cd)); (lit "name", JStr (cd_name cd));
         (lit "phone", JStr (cd_phone cd)); (lit "message", JStr (cd_message cd)) ].

(** The four messages a field can be rejected with. *)
Definition rejectionMessages (field : jsstring) (schema : Schema) : list jsstring :=
  [ field ++ lit " is required";
    field ++ lit " cannot be empty";
    field ++ lit " must be less than " ++ maxLength_toString (maxLength schema)
      ++ lit " characters";
    field ++ lit " contains invalid characters" ].

(** The answer to a body that does not decode. *)
Definition invalidFormatResponse : Response :=
  {| statusCode := 400;
     headers :=
       [ (lit "Content-Type", JStr (lit "application/json"));
         (lit "Access-Control-Allow-Origin", JStr (allowedOrigin CONFIG));
         (lit "Access-Control-Allow-Headers", JStr (lit "Content-Type"));
         (lit "Access-Control-Allow-Methods", JStr (lit "POST, OPTIONS")) ];
     body :=
       JSON_stringify rt (JObj [ (lit "error", JStr (lit "Invalid request format")) ]) |}.

(** The answer to a rejected field. *)
Definition validationFailureResponse (field message : jsstring) : Response :=
  {| statusCode := 400;
     headers :=
       [ (lit "Content-Type", JStr (lit "application/json"));
         (lit "Access-Control-Allow-Origin", JStr (allowedOrigin CONFIG));
         (lit "Access-Control-Allow-Headers", JStr (lit "Content-Type"));
         (lit "Access-Control-Allow-Methods", JStr (lit "POST, OPTIONS")) ];
     body :=
       JSON_stringify rt
         (JObj [ (lit "error", JStr message); (lit "field", JStr field) ]) |}.

(** The [TypeError]s of the runtime are plain errors, not instances of the
    module's [ValidationError]. *)
Definition plainTypeErrors : Prop :=
  forall k, exists message stack, TypeError rt k = Error message stack.

(** The content type the handler reads (line 349). *)
Definition contentTypeOf (event : jsval) : jsval :=
  js_or (optMember (getProp event (lit "headers")) (lit "content-type"))
    (js_or (optMember (getProp event (lit "headers")) (lit "Content-Type")) (JStr [])).

(** The classifications the recipient is warned about (lines 121-122). *)
Definition notClean (cr : ClassificationResult) : Prop :=
  classification cr = JStr (lit "SALES")
  \/ (classification cr = JStr (lit "LEGITIMATE")
      /\ js_lt (confidence cr) num_0_9 = inr true).

(** The line of the email body that reports a failed classification. *)
Definition failOpenLine : jsstring :=
  lit "  " ++ [0x26A0; 0xFE0F]%N ++ lit "  Bedrock classification failed - failed open".

(** What a subject line is made of: a space, or a code unit that is not
    white space (no tab, no line break). *)
Definition subjectChar (c : N) : bool := negb (isWhiteSpace c) || (c =? 32)%N.

(** [o.a.b.c] on records *)
Definition getPath (o : jsval) (path : list jsstring) : jsval :=
  fold_left getProp path o.

(** The client address the recorder reads from the event (lines 243-245),
    before the default. *)
Definition httpSourceIp (event : jsval) : jsval :=
  optMember (optMember (getProp event (lit "requestContext")) (lit "http"))
    (lit "sourceIp").

Definition identitySourceIp (event : jsval) : jsval :=
  optMember (optMember (getProp event (lit "requestContext")) (lit "identity"))
    (lit "sourceIp").

(** *** The module before spam detection (lines 452-706)

    The same file also holds the earlier text of the module.  Its
    [CONFIG], [VALIDATION], [validateField], [validateContactForm] and
    [createResponse] are those above, letter for letter; so are the
    decoding and validation blocks and the [catch] block of its handler.
    What differs is modelled here. *)

(** [generateSubject] (lines 557-561) *)
Definition generateSubject_v1 (message : jsstring) : jsstring :=
  let words := split (trim (replaceSpaceRuns false message)) in
  let subject := join (lit " ") (slice0 words (subjectWordCount CONFIG)) in
  if (List.length subject <? List.length message)%nat
  then subject ++ lit "..." else subject.

(** [formatEmailBody] (lines 566-580) *)
Definition formatEmailBody_v1 (contactData : ContactData) : jsstring :=
  join [10%N]
    [ lit "New Contact Form Submission";
      [];
      lit "Name: " ++ cd_name contactData;
      lit "Email: " ++ cd_email contactData;
      lit "Phone: " ++ cd_phone contactData;
      [];
      lit "Message:";
      cd_message contactData;
      [];
      lit "---";
      lit "Submitted: " ++ Date_toISOString rt ].

(** [sendEmail] (lines 585-612) *)
Definition sendEmail_v1 (contactData : ContactData) (sesClient : client) : io jsval :=
  let subject := generateSubject_v1 (cd_message contactData) in
  let body := formatEmailBody_v1 contactData in
  let replyTo := cd_name contactData ++ lit " <" ++ cd_email contactData ++ lit ">" in
  let command :=
    JObj [ (lit "Destination",
            JObj [ (lit "ToAddresses", JArr [ JStr (toAddress CONFIG) ]) ]);
           (lit "Message",
            JObj [ (lit "Body",
                    JObj [ (lit "Text",
                            JObj [ (lit "Data", JStr body);
                                   (lit "Charset", JStr (lit "UTF-8")) ]) ]);
                   (lit "Subject",
                    JObj [ (lit "Data", JStr subject);
                           (lit "Charset", JStr (lit "UTF-8")) ]) ]);
           (lit "Source", JStr (fromAddress CONFIG));
           (lit "ReplyToAddresses", JArr [ JStr replyTo ]) ] in
  (result <- send SesSend sesClient command ;;
   lift (member result (lit "MessageId")))%io.

(** The [try] block of [handler] (lines 632-690) *)
Definition handler_v1_try (requestId event : jsval) (client : client) : io Response :=
  (preflight <- lift (isPreflight event) ;;
   if (preflight : bool) then
     ret (createResponse 200 (JObj [ (lit "message", JStr (lit "OK")) ]) [])
   else
     log requestId (lit "info") (lit "Processing contact form submission") [] ;;
     parsed <- parseRequestBody requestId event ;;
     match parsed with
     | inl response => ret response
     | inr data =>
         validated <- validateInput requestId data ;;
         match validated with
         | inl response => ret response
         | inr contactData =>
             messageId <- sendEmail_v1 contactData client ;;
             log requestId (lit "info") (lit "Email sent successfully")
               [ (lit "messageId", messageId) ] ;;
             ret (createResponse 200
                    (JObj [ (lit "message",
                             JStr (lit "Thank you for contacting us! Your message has been sent."));
                            (lit "success", JBool true) ]) [])
         end
     end)%io.

(** [handler] (lines 617-703) *)
Definition handler_v1 (event context : jsval) (sesClient : option client)
  : io Response :=
  let client := clientOr sesClient (new_SESClient rt) in
  let requestId := requestIdOf context in
  try_catch (handler_v1_try requestId event client) (handler_catch requestId).

(* ===================================================================== *)
(** ** Strings: basic facts *)
(* ===================================================================== *)

Lemma jsstring_eqb_eq a b : jsstring_eqb a b = true <-> a = b.
Proof.
  unfold jsstring_eqb. destruct (list_eq_dec N.eq_dec a b); split; congruence.
Qed.

Lemma jsstring_eqb_refl a : jsstring_eqb a a = true.
Proof. now apply jsstring_eqb_eq. Qed.


(* ===================================================================== *)
(** ** Properties of [trim] *)
(* ===================================================================== *)


Lemma trimStart_allWhiteSpace s : allWhiteSpace s = true -> trimStart s = [].
Proof.
  induction s as [|c s IH]; simpl; [reflexivity|].
  intros H. apply andb_true_iff in H as [Hc Hs]. now rewrite Hc, IH.
Qed.

Lemma trimStart_app_left l s : allWhiteSpace l = true -> trimStart (l ++ s) = trimStart s.
Proof.
  induction l as [|c l IH]; simpl; [reflexivity|].
  intros H. apply andb_true_iff in H as [Hc Hl]. now rewrite Hc, IH.
Qed.

Lemma trimStart_idem s : trimStart (trimStart s) = trimStart s.
Proof.
  induction s as [|c s IH]; simpl; [reflexivity|].
  destruct (isWhiteSpace c) eqn:E; [exact IH|]. simpl. now rewrite E.
Qed.

Lemma trimStart_snoc a c :
  trimStart (a ++ [c]) =
  match trimStart a with [] => trimStart [c] | t => t ++ [c] end.
Proof.
  induction a as [|x a IH]; [reflexivity|].
  simpl. destruct (isWhiteSpace x); [exact IH | reflexivity].
Qed.

Lemma trimEnd_cons c s :
  trimEnd (c :: s) =
  match trimEnd s with
  | [] => if isWhiteSpace c then [] else [c]
  | t => c :: t
  end.
Proof.
  unfold trimEnd. simpl rev at 2. rewrite trimStart_snoc.
  destruct (trimStart (rev s)) as [|y t] eqn:E.
  - simpl. now destruct (isWhiteSpace c).
  - rewrite rev_app_distr. simpl rev at 1. simpl.
    destruct (rev t ++ [y]) eqn:E'; [now destruct (rev t)|reflexivity].
Qed.

Lemma trimEnd_nil : trimEnd [] = [].
Proof. reflexivity. Qed.

Lemma trimEnd_app_right s r : allWhiteSpace r = true -> trimEnd (s ++ r) = trimEnd s.
Proof.
  intros H. unfold trimEnd. rewrite rev_app_distr, trimStart_app_left; [reflexivity|].
  unfold allWhiteSpace in *. rewrite forallb_forall in *.
  intros x Hx. apply H. now apply in_rev.
Qed.

Lemma trimEnd_idem s : trimEnd (trimEnd s) = trimEnd s.
Proof. unfold trimEnd. now rewrite rev_involutive, trimStart_idem. Qed.

Lemma trimStart_trimEnd s : trimStart s = s -> trimStart (trimEnd s) = trimEnd s.
Proof.
  destruct s as [|c s]; [reflexivity|]. simpl.
  destruct (isWhiteSpace c) eqn:E.
  - intros H. exfalso.
    assert (Hl : List.length (trimStart s) <= List.length s).
    { clear. induction s as [|x s IH]; simpl; [lia|].
      destruct (isWhiteSpace x); simpl; lia. }
    rewrite H in Hl. simpl in Hl. lia.
  - intros _. rewrite trimEnd_cons, E.
    destruct (trimEnd s); simpl; now rewrite E.
Qed.

Lemma trim_idem s : trim (trim s) = trim s.
Proof.
  unfold trim.
  rewrite (trimStart_trimEnd (trimStart s) (trimStart_idem s)).
  apply trimEnd_idem.
Qed.

Lemma trim_app_right s r : allWhiteSpace r = true -> trim (s ++ r) = trim s.
Proof.
  intros Hr. induction s as [|c s IH].
  - simpl. unfold trim. now rewrite trimStart_allWhiteSpace.
  - unfold trim in *. simpl. destruct (isWhiteSpace c); [exact IH|].
    now rewrite app_comm_cons, trimEnd_app_right.
Qed.

Lemma trim_padding l s r :
  allWhiteSpace l = true -> allWhiteSpace r = true -> trim (l ++ s ++ r) = trim s.
Proof.
  intros Hl Hr. unfold trim. rewrite trimStart_app_left by assumption.
  now apply trim_app_right.
Qed.

(* ===================================================================== *)
(** ** The field validator *)
(* ===================================================================== *)


Lemma trim_length_le s : List.length (trim s) <= List.length s.
Proof.
  assert (H : forall x, List.length (trimStart x) <= List.length x).
  { induction x as [|c x IH]; simpl; [lia|]. destruct (isWhiteSpace c); simpl; lia. }
  unfold trim, trimEnd. rewrite length_rev.
  etransitivity; [apply H|]. rewrite length_rev. apply H.
Qed.

Lemma trim_nonempty s : trim s <> [] -> s <> [].
Proof. intros H ->. now apply H. Qed.

(** The four ways [validateField] ends on a string. *)
Lemma validateField_string s fieldName schema :
  validateField (JStr s) fieldName schema =
  match s with
  | [] => inl (ValidationError fieldName (fieldName ++ lit " is required"))
  | _ :: _ =>
      match trim s with
      | [] => inl (ValidationError fieldName (fieldName ++ lit " cannot be empty"))
      | _ :: _ =>
          if exceeds (List.length (trim s)) (maxLength schema) then
            inl (ValidationError fieldName
                   (fieldName ++ lit " must be less than "
                      ++ maxLength_toString (maxLength schema) ++ lit " characters"))
          else if patternAccepts schema (trim s) then inr (trim s)
          else inl (ValidationError fieldName
                      (fieldName ++ lit " contains invalid characters"))
      end
  end.
Proof.
  unfold validateField, patternAccepts. destruct s as [|c s]; [reflexivity|].
  cbn [truthy isString negb orb asString].
  destruct (trim (c :: s)) as [|d t]; [reflexivity|].
  cbn [List.length Nat.eqb].
  destruct (exceeds _ _); [reflexivity|].
  destruct (pattern schema) as [re|]; [|reflexivity].
  now destruct (RegExp_test re (d :: t)).
Qed.

Lemma validateField_not_string v fieldName schema :
  isString v = false ->
  validateField v fieldName schema =
  inl (ValidationError fieldName (fieldName ++ lit " is required")).
Proof.
  intros H. unfold validateField. rewrite H.
  now rewrite orb_true_r.
Qed.

(** Every error of [validateField] is a [ValidationError] of the field. *)
Lemma validateField_error v fieldName schema e :
  validateField v fieldName schema = inl e ->
  exists message, e = ValidationError fieldName message.
Proof.
  unfold validateField.
  repeat match goal with
         | |- context [if ?b then _ else _] => destruct b
         end; intros H; inversion H; eauto.
Qed.

(** What is returned is the trimmed value. *)
Lemma validateField_inr v fieldName schema t :
  validateField v fieldName schema = inr t ->
  exists s, v = JStr s /\ t = trim s /\ trim s <> [].
Proof.
  destruct (isString v) eqn:Hs.
  - destruct v; try discriminate. rewrite validateField_string.
    destruct s as [|c s]; [discriminate|].
    destruct (trim (c :: s)) as [|d u] eqn:Ht; [discriminate|].
    destruct (exceeds _ _); [discriminate|].
    destruct (patternAccepts _ _); [|discriminate].
    intros H. inversion H. exists (c :: s). rewrite Ht. repeat split. discriminate.
  - rewrite validateField_not_string by assumption. discriminate.
Qed.

(** The result depends on the value through its trimmed form only, once the
    value is a non-empty string. *)
Lemma validateField_same_trim s s' fieldName schema t :
  validateField (JStr s) fieldName schema = inr t ->
  trim s' = trim s ->
  validateField (JStr s') fieldName schema = inr t.
Proof.
  intros H Ht.
  destruct (validateField_inr _ _ _ _ H) as (s0 & E & -> & Hne).
  inversion E; subst s0.
  rewrite validateField_string in *. rewrite Ht.
  destruct s' as [|c' s'].
  - exfalso. apply Hne. rewrite <- Ht. reflexivity.
  - destruct s as [|c s]; [now exfalso; apply Hne|]. exact H.
Qed.


Lemma member_not_nullish o k : isNullish o = false -> member o k = inr (getProp o k).
Proof. intros H. unfold member. now rewrite H. Qed.

Lemma validateContactForm_nullish data :
  isNullish data = true -> validateContactForm data = inl (TypeError rt (lit "email")).
Proof. intros H. unfold validateContactForm, member. now rewrite H. Qed.

(** Acceptance, field by field. *)
Lemma validateContactForm_inr data cd :
  validateContactForm data = inr cd <->
  isNullish data = false /\
  validateField (getProp data (lit "email")) (lit "email") (v_email VALIDATION)
    = inr (cd_email cd) /\
  validateField (getProp data (lit "name")) (lit "name") (v_name VALIDATION)
    = inr (cd_name cd) /\
  validateField (getProp data (lit "phone")) (lit "phone") (v_phone VALIDATION)
    = inr (cd_phone cd) /\
  validateField (getProp data (lit "message")) (lit "message") (v_message VALIDATION)
    = inr (cd_message cd).
Proof.
  destruct (isNullish data) eqn:Hn.
  - rewrite validateContactForm_nullish by assumption.
    split; [discriminate | intros [? _]; discriminate].
  - unfold validateContactForm.
    rewrite !member_not_nullish by assumption. unfold rbind.
    destruct (validateField _ (lit "email") _) as [e1|email];
      [split; [discriminate | intros (_ & ? & _); discriminate]|].
    destruct (validateField _ (lit "name") _) as [e2|name];
      [split; [discriminate | intros (_ & _ & ? & _); discriminate]|].
    destruct (validateField _ (lit "phone") _) as [e3|phone];
      [split; [discriminate | intros (_ & _ & _ & ? & _); discriminate]|].
    destruct (validateField _ (lit "message") _) as [e4|message];
      [split; [discriminate | intros (_ & _ & _ & _ & ?); discriminate]|].
    split.
    + intros H. inversion H. simpl. auto.
    + intros (_ & H1 & H2 & H3 & H4). destruct cd; simpl in *. congruence.
Qed.

(** C10.  [validateField] accepts a value whose trimmed length is exactly
    the configured maximum: with [maxLength = m], a string that trims to
    exactly [m] code units (and passes the pattern) is returned trimmed,
    and the rejection "<field> must be less than m characters" is produced
    exactly when the trimmed value is not empty and strictly longer than
    [m]. *)
Theorem validateField_max_length_inclusive
    (fieldName : jsstring) (schema : Schema) (m : Z) (s : jsstring) :
  maxLength schema = Some m ->
  (Z.of_nat (List.length (trim s)) = m -> (0 < m)%Z ->
   patternAccepts schema (trim s) = true ->
   validateField (JStr s) fieldName schema = inr (trim s))
  /\
  (validateField (JStr s) fieldName schema
     = inl (ValidationError fieldName
              (fieldName ++ lit " must be less than " ++ Z_toString m
                 ++ lit " characters"))
   <-> (m < Z.of_nat (List.length (trim s)))%Z /\ trim s <> []).
Proof.
  intros Hm. rewrite validateField_string, Hm. unfold exceeds. cbn [maxLength_toString].
  split.
  - intros Hlen Hpos Hpat.
    destruct s as [|c s]; [simpl in Hlen; lia|].
    destruct (trim (c :: s)) as [|d t] eqn:Ht; [simpl in Hlen; lia|].
    rewrite Hlen, Z.ltb_irrefl, Hpat. reflexivity.
  - destruct s as [|c s].
    + split.
      * intros H. inversion H as [H']. apply app_inv_head in H'. discriminate H'.
      * intros [_ H]. now exfalso; apply H.
    + destruct (trim (c :: s)) as [|d t] eqn:Ht.
      * split.
        -- intros H. inversion H as [H']. apply app_inv_head in H'. discriminate H'.
        -- intros [_ H]. now exfalso; apply H.
      * destruct (Z.ltb_spec m (Z.of_nat (List.length (d :: t)))) as [Hlt|Hge].
        -- split; [intros _; split; [exact Hlt | discriminate] | reflexivity].
        -- split; [|intros [H _]; lia].
           destruct (patternAccepts schema (d :: t)); [discriminate|].
           intros H. inversion H as [H']. apply app_inv_head in H'. discriminate H'.
Qed.

Lemma isPadding_trim s s' : isPadding s s' -> trim s' = trim s.
Proof. intros (l & r & Hl & Hr & ->). now apply trim_padding. Qed.

(** A field related by a trim-preserving relation validates alike. *)
Lemma validateField_related (R : jsstring -> jsstring -> Prop) x x' k schema t :
  (forall s s', R s s' -> trim s' = trim s) ->
  fieldsRelated R x x' -> In k formFields ->
  validateField (getProp x k) k schema = inr t ->
  validateField (getProp x' k) k schema = inr t
  /\ t = trim (asString (getProp x' k)).
Proof.
  intros HR [_ Hf] Hk Hv.
  destruct (Hf k Hk) as (s & s' & Hs & Hs' & Hrel).
  rewrite Hs in Hv. rewrite Hs'. split.
  - eapply validateField_same_trim; eauto.
  - destruct (validateField_inr _ _ _ _ Hv) as (s0 & E & -> & _).
    inversion E; subst s0. simpl. symmetry. now apply HR.
Qed.

Lemma validateContactForm_related (R : jsstring -> jsstring -> Prop) x x' cd :
  (forall s s', R s s' -> trim s' = trim s) ->
  fieldsRelated R x x' ->
  validateContactForm x = inr cd ->
  validateContactForm x' = inr cd
  /\ cd_email cd = trim (asString (getProp x' (lit "email")))
  /\ cd_name cd = trim (asString (getProp x' (lit "name")))
  /\ cd_phone cd = trim (asString (getProp x' (lit "phone")))
  /\ cd_message cd = trim (asString (getProp x' (lit "message"))).
Proof.
  intros HR Hrel Hx.
  apply validateContactForm_inr in Hx as (_ & H1 & H2 & H3 & H4).
  assert (K1 : In (lit "email") formFields) by (simpl; auto).
  assert (K2 : In (lit "name") formFields) by (simpl; auto).
  assert (K3 : In (lit "phone") formFields) by (simpl; auto).
  assert (K4 : In (lit "message") formFields) by (simpl; auto 6).
  destruct (validateField_related R x x' _ _ _ HR Hrel K1 H1) as [G1 T1].
  destruct (validateField_related R x x' _ _ _ HR Hrel K2 H2) as [G2 T2].
  destruct (validateField_related R x x' _ _ _ HR Hrel K3 H3) as [G3 T3].
  destruct (validateField_related R x x' _ _ _ HR Hrel K4 H4) as [G4 T4].
  split; [|now repeat split].
  apply validateContactForm_inr. destruct Hrel as [Hn _]. now repeat split.
Qed.

(** C8.  Padding the fields of an accepted submission with white space does
    not change what the validator returns, nor does trimming the padded
    fields first; what is returned is the trimmed value of each field. *)
Theorem validateContactForm_padding (x padded trimmed : jsval) (cd : ContactData) :
  validateContactForm x = inr cd ->
  fieldsRelated isPadding x padded ->
  fieldsRelated (fun s s' => s' = trim s) padded trimmed ->
  validateContactForm padded = validateContactForm x
  /\ validateContactForm trimmed = validateContactForm x
  /\ cd_email cd = trim (asString (getProp padded (lit "email")))
  /\ cd_name cd = trim (asString (getProp padded (lit "name")))
  /\ cd_phone cd = trim (asString (getProp padded (lit "phone")))
  /\ cd_message cd = trim (asString (getProp padded (lit "message"))).
Proof.
  intros Hx Hpad Htrim.
  destruct (validateContactForm_related isPadding x padded cd isPadding_trim Hpad Hx)
    as (Hp & Hfields).
  assert (Ht : forall s s', s' = trim s -> trim s' = trim s)
    by (intros s s' ->; apply trim_idem).
  destruct (validateContactForm_related _ padded trimmed cd Ht Htrim Hp) as (Hq & _).
  rewrite Hx, Hp, Hq. auto.
Qed.

(* ===================================================================== *)
(** ** Computations: basic facts *)
(* ===================================================================== *)

Lemma outcome_bind {A B} (m : io A) (f : A -> io B) a :
  outcome m = inr a -> outcome (bind m f) = outcome (f a).
Proof. unfold outcome, bind. now intros ->. Qed.

Lemma trace_bind {A B} (m : io A) (f : A -> io B) a :
  outcome m = inr a -> trace (bind m f) = trace m ++ trace (f a).
Proof. unfold outcome, trace, bind. now intros ->. Qed.

Lemma bind_throws {A B} (m : io A) (f : A -> io B) e :
  outcome m = inl e -> bind m f = (trace m, inl e).
Proof. unfold outcome, trace, bind. now intros ->. Qed.

Lemma bind_returns {A B} (m : io A) (f : A -> io B) a :
  outcome m = inr a -> bind m f = (trace m ++ trace (f a), outcome (f a)).
Proof. unfold outcome, trace, bind. now intros ->. Qed.

Lemma try_catch_returns {A} (m : io A) h a :
  outcome m = inr a -> try_catch m h = m.
Proof. unfold outcome, try_catch. now intros ->. Qed.

Lemma try_catch_throws {A} (m : io A) h e :
  outcome m = inl e -> try_catch m h = (trace m ++ trace (h e), outcome (h e)).
Proof. unfold outcome, trace, try_catch. now intros ->. Qed.

Lemma try_catch_prefix {A} pre (t : list effect) (o : result A) h :
  try_catch (pre ++ t, o) h
  = (pre ++ trace (try_catch (t, o) h), outcome (try_catch (t, o) h)).
Proof.
  unfold try_catch, trace, outcome. simpl.
  destruct o; simpl; [|reflexivity]. now rewrite app_assoc.
Qed.

Lemma io_eta {A} (m : io A) : m = (trace m, outcome m).
Proof. now destruct m. Qed.

Lemma bind_lift_inr {A B} (a : A) (f : A -> io B) : bind (lift (inr a)) f = f a.
Proof. unfold bind, lift. cbn [fst snd app]. now destruct (f a). Qed.

Lemma bind_lift_inl {A B} (e : exn) (f : A -> io B) :
  bind (lift (inl e)) f = ([], inl e).
Proof. reflexivity. Qed.

Lemma storeWrites_app a b : storeWrites (a ++ b) = storeWrites a + storeWrites b.
Proof. unfold storeWrites. now rewrite filter_app, length_app. Qed.

Lemma emailDispatches_app a b :
  emailDispatches (a ++ b) = emailDispatches a + emailDispatches b.
Proof. unfold emailDispatches. now rewrite filter_app, length_app. Qed.

Lemma classifierCalls_app a b :
  classifierCalls (a ++ b) = classifierCalls a + classifierCalls b.
Proof. unfold classifierCalls. now rewrite filter_app, length_app. Qed.

Lemma quiet_nil : quiet [].
Proof. now repeat split. Qed.

Lemma quiet_app a b : quiet a -> quiet b -> quiet (a ++ b).
Proof.
  intros (A1 & A2 & A3) (B1 & B2 & B3). unfold quiet.
  rewrite storeWrites_app, emailDispatches_app, classifierCalls_app. lia.
Qed.

Lemma quiet_log requestId level message data :
  quiet (trace (log requestId level message data)).
Proof. now repeat split. Qed.

Lemma outcome_log requestId level message data :
  outcome (log requestId level message data) = inr tt.
Proof. reflexivity. Qed.

Lemma quiet_lift {A} (r : result A) : quiet (trace (lift r)).
Proof. now repeat split. Qed.

Lemma quiet_bind {A B} (m : io A) (f : A -> io B) :
  quiet (trace m) -> (forall a, quiet (trace (f a))) -> quiet (trace (bind m f)).
Proof.
  intros Hm Hf. unfold bind, trace in *. destruct (snd m); simpl; [assumption|].
  now apply quiet_app.
Qed.

Lemma quiet_try_catch {A} (m : io A) h :
  quiet (trace m) -> (forall e, quiet (trace (h e))) -> quiet (trace (try_catch m h)).
Proof.
  intros Hm Hh. unfold try_catch, trace in *. destruct (snd m); simpl; [|assumption].
  now apply quiet_app.
Qed.

Lemma quiet_ret {A} (a : A) : quiet (trace (ret a)).
Proof. apply quiet_nil. Qed.

Lemma quiet_throw {A} e : quiet (trace (@throw A e)).
Proof. apply quiet_nil. Qed.

(* ===================================================================== *)
(** ** The stages of the handler *)
(* ===================================================================== *)

Lemma createResponse_success :
  createResponse 200
    (JObj [ (lit "message",
             JStr (lit "Thank you for contacting us! Your message has been sent."));
            (lit "success", JBool true) ]) []
  = successResponse.
Proof. reflexivity. Qed.

(** Decides [quiet] on a composition of binds, catches and branches. *)
Ltac quiet_tac :=
  repeat first
    [ apply quiet_ret | apply quiet_throw | apply quiet_lift | apply quiet_log
    | apply quiet_nil
    | apply quiet_bind; [|intros ?; cbv beta]
    | apply quiet_try_catch; [|intros ?; cbv beta]
    | match goal with
      | |- quiet (trace (if ?b then _ else _)) => destruct b
      | |- quiet (trace (match ?x with _ => _ end)) => destruct x
      end
    | progress cbv zeta ].

Lemma quiet_parseRequestBody requestId event :
  quiet (trace (parseRequestBody requestId event)).
Proof. unfold parseRequestBody. quiet_tac. Qed.

Lemma quiet_validateInput requestId data :
  quiet (trace (validateInput requestId data)).
Proof. unfold validateInput. quiet_tac. Qed.

Lemma validateInput_accepted requestId data contactData :
  validateContactForm data = inr contactData ->
  validateInput requestId data = ([], inr (inr contactData)).
Proof.
  intros H. unfold validateInput, try_catch, bind, lift, ret. simpl. now rewrite H.
Qed.

(** Once a submission is validated, the handler is a prefix of console
    lines followed by [dispatch] under the [catch] block. *)
Lemma handler_validated event context sesClient bedrockClient dynamoClient contactData :
  passesValidation event context contactData ->
  exists pre,
    quiet pre /\
    handler event context sesClient bedrockClient dynamoClient
    = (pre ++ trace (try_catch
                       (dispatch (requestIdOf context) event contactData
                          (clientOr sesClient (new_SESClient rt))
                          (clientOr bedrockClient (new_BedrockRuntimeClient rt))
                          (clientOr dynamoClient (new_DynamoDBDocumentClient rt)))
                       (handler_catch (requestIdOf context))),
       outcome (try_catch
                  (dispatch (requestIdOf context) event contactData
                     (clientOr sesClient (new_SESClient rt))
                     (clientOr bedrockClient (new_BedrockRuntimeClient rt))
                     (clientOr dynamoClient (new_DynamoDBDocumentClient rt)))
                  (handler_catch (requestIdOf context)))).
Proof.
  intros (Hpre & data & Hparse & Hvalid).
  set (rid := requestIdOf context).
  set (D := dispatch _ _ _ _ _ _).
  exists (trace (log rid (lit "info") (lit "Processing contact form submission") [])
            ++ trace (parseRequestBody rid event)).
  split.
  { apply quiet_app; [apply quiet_log | apply quiet_parseRequestBody]. }
  unfold handler. fold rid.
  assert (Htry : handler_try rid event (clientOr sesClient (new_SESClient rt))
                   (clientOr bedrockClient (new_BedrockRuntimeClient rt))
                   (clientOr dynamoClient (new_DynamoDBDocumentClient rt))
                 = ((trace (log rid (lit "info")
                              (lit "Processing contact form submission") [])
                       ++ trace (parseRequestBody rid event)) ++ trace D,
                    outcome D)).
  { unfold handler_try.
    rewrite (bind_returns (lift (isPreflight event)) _ false) by (now rewrite Hpre).
    cbn [trace lift fst app].
    rewrite (bind_returns (log _ _ _ _) _ tt) by reflexivity.
    rewrite (bind_returns (parseRequestBody rid event) _ (inr data)) by exact Hparse.
    rewrite (validateInput_accepted _ _ _ Hvalid).
    rewrite (bind_returns (_, _) _ (inr contactData)) by reflexivity.
    fold D. cbn [trace outcome fst snd app].
    now rewrite <- app_assoc. }
  rewrite Htry, try_catch_prefix. now rewrite <- (io_eta D).
Qed.

Lemma rbind_inr {A B} (m : result A) (f : A -> result B) b :
  rbind m f = inr b -> exists a, m = inr a /\ f a = inr b.
Proof. destruct m as [e|a]; simpl; [discriminate | eauto]. Qed.

Lemma strictEqStr_true v s : strictEqStr v s = true <-> v = JStr s.
Proof.
  destruct v; simpl; try (split; discriminate).
  rewrite jsstring_eqb_eq. split; congruence.
Qed.

(** *** Conversions *)

Lemma rmap_inr_iff {A B} (f : A -> result B) (l : list A) :
  (exists bs, rmap f l = inr bs) <-> Forall (fun a => exists b, f a = inr b) l.
Proof.
  induction l as [|a r IH]; simpl.
  - split; [constructor | eauto].
  - split.
    + intros [bs H]. destruct (f a) as [e|b] eqn:Ea; [discriminate|].
      destruct (rmap f r) as [e|bs'] eqn:Er; [discriminate|].
      constructor; [eauto | apply IH; eauto].
    + intros H. inversion H as [|? ? [b Hb] Hr]; subst.
      apply IH in Hr as [bs Hbs]. rewrite Hb, Hbs. eauto.
Qed.

(** Induction on values, with the hypothesis for the items of an array. *)
Lemma jsval_induction (P : jsval -> Prop) :
  P JUndefined -> P JNull -> (forall b, P (JBool b)) -> (forall x, P (JNum x)) ->
  (forall s, P (JStr s)) ->
  (forall items, Forall P items -> P (JArr items)) ->
  (forall fields, P (JObj fields)) ->
  forall v, P v.
Proof.
  intros HU HN HB HX HS HA HO.
  fix IH 1.
  intros [| |b|x|s|items|fields];
    [exact HU | exact HN | apply HB | apply HX | apply HS | | apply HO].
  apply HA. induction items as [|e r IHr]; constructor; [apply IH | exact IHr].
Qed.

(** ToString returns exactly on the values that convert. *)
Lemma ToString_convertible v :
  convertible v = true <-> exists s, ToString v = inr s.
Proof.
  induction v as [| |b|x|s|items IH|fields] using jsval_induction;
    try (split; [intros _; eexists; reflexivity | reflexivity]).
  - split; [intros _; destruct b; eexists; reflexivity | reflexivity].
  - cbn [convertible ToString]. rewrite forallb_forall, Forall_forall in *.
    split.
    + intros Hc.
      assert (H : exists bs,
                 rmap (fun e => if isNullish e then inr [] else ToString e) items
                 = inr bs).
      { apply rmap_inr_iff, Forall_forall. intros e He.
        destruct (isNullish e); [eauto|]. apply IH; auto. }
      destruct H as [bs ->]. eauto.
    + intros [s Hs] e He.
      destruct (rmap _ items) as [err|bs] eqn:E; [discriminate|].
      assert (H : Forall (fun e => exists b,
                            (if isNullish e then inr [] else ToString e) = inr b) items)
        by (apply rmap_inr_iff; eauto).
      rewrite Forall_forall in H. specialize (H e He).
      destruct (isNullish e) eqn:En; [now destruct e | now apply IH].
  - cbn [convertible ToString]. destruct (hasOwn _ fields); cbn [negb].
    + split; [discriminate | intros [s H]; discriminate].
    + split; eauto.
Qed.

Lemma ToNumber_convertible v :
  convertible v = true <-> exists x, ToNumber v = inr x.
Proof.
  destruct v as [| |b|x|s|items|fields];
    try (split; [intros _; eexists; reflexivity | reflexivity]).
  - split; [intros _; destruct b; eexists; reflexivity | reflexivity].
  - rewrite ToString_convertible. unfold ToNumber, rbind.
    destruct (ToString (JArr items)) as [e|s].
    + split; intros [x H]; discriminate.
    + split; eauto.
  - rewrite ToString_convertible. unfold ToNumber, rbind.
    destruct (ToString (JObj fields)) as [e|s].
    + split; intros [x H]; discriminate.
    + split; eauto.
Qed.

Lemma js_ge_convertible v x :
  convertible v = true <-> exists b, js_ge v x = inr b.
Proof.
  rewrite ToNumber_convertible. unfold js_ge, rbind.
  destruct (ToNumber v) as [e|n].
  - split; intros [y H]; discriminate.
  - split; eauto.
Qed.

Lemma js_lt_convertible v x :
  convertible v = true <-> exists b, js_lt v x = inr b.
Proof.
  rewrite ToNumber_convertible. unfold js_lt, rbind.
  destruct (ToNumber v) as [e|n].
  - split; intros [y H]; discriminate.
  - split; eauto.
Qed.

Lemma convertibleResult_fields cr :
  convertibleResult cr = true
  <-> convertible (classification cr) = true
      /\ convertible (confidence cr) = true
      /\ convertible (reason cr) = true.
Proof. unfold convertibleResult. rewrite !andb_true_iff. tauto. Qed.

(** *** The classifier gateway *)

Lemma trace_send call c command : trace (send call c command) = [call command].
Proof. reflexivity. Qed.

Lemma trace_classifySubmission_try prompt bedrockClient :
  exists command, trace (classifySubmission_try prompt bedrockClient) = [BedrockSend command].
Proof.
  unfold classifySubmission_try. eexists.
  unfold bind, trace, send, lift. cbn [fst snd].
  destruct (bedrockClient _); cbn [fst snd app]; reflexivity.
Qed.

(** A result of the [try] block has no [failedOpen] property. *)
Lemma classifySubmission_try_failedOpen prompt bedrockClient cr :
  outcome (classifySubmission_try prompt bedrockClient) = inr cr ->
  failedOpen cr = JUndefined.
Proof.
  unfold classifySubmission_try, outcome, bind, send, lift. cbn [fst snd].
  destruct (bedrockClient _) as [e|response]; cbn [fst snd]; [discriminate|].
  intros H.
  repeat (apply rbind_inr in H as (? & _ & H)).
  inversion H. reflexivity.
Qed.

Lemma classifySubmission_catch_eq error :
  classifySubmission_catch error
  = ([ ConsoleError (lit "Spam classification failed, failing open")
         (JObj [ (lit "error", JStr (exn_message error)) ]) ],
     inr (failOpenResult error)).
Proof. reflexivity. Qed.

Lemma classifySubmission_total contactData bedrockClient :
  exists cr, outcome (classifySubmission contactData bedrockClient) = inr cr.
Proof.
  unfold classifySubmission, try_catch, outcome.
  destruct (snd (classifySubmission_try _ _)) as [e|cr] eqn:E.
  - rewrite classifySubmission_catch_eq. cbn [snd]. eauto.
  - rewrite E. eauto.
Qed.

Lemma classifySubmission_counts contactData bedrockClient :
  classifierCalls (trace (classifySubmission contactData bedrockClient)) = 1
  /\ storeWrites (trace (classifySubmission contactData bedrockClient)) = 0
  /\ emailDispatches (trace (classifySubmission contactData bedrockClient)) = 0.
Proof.
  destruct (trace_classifySubmission_try (classifyPrompt contactData) bedrockClient)
    as [command Ht].
  unfold classifySubmission, try_catch, trace in *.
  destruct (snd (classifySubmission_try _ _)) as [e|cr].
  - rewrite classifySubmission_catch_eq. cbn [fst]. rewrite Ht. now repeat split.
  - rewrite Ht. now repeat split.
Qed.

(** *** The recorder *)

Lemma logBlockedSubmission_catch_eq error :
  logBlockedSubmission_catch error
  = ([ ConsoleError (lit "Failed to log blocked submission to DynamoDB")
         (JObj [ (lit "error", JStr (exn_message error));
                 (lit "stack", JStr (exn_stack error)) ]) ],
     inr JNull).
Proof. reflexivity. Qed.

Lemma logBlockedSubmission_total contactData cr event dynamoClient :
  exists v, outcome (logBlockedSubmission contactData cr event dynamoClient) = inr v.
Proof.
  unfold logBlockedSubmission, try_catch, outcome.
  destruct (snd (logBlockedSubmission_try _ _ _ _)) as [e|v] eqn:E.
  - rewrite logBlockedSubmission_catch_eq. cbn [snd]. eauto.
  - rewrite E. eauto.
Qed.

Lemma trace_logBlockedSubmission_try contactData cr event dynamoClient :
  isNullish event = false ->
  exists command,
    trace (logBlockedSubmission_try contactData cr event dynamoClient)
    = [DynamoSend command].
Proof.
  intros Hn. unfold logBlockedSubmission_try.
  rewrite member_not_nullish by assumption. eexists.
  unfold bind, trace, send, lift, ret. cbn [fst snd app].
  destruct (dynamoClient _); cbn [fst snd app]; reflexivity.
Qed.

Lemma logBlockedSubmission_counts contactData cr event dynamoClient :
  isNullish event = false ->
  storeWrites (trace (logBlockedSubmission contactData cr event dynamoClient)) = 1
  /\ emailDispatches (trace (logBlockedSubmission contactData cr event dynamoClient)) = 0
  /\ classifierCalls (trace (logBlockedSubmission contactData cr event dynamoClient)) = 0.
Proof.
  intros Hn.
  destruct (trace_logBlockedSubmission_try contactData cr event dynamoClient Hn)
    as [command Ht].
  unfold logBlockedSubmission, try_catch, trace in *.
  destruct (snd (logBlockedSubmission_try _ _ _ _)) as [e|v].
  - rewrite logBlockedSubmission_catch_eq. cbn [fst]. rewrite Ht. now repeat split.
  - rewrite Ht. now repeat split.
Qed.

(** *** The notifier *)

Lemma generateSubject_None message :
  exists subject, generateSubject message None = inr subject.
Proof. eexists. reflexivity. Qed.

(** The subject is made when the confidence converts; it is the only
    conversion of [generateSubject]. *)
Lemma generateSubject_convertible message cr :
  convertible (confidence cr) = true ->
  exists subject, generateSubject message (Some cr) = inr subject.
Proof.
  intros Hc. apply (js_lt_convertible _ num_0_9) in Hc as [b Hb].
  unfold generateSubject. cbv zeta.
  destruct (strictEqStr (classification cr) (lit "SALES")); [eexists; reflexivity|].
  destruct (strictEqStr (classification cr) (lit "LEGITIMATE"));
    [rewrite Hb|]; eexists; reflexivity.
Qed.

(** The text is made exactly when the three fields convert. *)
Lemma formatEmailBody_convertible contactData cr :
  convertibleResult cr = true
  <-> exists text, formatEmailBody contactData (Some cr) = inr text.
Proof.
  rewrite convertibleResult_fields.
  rewrite (ToString_convertible (classification cr)),
    (ToNumber_convertible (confidence cr)), (ToString_convertible (reason cr)).
  unfold formatEmailBody, rbind. cbv zeta.
  destruct (ToString (classification cr)) as [e|c].
  { split; [intros ([s H] & _); discriminate | intros [t H]; discriminate]. }
  destruct (ToNumber (confidence cr)) as [e|n].
  { split; [intros (_ & [s H] & _); discriminate | intros [t H]; discriminate]. }
  destruct (ToString (reason cr)) as [e|r].
  { split; [intros (_ & _ & [s H]); discriminate | intros [t H]; discriminate]. }
  split; eauto 6.
Qed.

(** The notifier builds its email exactly for a classification that
    converts, and always without one. *)
Lemma email_built contactData ocr :
  convertibleClassification ocr = true
  <-> exists subject text,
        generateSubject (cd_message contactData) ocr = inr subject
        /\ formatEmailBody contactData ocr = inr text.
Proof.
  destruct ocr as [cr|]; cbn [convertibleClassification].
  - split.
    + intros H.
      destruct (proj1 (formatEmailBody_convertible contactData cr) H) as [text Ht].
      apply convertibleResult_fields in H as (_ & Hc & _).
      destruct (generateSubject_convertible (cd_message contactData) cr Hc)
        as [subject Hs].
      eauto.
    + intros (subject & text & _ & Ht).
      apply (formatEmailBody_convertible contactData). eauto.
  - split; [|reflexivity]. intros _. eexists _, _. split; reflexivity.
Qed.

(** The command [sendEmail] sends, once its subject and text are made. *)
Lemma sendEmail_command contactData sesClient cr subject text :
  generateSubject (cd_message contactData) cr = inr subject ->
  formatEmailBody contactData cr = inr text ->
  exists command,
    trace (sendEmail contactData sesClient cr) = [SesSend command]
    /\ getProp command (lit "Source") = JStr (fromAddress CONFIG)
    /\ getPath command [lit "Destination"; lit "ToAddresses"]
       = JArr [ JStr (toAddress CONFIG) ]
    /\ getProp command (lit "ReplyToAddresses")
       = JArr [ JStr (cd_name contactData ++ lit " <" ++ cd_email contactData
                        ++ lit ">") ]
    /\ getPath command [lit "Message"; lit "Subject"; lit "Data"] = JStr subject
    /\ getPath command [lit "Message"; lit "Body"; lit "Text"; lit "Data"] = JStr text.
Proof.
  intros Hs Ht. unfold sendEmail. rewrite Hs, bind_lift_inr, Ht, bind_lift_inr.
  cbv zeta. eexists. split.
  - unfold bind, trace, send, lift. cbn [fst snd].
    match goal with
    | |- context [sesClient ?c] => destruct (sesClient c)
    end; reflexivity.
  - repeat split.
Qed.

(** When the subject or the text cannot be made, [sendEmail] throws before
    it calls the email service. *)
Lemma sendEmail_unbuilt contactData sesClient ocr :
  convertibleClassification ocr = false ->
  exists error, sendEmail contactData sesClient ocr = ([], inl error).
Proof.
  intros H. unfold sendEmail.
  destruct (generateSubject (cd_message contactData) ocr) as [e|subject] eqn:Hs.
  { exists e. reflexivity. }
  rewrite bind_lift_inr.
  destruct (formatEmailBody contactData ocr) as [e|text] eqn:Ht.
  { exists e. reflexivity. }
  assert (K : convertibleClassification ocr = true)
    by (apply (email_built contactData); eauto).
  congruence.
Qed.

Lemma sendEmail_counts contactData sesClient ocr :
  emailDispatches (trace (sendEmail contactData sesClient ocr))
  = (if convertibleClassification ocr then 1 else 0)
  /\ storeWrites (trace (sendEmail contactData sesClient ocr)) = 0
  /\ classifierCalls (trace (sendEmail contactData sesClient ocr)) = 0.
Proof.
  destruct (convertibleClassification ocr) eqn:H.
  - destruct (proj1 (email_built contactData ocr) H) as (subject & text & Hs & Ht).
    destruct (sendEmail_command contactData sesClient ocr subject text Hs Ht)
      as (command & -> & _).
    now repeat split.
  - destruct (sendEmail_unbuilt contactData sesClient ocr H) as [error ->].
    now repeat split.
Qed.

Lemma forward_counts requestId contactData sesClient ocr :
  emailDispatches (trace (forward requestId contactData sesClient ocr))
  = (if convertibleClassification ocr then 1 else 0)
  /\ storeWrites (trace (forward requestId contactData sesClient ocr)) = 0
  /\ classifierCalls (trace (forward requestId contactData sesClient ocr)) = 0.
Proof.
  destruct (sendEmail_counts contactData sesClient ocr) as (H1 & H2 & H3).
  unfold forward, bind, trace in *.
  destruct (snd (sendEmail _ _ _)); cbn [fst snd]; [now repeat split|].
  rewrite emailDispatches_app, storeWrites_app, classifierCalls_app, H1, H2, H3.
  cbn. repeat split; lia.
Qed.

Lemma forward_sent requestId contactData sesClient cr messageId :
  outcome (sendEmail contactData sesClient cr) = inr messageId ->
  outcome (forward requestId contactData sesClient cr) = inr successResponse.
Proof.
  intros H. unfold forward. rewrite (outcome_bind _ _ messageId H). reflexivity.
Qed.

Lemma forward_failed requestId contactData sesClient cr error :
  outcome (sendEmail contactData sesClient cr) = inl error ->
  outcome (forward requestId contactData sesClient cr) = inl error.
Proof. intros H. unfold forward. now rewrite (bind_throws _ _ error H). Qed.

(** *** The decision *)

Lemma blockTest_policy cr : blockTest cr = true <-> policyBlocks cr.
Proof.
  unfold blockTest, policyBlocks.
  rewrite andb_true_iff, orb_true_iff, !strictEqStr_true.
  destruct (js_ge (confidence cr) (spamConfidenceThreshold CONFIG)) as [e|[|]];
    split; intros [H1 H2]; split; try assumption; try reflexivity; discriminate.
Qed.

Lemma spamDetection_disabled requestId event contactData bedrockClient dynamoClient :
  spamDetectionEnabled CONFIG = false ->
  spamDetection requestId event contactData bedrockClient dynamoClient
  = ([], inr (inr None)).
Proof. intros H. unfold spamDetection. now rewrite H. Qed.

Lemma spamDetection_blocks requestId event contactData bedrockClient dynamoClient cr :
  spamDetectionEnabled CONFIG = true ->
  outcome (classifySubmission contactData bedrockClient) = inr cr ->
  blockTest cr = true ->
  isNullish event = false ->
  let run := spamDetection requestId event contactData bedrockClient dynamoClient in
  outcome run = inr (inl successResponse)
  /\ storeWrites (trace run) = 1
  /\ emailDispatches (trace run) = 0
  /\ classifierCalls (trace run) = 1.
Proof.
  intros Hen Hc Hb Hn.
  destruct (classifySubmission_counts contactData bedrockClient) as (C1 & C2 & C3).
  destruct (logBlockedSubmission_counts contactData cr event dynamoClient Hn)
    as (L1 & L2 & L3).
  destruct (logBlockedSubmission_total contactData cr event dynamoClient) as [v Hv].
  unfold blockTest in Hb.
  destruct (js_ge (confidence cr) (spamConfidenceThreshold CONFIG)) as [e|b] eqn:Hge;
    [now rewrite andb_false_r in Hb|].
  unfold spamDetection. rewrite Hen.
  rewrite (bind_returns _ _ cr Hc).
  rewrite (bind_returns (log _ _ _ _) _ tt) by reflexivity.
  rewrite Hge, bind_lift_inr, Hb.
  rewrite (bind_returns _ _ v Hv).
  rewrite (bind_returns (log _ _ _ _) _ tt) by reflexivity.
  cbn [ret trace outcome fst snd]. rewrite createResponse_success.
  split; [reflexivity|].
  rewrite !storeWrites_app, !emailDispatches_app, !classifierCalls_app.
  unfold trace in *. rewrite C1, C2, C3, L1, L2, L3. now repeat split.
Qed.

Lemma spamDetection_passes requestId event contactData bedrockClient dynamoClient cr :
  spamDetectionEnabled CONFIG = true ->
  outcome (classifySubmission contactData bedrockClient) = inr cr ->
  convertible (confidence cr) = true ->
  blockTest cr = false ->
  let run := spamDetection requestId event contactData bedrockClient dynamoClient in
  outcome run = inr (inr (Some cr))
  /\ storeWrites (trace run) = 0
  /\ emailDispatches (trace run) = 0
  /\ classifierCalls (trace run) = 1.
Proof.
  intros Hen Hc Hconv Hb.
  destruct (classifySubmission_counts contactData bedrockClient) as (C1 & C2 & C3).
  apply (js_ge_convertible _ (spamConfidenceThreshold CONFIG)) in Hconv as [b Hge].
  unfold blockTest in Hb. rewrite Hge in Hb.
  unfold spamDetection. rewrite Hen.
  rewrite (bind_returns _ _ cr Hc).
  rewrite (bind_returns (log _ _ _ _) _ tt) by reflexivity.
  rewrite Hge, bind_lift_inr, Hb.
  cbn [ret trace outcome fst snd].
  split; [reflexivity|].
  rewrite !storeWrites_app, !emailDispatches_app, !classifierCalls_app.
  unfold trace in *. rewrite C1, C2, C3. now repeat split.
Qed.

(** The comparison of line 394 throws: the block throws after the
    classifier call, before any store write. *)
Lemma spamDetection_throws requestId event contactData bedrockClient dynamoClient cr :
  spamDetectionEnabled CONFIG = true ->
  outcome (classifySubmission contactData bedrockClient) = inr cr ->
  convertible (confidence cr) = false ->
  let run := spamDetection requestId event contactData bedrockClient dynamoClient in
  (exists error, outcome run = inl error)
  /\ storeWrites (trace run) = 0
  /\ emailDispatches (trace run) = 0
  /\ classifierCalls (trace run) = 1.
Proof.
  intros Hen Hc Hconv.
  destruct (classifySubmission_counts contactData bedrockClient) as (C1 & C2 & C3).
  destruct (js_ge (confidence cr) (spamConfidenceThreshold CONFIG)) as [e|b] eqn:Hge.
  2:{ assert (K : convertible (confidence cr) = true)
        by (apply (js_ge_convertible _ (spamConfidenceThreshold CONFIG)); eauto).
      congruence. }
  unfold spamDetection. rewrite Hen.
  rewrite (bind_returns _ _ cr Hc).
  rewrite (bind_returns (log _ _ _ _) _ tt) by reflexivity.
  rewrite Hge, bind_lift_inl.
  cbn [ret trace outcome fst snd].
  split; [eauto|].
  rewrite !storeWrites_app, !emailDispatches_app, !classifierCalls_app.
  unfold trace in *. rewrite C1, C2, C3. now repeat split.
Qed.

Lemma blockTest_convertible cr :
  blockTest cr = true -> convertible (confidence cr) = true.
Proof.
  unfold blockTest. intros H.
  apply (js_ge_convertible _ (spamConfidenceThreshold CONFIG)).
  destruct (js_ge _ _) as [e|b]; [now rewrite andb_false_r in H | eauto].
Qed.

(** When the decision is to forward, nothing was written or dispatched yet,
    and the classification handed on is [null] (detection disabled) or the
    classifier's result. *)
Lemma spamDetection_forwards requestId event contactData bedrockClient dynamoClient ocr :
  isNullish event = false ->
  outcome (spamDetection requestId event contactData bedrockClient dynamoClient)
    = inr (inr ocr) ->
  storeWrites (trace (spamDetection requestId event contactData bedrockClient
                        dynamoClient)) = 0
  /\ emailDispatches (trace (spamDetection requestId event contactData bedrockClient
                               dynamoClient)) = 0.
Proof.
  intros Hn O.
  destruct (spamDetectionEnabled CONFIG) eqn:Hen.
  - destruct (classifySubmission_total contactData bedrockClient) as [cr Hc].
    destruct (convertible (confidence cr)) eqn:Hconv.
    + destruct (blockTest cr) eqn:Hb.
      * destruct (spamDetection_blocks requestId event contactData bedrockClient
                    dynamoClient cr Hen Hc Hb Hn) as (O' & _).
        cbv zeta in O'. rewrite O' in O. discriminate O.
      * destruct (spamDetection_passes requestId event contactData bedrockClient
                    dynamoClient cr Hen Hc Hconv Hb) as (_ & P1 & P2 & _). auto.
    + destruct (spamDetection_throws requestId event contactData bedrockClient
                  dynamoClient cr Hen Hc Hconv) as ([e O'] & _).
      cbv zeta in O'. rewrite O' in O. discriminate O.
  - rewrite spamDetection_disabled by assumption. now split.
Qed.

(** *** The [catch] block of the handler *)

Lemma handler_catch_eq requestId error :
  exists line, handler_catch requestId error = ([ConsoleLog line], inr sendFailureResponse).
Proof. eexists. reflexivity. Qed.

Lemma try_catch_handler_returns (m : io Response) requestId response :
  outcome m = inr response ->
  outcome (try_catch m (handler_catch requestId)) = inr response.
Proof. intros H. now rewrite (try_catch_returns _ _ _ H). Qed.

Lemma try_catch_handler_throws (m : io Response) requestId error :
  outcome m = inl error ->
  outcome (try_catch m (handler_catch requestId)) = inr sendFailureResponse.
Proof. intros H. now rewrite (try_catch_throws _ _ _ H). Qed.

Lemma try_catch_handler_counts (m : io Response) requestId :
  storeWrites (trace (try_catch m (handler_catch requestId))) = storeWrites (trace m)
  /\ emailDispatches (trace (try_catch m (handler_catch requestId)))
     = emailDispatches (trace m)
  /\ classifierCalls (trace (try_catch m (handler_catch requestId)))
     = classifierCalls (trace m).
Proof.
  unfold try_catch, trace. destruct (snd m) as [e|r]; [|now repeat split].
  destruct (handler_catch_eq requestId e) as [line ->]. cbn [fst].
  rewrite storeWrites_app, emailDispatches_app, classifierCalls_app.
  cbn. repeat split; lia.
Qed.

(** The handler never throws. *)
Lemma handler_total event context sesClient bedrockClient dynamoClient :
  exists response,
    outcome (handler event context sesClient bedrockClient dynamoClient) = inr response.
Proof.
  unfold handler. cbv zeta.
  match goal with
  | |- context [try_catch ?m _] => destruct (outcome m) as [e|r] eqn:E
  end.
  - rewrite (try_catch_handler_throws _ _ _ E). eauto.
  - rewrite (try_catch_handler_returns _ _ _ E). eauto.
Qed.

Lemma isPreflight_not_nullish event b : isPreflight event = inr b -> isNullish event = false.
Proof.
  unfold isPreflight, member. destruct (isNullish event); [discriminate|reflexivity].
Qed.

(** *** After validation *)

Section Validated.

Variables (event context : jsval) (sesClient bedrockClient dynamoClient : option client).
Variable contactData : ContactData.
Hypothesis Hvalid : passesValidation event context contactData.

Local Notation requestId := (requestIdOf context).
Local Notation ses := (clientOr sesClient (new_SESClient rt)).
Local Notation bedrock := (clientOr bedrockClient (new_BedrockRuntimeClient rt)).
Local Notation dynamo := (clientOr dynamoClient (new_DynamoDBDocumentClient rt)).
Local Notation run := (handler event context sesClient bedrockClient dynamoClient).
Local Notation rest := (dispatch requestId event contactData ses bedrock dynamo).

Lemma validated_outcome :
  outcome run = outcome (try_catch rest (handler_catch requestId)).
Proof.
  destruct (handler_validated event context sesClient bedrockClient dynamoClient
              contactData Hvalid) as (pre & _ & H).
  now rewrite H.
Qed.

Lemma validated_counts :
  storeWrites (trace run) = storeWrites (trace rest)
  /\ emailDispatches (trace run) = emailDispatches (trace rest)
  /\ classifierCalls (trace run) = classifierCalls (trace rest).
Proof.
  destruct (handler_validated event context sesClient bedrockClient dynamoClient
              contactData Hvalid) as (pre & (Q1 & Q2 & Q3) & H).
  destruct (try_catch_handler_counts rest requestId) as (T1 & T2 & T3).
  rewrite H. cbn [trace fst].
  rewrite storeWrites_app, emailDispatches_app, classifierCalls_app.
  unfold trace in *.
  rewrite Q1, Q2, Q3, T1, T2, T3. now repeat split.
Qed.

Lemma validated_event : isNullish event = false.
Proof. destruct Hvalid as [H _]. exact (isPreflight_not_nullish _ _ H). Qed.

(** A blocked submission: one store write, no email, the success answer. *)
Lemma validated_blocked cr :
  spamDetectionEnabled CONFIG = true ->
  outcome (classifySubmission contactData bedrock) = inr cr ->
  blockTest cr = true ->
  outcome run = inr successResponse
  /\ storeWrites (trace run) = 1 /\ emailDispatches (trace run) = 0.
Proof.
  intros Hen Hc Hb.
  destruct (spamDetection_blocks requestId event contactData bedrock dynamo cr
              Hen Hc Hb validated_event) as (O & S1 & S2 & _).
  destruct validated_counts as (V1 & V2 & _).
  rewrite validated_outcome, V1, V2.
  unfold dispatch. rewrite (bind_returns _ _ _ O).
  cbn [ret trace outcome fst snd]. rewrite app_nil_r.
  split; [reflexivity|]. unfold trace in *. now rewrite S1, S2.
Qed.

(** A forwarded submission: no store write, and one email when the
    notifier can build it; the answer is the success answer when the
    notifier returns and the 500 answer when it throws. *)
Lemma validated_forwarded cr :
  outcome (spamDetection requestId event contactData bedrock dynamo) = inr (inr cr) ->
  emailDispatches (trace run) = (if convertibleClassification cr then 1 else 0)
  /\ storeWrites (trace run) = 0
  /\ (forall messageId, outcome (sendEmail contactData ses cr) = inr messageId ->
                        outcome run = inr successResponse)
  /\ (forall error, outcome (sendEmail contactData ses cr) = inl error ->
                    outcome run = inr sendFailureResponse).
Proof.
  intros O.
  destruct (spamDetection_forwards requestId event contactData bedrock dynamo cr
              validated_event O) as (S1 & S2).
  destruct (forward_counts requestId contactData ses cr) as (F1 & F2 & _).
  destruct validated_counts as (V1 & V2 & _).
  rewrite validated_outcome, V1, V2.
  unfold dispatch. rewrite (bind_returns _ _ _ O).
  cbn [trace outcome fst snd].
  rewrite storeWrites_app, emailDispatches_app.
  unfold trace in *. rewrite S1, S2, F1, F2.
  repeat split.
  - intros messageId Hs. apply try_catch_handler_returns. cbn [outcome snd].
    exact (forward_sent requestId _ _ _ _ Hs).
  - intros error Hs. apply try_catch_handler_throws with (error := error).
    cbn [outcome snd]. exact (forward_failed requestId _ _ _ _ Hs).
Qed.

(** The notifier cannot build the email: the answer is the 500 answer. *)
Lemma validated_unbuilt cr :
  outcome (spamDetection requestId event contactData bedrock dynamo) = inr (inr cr) ->
  convertibleClassification cr = false ->
  outcome run = inr sendFailureResponse
  /\ emailDispatches (trace run) = 0 /\ storeWrites (trace run) = 0.
Proof.
  intros O Hc.
  destruct (validated_forwarded cr O) as (E & S & _ & Hf).
  rewrite Hc in E.
  destruct (sendEmail_unbuilt contactData ses cr Hc) as [error Hs].
  split; [|now split].
  apply (Hf error). now rewrite Hs.
Qed.

(** The comparison with the threshold throws: nothing is written or
    dispatched, and the answer is the 500 answer. *)
Lemma validated_thrown cr :
  spamDetectionEnabled CONFIG = true ->
  outcome (classifySubmission contactData bedrock) = inr cr ->
  convertible (confidence cr) = false ->
  outcome run = inr sendFailureResponse
  /\ emailDispatches (trace run) = 0 /\ storeWrites (trace run) = 0.
Proof.
  intros Hen Hc Hconv.
  destruct (spamDetection_throws requestId event contactData bedrock dynamo cr
              Hen Hc Hconv) as ([error O] & S1 & S2 & _).
  destruct validated_counts as (V1 & V2 & _).
  rewrite validated_outcome, V1, V2.
  unfold dispatch. rewrite (bind_throws _ _ _ O).
  cbn [trace outcome fst snd]. unfold trace in *.
  split; [|now split].
  apply try_catch_handler_throws with (error := error). reflexivity.
Qed.

(** What becomes of a classified submission that the policy does not
    block. *)
Lemma validated_unblocked cr :
  spamDetectionEnabled CONFIG = true ->
  outcome (classifySubmission contactData bedrock) = inr cr ->
  blockTest cr = false ->
  storeWrites (trace run) = 0
  /\ emailDispatches (trace run) = (if convertibleResult cr then 1 else 0)
  /\ (convertibleResult cr = false -> outcome run = inr sendFailureResponse).
Proof.
  intros Hen Hc Hb.
  destruct (convertible (confidence cr)) eqn:Hconv.
  - destruct (spamDetection_passes requestId event contactData bedrock dynamo cr
                Hen Hc Hconv Hb) as (O & _).
    destruct (validated_forwarded (Some cr) O) as (E & S & _).
    cbn [convertibleClassification] in E.
    split; [exact S|]. split; [exact E|].
    intros Hr. now destruct (validated_unbuilt (Some cr) O Hr).
  - destruct (validated_thrown cr Hen Hc Hconv) as (O & E & S).
    assert (Hr : convertibleResult cr = false).
    { unfold convertibleResult. rewrite Hconv. now rewrite andb_false_r. }
    rewrite Hr. auto.
Qed.

End Validated.

(* ===================================================================== *)
(** ** The handler: stated properties *)
(* ===================================================================== *)

(** C9.  An event whose method is OPTIONS, in [httpMethod] or in
    [requestContext.http.method], is answered at once with status 200 and
    body {message:"OK"}: the run has no effect at all (no console line, no
    classifier call, no store write, no email), whatever the rest of the
    event holds. *)
Theorem handler_preflight (event context : jsval)
    (sesClient bedrockClient dynamoClient : option client) :
  getProp event (lit "httpMethod") = JStr (lit "OPTIONS")
  \/ optMember (optMember (getProp event (lit "requestContext")) (lit "http"))
       (lit "method") = JStr (lit "OPTIONS") ->
  handler event context sesClient bedrockClient dynamoClient
  = ([], inr preflightResponse).
Proof.
  intros H.
  assert (Hn : isNullish event = false).
  { destruct event; try reflexivity; destruct H as [H|H]; discriminate H. }
  assert (Hp : isPreflight event = inr true).
  { unfold isPreflight. rewrite !member_not_nullish by assumption. unfold rbind.
    destruct (strictEqStr (getProp event (lit "httpMethod")) (lit "OPTIONS")) eqn:E;
      [reflexivity|].
    destruct H as [H|H].
    - apply strictEqStr_true in H. congruence.
    - apply strictEqStr_true in H. now rewrite H. }
  unfold handler, handler_try. cbv zeta. rewrite Hp. reflexivity.
Qed.

(** C1.  With classification enabled, the answer to a submission that the
    decision policy blocks and the answer to a submission whose email the
    notifier sent are the same response: status 200, the same headers, and
    the body {message:"Thank you for contacting us! Your message has been
    sent.", success:true}. *)
Theorem blocked_and_sent_responses_identical
    (event1 context1 : jsval) (ses1 bedrock1 dynamo1 : option client)
    (contactData1 : ContactData) (cr1 : ClassificationResult)
    (event2 context2 : jsval) (ses2 bedrock2 dynamo2 : option client)
    (contactData2 : ContactData) (cr2 : option ClassificationResult)
    (messageId : jsval) :
  spamDetectionEnabled CONFIG = true ->
  passesValidation event1 context1 contactData1 ->
  outcome (classifySubmission contactData1
             (clientOr bedrock1 (new_BedrockRuntimeClient rt))) = inr cr1 ->
  policyBlocks cr1 ->
  passesValidation event2 context2 contactData2 ->
  outcome (spamDetection (requestIdOf context2) event2 contactData2
             (clientOr bedrock2 (new_BedrockRuntimeClient rt))
             (clientOr dynamo2 (new_DynamoDBDocumentClient rt))) = inr (inr cr2) ->
  outcome (sendEmail contactData2 (clientOr ses2 (new_SESClient rt)) cr2)
    = inr messageId ->
  outcome (handler event1 context1 ses1 bedrock1 dynamo1)
  = outcome (handler event2 context2 ses2 bedrock2 dynamo2)
  /\ outcome (handler event1 context1 ses1 bedrock1 dynamo1) = inr successResponse.
Proof.
  intros Hen V1 C1 B1 V2 D2 S2.
  apply blockTest_policy in B1.
  destruct (validated_blocked event1 context1 ses1 bedrock1 dynamo1 contactData1
              V1 cr1 Hen C1 B1) as (O1 & _).
  rewrite O1. split; [|reflexivity].
  destruct (validated_forwarded event2 context2 ses2 bedrock2 dynamo2 contactData2
              V2 cr2 D2) as (_ & _ & Hs & _).
  symmetry. exact (Hs messageId S2).
Qed.

(** C2.  For a validated submission: with classification disabled (a null
    classification result) the submission goes to the notifier; with
    classification enabled and a result of label [l] and confidence [c],
    the run records the submission and skips the notifier exactly when [l]
    is SPAM or GIBBERISH and [c >= threshold].  In every other case, [c]
    being a number or a value that converts to one, the decision is to
    forward: nothing is recorded and the result is handed to the notifier,
    whose email is dispatched provided the label, the confidence and the
    reason convert to primitive values (as a string, a number and a string
    do).  When one of them does not convert, the conversion throws and the
    answer is the 500 answer, without an email. *)
Theorem decision_policy (event context : jsval)
    (sesClient bedrockClient dynamoClient : option client)
    (contactData : ContactData) :
  passesValidation event context contactData ->
  let run := trace (handler event context sesClient bedrockClient dynamoClient) in
  (spamDetectionEnabled CONFIG = false ->
   emailDispatches run = 1 /\ storeWrites run = 0)
  /\
  (spamDetectionEnabled CONFIG = true ->
   forall cr,
     outcome (classifySubmission contactData
                (clientOr bedrockClient (new_BedrockRuntimeClient rt))) = inr cr ->
     ((storeWrites run = 1 /\ emailDispatches run = 0) <-> policyBlocks cr)
     /\ (convertible (confidence cr) = true -> ~ policyBlocks cr ->
         outcome (spamDetection (requestIdOf context) event contactData
                    (clientOr bedrockClient (new_BedrockRuntimeClient rt))
                    (clientOr dynamoClient (new_DynamoDBDocumentClient rt)))
         = inr (inr (Some cr))
         /\ storeWrites run = 0
         /\ emailDispatches run = (if convertibleResult cr then 1 else 0))
     /\ (convertibleResult cr = true ->
         ((emailDispatches run = 1 /\ storeWrites run = 0) <-> ~ policyBlocks cr))
     /\ (convertibleResult cr = false -> ~ policyBlocks cr ->
         emailDispatches run = 0 /\ storeWrites run = 0
         /\ outcome (handler event context sesClient bedrockClient dynamoClient)
            = inr sendFailureResponse)).
Proof.
  intros V run. split.
  - intros Hen.
    destruct (validated_forwarded event context sesClient bedrockClient dynamoClient
                contactData V None) as (E & S & _).
    { now rewrite spamDetection_disabled. }
    now split.
  - intros Hen cr Hc. rewrite <- blockTest_policy.
    destruct (blockTest cr) eqn:Hb.
    + destruct (validated_blocked event context sesClient bedrockClient dynamoClient
                  contactData V cr Hen Hc Hb) as (_ & S & E).
      subst run. rewrite S, E.
      split; [tauto|]. split; [|split].
      * intros _ H. now contradiction H.
      * intros _. split; [intros [H _]; discriminate H | intros H; now contradiction H].
      * intros _ H. now contradiction H.
    + destruct (validated_unblocked event context sesClient bedrockClient dynamoClient
                  contactData V cr Hen Hc Hb) as (S & E & Hko).
      subst run. rewrite S, E.
      split; [|split; [|split]].
      * split; [intros [H _]; discriminate H | discriminate].
      * intros Hconv _.
        destruct (spamDetection_passes (requestIdOf context) event contactData _
                    (clientOr dynamoClient (new_DynamoDBDocumentClient rt))
                    cr Hen Hc Hconv Hb) as (O & _).
        now split.
      * intros Hr. rewrite Hr. split; [discriminate | tauto].
      * intros Hr _. rewrite Hr. auto.
Qed.

(** The message sent to the model and the outcome of the [try] block on a
    rejected call. *)
Lemma classifySubmission_try_rejected contactData bedrock error :
  bedrock (classifyCommand contactData) = inl error ->
  classifySubmission_try (classifyPrompt contactData) bedrock
  = ([BedrockSend (classifyCommand contactData)], inl error).
Proof.
  intros H. unfold classifySubmission_try, send, bind. cbv zeta. cbn [fst snd].
  unfold classifyCommand in H. rewrite H. reflexivity.
Qed.

(** The [try] block on a response: what is left is pure. *)
Lemma classifySubmission_try_answered contactData bedrock response :
  bedrock (classifyCommand contactData) = inr response ->
  classifySubmission_try (classifyPrompt contactData) bedrock
  = ([BedrockSend (classifyCommand contactData)],
     (bytes <- member response (lit "body") ;;
      text <- TextDecoder_decode rt bytes ;;
      responseBody <- JSON_parse rt text ;;
      content <- member responseBody (lit "content") ;;
      first <- index0 content ;;
      text <- member first (lit "text") ;;
      classificationText <- callTrim text ;;
      result <- JSON_parse rt (unfenced classificationText) ;;
      classification <- member result (lit "classification") ;;
      confidence <- member result (lit "confidence") ;;
      reason <- member result (lit "reason") ;;
      inr {| classification := classification;
             confidence := confidence;
             reason := reason;
             failedOpen := JUndefined |})%result).
Proof.
  intros H. unfold classifySubmission_try, send, bind, lift. cbv zeta. cbn [fst snd].
  unfold classifyCommand in H. rewrite H. cbn [fst snd app].
  reflexivity.
Qed.

(** The outcome of the [try] block on the model's answer [t]. *)
Lemma classifySubmission_try_answer contactData bedrock response t :
  bedrock (classifyCommand contactData) = inr response ->
  answersWith response t ->
  outcome (classifySubmission_try (classifyPrompt contactData) bedrock)
  = (result <- JSON_parse rt (unfenced (trim t)) ;;
     classification <- member result (lit "classification") ;;
     confidence <- member result (lit "confidence") ;;
     reason <- member result (lit "reason") ;;
     inr {| classification := classification;
            confidence := confidence;
            reason := reason;
            failedOpen := JUndefined |})%result.
Proof.
  intros H (Hn & text & responseBody & first & rest & Hd & Hp & Hcontent & Htext).
  rewrite (classifySubmission_try_answered _ _ _ H). cbn [outcome snd].
  assert (Hb : isNullish responseBody = false)
    by (destruct responseBody; try reflexivity; discriminate Hcontent).
  assert (Hf : isNullish first = false)
    by (destruct first; try reflexivity; discriminate Htext).
  rewrite member_not_nullish by assumption. cbn [rbind].
  rewrite Hd. cbn [rbind]. rewrite Hp. cbn [rbind].
  rewrite (member_not_nullish responseBody) by assumption. cbn [rbind].
  rewrite Hcontent. cbn [rbind index0 hd].
  rewrite (member_not_nullish first) by assumption. cbn [rbind].
  rewrite Htext. reflexivity.
Qed.

(** When the [try] block throws, the function logs the error and returns
    the fallback; the handler then forwards the submission. *)
Lemma classifySubmission_fails_open contactData bedrockClient error :
  outcome (classifySubmission_try (classifyPrompt contactData)
             (clientOr bedrockClient (new_BedrockRuntimeClient rt))) = inl error ->
  classifySubmission contactData (clientOr bedrockClient (new_BedrockRuntimeClient rt))
  = ([ BedrockSend (classifyCommand contactData);
       ConsoleError (lit "Spam classification failed, failing open")
         (JObj [ (lit "error", JStr (exn_message error)) ]) ],
     inr (failOpenResult error))
  /\ forall event context sesClient dynamoClient,
       spamDetectionEnabled CONFIG = true ->
       passesValidation event context contactData ->
       emailDispatches
         (trace (handler event context sesClient bedrockClient dynamoClient)) = 1
       /\ storeWrites
            (trace (handler event context sesClient bedrockClient dynamoClient)) = 0.
Proof.
  intros Ht.
  set (bedrock := clientOr bedrockClient (new_BedrockRuntimeClient rt)) in *.
  assert (Hc : classifySubmission contactData bedrock
               = ([ BedrockSend (classifyCommand contactData);
                    ConsoleError (lit "Spam classification failed, failing open")
                      (JObj [ (lit "error", JStr (exn_message error)) ]) ],
                  inr (failOpenResult error))).
  { unfold classifySubmission. rewrite (try_catch_throws _ _ _ Ht).
    destruct (bedrock (classifyCommand contactData)) as [e|response] eqn:Hb.
    - now rewrite (classifySubmission_try_rejected _ _ _ Hb).
    - now rewrite (classifySubmission_try_answered _ _ _ Hb). }
  split; [exact Hc|].
  intros event context sesClient dynamoClient Hen V.
  assert (Ho : outcome (classifySubmission contactData bedrock)
               = inr (failOpenResult error)) by now rewrite Hc.
  destruct (validated_unblocked event context sesClient bedrockClient dynamoClient
              contactData V _ Hen Ho eq_refl) as (S & E & _).
  now split.
Qed.

(** C3.  [classifySubmission] fails open.  When the call of the model is
    rejected (a network error), when the response of the model cannot be
    decoded as JSON, when the text the model answered with is not JSON
    (malformed output, with or without a code fence around it), and in
    general whenever its [try] block throws, the function does not throw:
    after the one call of the model it logs the error and returns
    {classification: "LEGITIMATE", confidence: 0.0, reason:
    "Classification error: " + message, failedOpen: true}; the handler then
    sends the submission to the notifier without recording it.  A result of
    [classifySubmission] whose [failedOpen] is true has classification
    LEGITIMATE and confidence 0.0. *)
Theorem classifier_fails_open (contactData : ContactData)
    (bedrockClient : option client) :
  let bedrock := clientOr bedrockClient (new_BedrockRuntimeClient rt) in
  let failsOpenWith (error : exn) :=
    classifySubmission contactData bedrock
    = ([ BedrockSend (classifyCommand contactData);
         ConsoleError (lit "Spam classification failed, failing open")
           (JObj [ (lit "error", JStr (exn_message error)) ]) ],
       inr {| classification := JStr (lit "LEGITIMATE");
              confidence := JNum (S754_zero false);
              reason := JStr (lit "Classification error: " ++ exn_message error);
              failedOpen := JBool true |})
    /\ forall event context sesClient dynamoClient,
         spamDetectionEnabled CONFIG = true ->
         passesValidation event context contactData ->
         emailDispatches
           (trace (handler event context sesClient bedrockClient dynamoClient)) = 1
         /\ storeWrites
              (trace (handler event context sesClient bedrockClient dynamoClient)) = 0 in
  (forall error,
     bedrock (classifyCommand contactData) = inl error -> failsOpenWith error)
  /\
  (forall response text error,
     bedrock (classifyCommand contactData) = inr response ->
     isNullish response = false ->
     TextDecoder_decode rt (getProp response (lit "body")) = inr text ->
     JSON_parse rt text = inl error ->
     failsOpenWith error)
  /\
  (forall response t error,
     bedrock (classifyCommand contactData) = inr response ->
     answersWith response t ->
     JSON_parse rt (unfenced (trim t)) = inl error ->
     failsOpenWith error)
  /\
  (forall error,
     outcome (classifySubmission_try (classifyPrompt contactData) bedrock) = inl error ->
     failsOpenWith error)
  /\
  (forall cr,
     outcome (classifySubmission contactData bedrock) = inr cr ->
     failedOpen cr = JBool true ->
     classification cr = JStr (lit "LEGITIMATE")
     /\ confidence cr = JNum (S754_zero false)).
Proof.
  intros bedrock failsOpenWith.
  assert (Hany : forall error,
             outcome (classifySubmission_try (classifyPrompt contactData) bedrock)
             = inl error -> failsOpenWith error).
  { intros error Ht.
    exact (classifySubmission_fails_open contactData bedrockClient error Ht). }
  split; [|split; [|split; [|split]]].
  - intros error Hb. apply Hany.
    now rewrite (classifySubmission_try_rejected _ _ _ Hb).
  - intros response text error Hb Hn Hd Hp. apply Hany.
    rewrite (classifySubmission_try_answered _ _ _ Hb). cbn [outcome snd].
    rewrite member_not_nullish by assumption. cbn [rbind].
    rewrite Hd. cbn [rbind]. now rewrite Hp.
  - intros response t error Hb Ha Hp. apply Hany.
    rewrite (classifySubmission_try_answer _ _ _ _ Hb Ha). now rewrite Hp.
  - exact Hany.
  - intros cr Hc Hf.
    unfold classifySubmission in Hc.
    destruct (outcome (classifySubmission_try (classifyPrompt contactData) bedrock))
      as [error|cr'] eqn:Ht.
    + rewrite (try_catch_throws _ _ _ Ht) in Hc. cbn in Hc. inversion Hc. now split.
    + rewrite (try_catch_returns _ _ _ Ht) in Hc. rewrite Ht in Hc. inversion Hc; subst.
      rewrite (classifySubmission_try_failedOpen _ _ _ Ht) in Hf. discriminate Hf.
Qed.

(** C5.  For a blocked submission, when the [try] block of
    [logBlockedSubmission] throws (the store write is rejected), the
    function logs the error on the console and returns null, and the
    handler answers with the 200 success response. *)
Theorem recorder_failure_is_absorbed (event context : jsval)
    (sesClient bedrockClient dynamoClient : option client)
    (contactData : ContactData) (cr : ClassificationResult) (error : exn) :
  let dynamo := clientOr dynamoClient (new_DynamoDBDocumentClient rt) in
  spamDetectionEnabled CONFIG = true ->
  passesValidation event context contactData ->
  outcome (classifySubmission contactData
             (clientOr bedrockClient (new_BedrockRuntimeClient rt))) = inr cr ->
  policyBlocks cr ->
  outcome (logBlockedSubmission_try contactData cr event dynamo) = inl error ->
  logBlockedSubmission contactData cr event dynamo
  = (trace (logBlockedSubmission_try contactData cr event dynamo)
       ++ [ ConsoleError (lit "Failed to log blocked submission to DynamoDB")
              (JObj [ (lit "error", JStr (exn_message error));
                      (lit "stack", JStr (exn_stack error)) ]) ],
     inr JNull)
  /\ outcome (handler event context sesClient bedrockClient dynamoClient)
     = inr successResponse.
Proof.
  intros dynamo Hen V Hc Hp Ht. split.
  - unfold logBlockedSubmission. now rewrite (try_catch_throws _ _ _ Ht).
  - apply blockTest_policy in Hp.
    now destruct (validated_blocked event context sesClient bedrockClient dynamoClient
                    contactData V cr Hen Hc Hp) as (O & _).
Qed.

(** C6.  For a validated submission that is forwarded, when the email
    dispatch throws, the handler answers with status 500 and the body
    {error:"Unable to send message. Please try again later."}; the answer
    is the same whatever error was thrown, so neither its message nor its
    stack is in the body. *)
Theorem send_failure_is_generic (event context : jsval)
    (sesClient bedrockClient dynamoClient : option client)
    (contactData : ContactData) (cr : option ClassificationResult) (error : exn) :
  passesValidation event context contactData ->
  outcome (spamDetection (requestIdOf context) event contactData
             (clientOr bedrockClient (new_BedrockRuntimeClient rt))
             (clientOr dynamoClient (new_DynamoDBDocumentClient rt))) = inr (inr cr) ->
  outcome (sendEmail contactData (clientOr sesClient (new_SESClient rt)) cr)
    = inl error ->
  outcome (handler event context sesClient bedrockClient dynamoClient)
  = inr sendFailureResponse
  /\ statusCode sendFailureResponse = 500%Z
  /\ body sendFailureResponse
     = JSON_stringify rt
         (JObj [ (lit "error",
                  JStr (lit "Unable to send message. Please try again later.")) ])
  /\ forall sesClient' error',
       outcome (sendEmail contactData (clientOr sesClient' (new_SESClient rt)) cr)
         = inl error' ->
       outcome (handler event context sesClient' bedrockClient dynamoClient)
       = outcome (handler event context sesClient bedrockClient dynamoClient).
Proof.
  intros V O Hs.
  destruct (validated_forwarded event context sesClient bedrockClient dynamoClient
              contactData V cr O) as (_ & _ & _ & Hf).
  rewrite (Hf error Hs). repeat split.
  intros sesClient' error' Hs'.
  destruct (validated_forwarded event context sesClient' bedrockClient dynamoClient
              contactData V cr O) as (_ & _ & _ & Hf').
  exact (Hf' error' Hs').
Qed.

(* ===================================================================== *)
(** ** The subject line *)
(* ===================================================================== *)

Lemma replaceSpaceRuns_true s :
  replaceSpaceRuns true s = replaceSpaceRuns false (trimStart s).
Proof.
  induction s as [|c s IH]; [reflexivity|]. simpl.
  destruct (isWhiteSpace c) eqn:E; [exact IH|]. simpl. now rewrite E.
Qed.

Lemma trimStart_replaceSpaceRuns_true s :
  trimStart (replaceSpaceRuns true s) = replaceSpaceRuns true s.
Proof.
  induction s as [|c s IH]; [reflexivity|]. simpl.
  destruct (isWhiteSpace c) eqn:E; [exact IH|]. simpl. now rewrite E.
Qed.

Lemma trimStart_replaceSpaceRuns s :
  trimStart (replaceSpaceRuns false s) = replaceSpaceRuns true s.
Proof.
  destruct s as [|c s]; [reflexivity|]. simpl.
  destruct (isWhiteSpace c) eqn:E.
  - change (trimStart (32%N :: ?x)) with (trimStart x).
    apply trimStart_replaceSpaceRuns_true.
  - simpl. now rewrite E.
Qed.

Lemma normalize_eq s : normalize s = trimEnd (replaceSpaceRuns true s).
Proof. unfold normalize, trim. now rewrite trimStart_replaceSpaceRuns. Qed.

Lemma trimEnd_cons_word c s :
  isWhiteSpace c = false -> trimEnd (c :: s) = c :: trimEnd s.
Proof. intros E. rewrite trimEnd_cons, E. now destruct (trimEnd s). Qed.

Lemma trimEnd_cons_space s :
  trimEnd (32%N :: s) = match trimEnd s with [] => [] | t => 32%N :: t end.
Proof. now rewrite trimEnd_cons. Qed.

Lemma split_nonempty s : split s <> [].
Proof.
  destruct s as [|c s]; simpl; [discriminate|].
  destruct (c =? 32)%N; [discriminate|]. destruct (split s); discriminate.
Qed.

Lemma split_cons_word c s :
  isWhiteSpace c = false -> split (c :: s) = (c :: hd [] (split s)) :: tl (split s).
Proof.
  intros E. simpl. destruct (c =? 32)%N eqn:E32.
  - apply N.eqb_eq in E32. subst c. discriminate E.
  - destruct (split s) eqn:Es; [now destruct (split_nonempty s)|reflexivity].
Qed.

Lemma split_app_word cur s :
  noWhiteSpace cur = true ->
  split (cur ++ s) = (cur ++ hd [] (split s)) :: tl (split s).
Proof.
  induction cur as [|c cur IH]; intros H.
  - simpl. destruct (split s) eqn:Es; [now destruct (split_nonempty s)|reflexivity].
  - simpl in H. apply andb_true_iff in H as [Hc Hcur]. apply negb_true_iff in Hc.
    rewrite <- !app_comm_cons.
    rewrite (split_cons_word _ _ Hc), (IH Hcur). reflexivity.
Qed.

Lemma noWhiteSpace_snoc cur c :
  noWhiteSpace cur = true -> isWhiteSpace c = false -> noWhiteSpace (cur ++ [c]) = true.
Proof.
  intros H E. unfold noWhiteSpace in *. rewrite forallb_app, H. simpl. now rewrite E.
Qed.

(** The words the code obtains by splitting the normalized message are the
    words of the message. *)
Lemma split_words s :
  (forall cur, cur <> [] -> noWhiteSpace cur = true ->
               split (cur ++ trimEnd (replaceSpaceRuns false s)) = wordsFrom cur s)
  /\ (trimEnd (replaceSpaceRuns true s) = [] -> wordsFrom [] s = [])
  /\ (trimEnd (replaceSpaceRuns true s) <> [] ->
      split (trimEnd (replaceSpaceRuns true s)) = wordsFrom [] s).
Proof.
  induction s as [|c s (IH1 & IH2 & IH3)].
  - repeat split; try reflexivity.
    + intros cur Hne Hc. simpl. rewrite trimEnd_nil, split_app_word by assumption.
      simpl. rewrite app_nil_r. now destruct cur.
    + intros H. now contradiction H.
  - simpl. destruct (isWhiteSpace c) eqn:E.
    + repeat split; try assumption.
      intros cur Hne Hc. rewrite trimEnd_cons_space.
      destruct (trimEnd (replaceSpaceRuns true s)) as [|d t] eqn:Et.
      * rewrite split_app_word by assumption. cbn [split hd tl].
        rewrite app_nil_r, (IH2 eq_refl). now destruct cur.
      * rewrite split_app_word by assumption.
        change (split (32%N :: d :: t)) with ([] :: split (d :: t)).
        cbn [hd tl]. rewrite app_nil_r, IH3 by discriminate.
        now destruct cur.
    + rewrite !trimEnd_cons_word by assumption. repeat split.
      * intros cur Hne Hc.
        change (cur ++ c :: ?x) with (cur ++ [c] ++ x). rewrite app_assoc.
        apply IH1; [now destruct cur | now apply noWhiteSpace_snoc].
      * discriminate.
      * intros _. apply (IH1 [c]); [discriminate|]. simpl. now rewrite E.
Qed.

Lemma join_split s : join [32%N] (split s) = s.
Proof.
  induction s as [|c s IH]; [reflexivity|].
  simpl split. destruct (c =? 32)%N eqn:E.
  - apply N.eqb_eq in E. subst c.
    destruct (split s) eqn:Es; [now destruct (split_nonempty s)|].
    simpl in *. now rewrite IH.
  - destruct (split s) as [|w ws] eqn:Es; [now destruct (split_nonempty s)|].
    simpl in *. destruct ws; simpl in *; now rewrite <- IH.
Qed.

(** The normalized message is its words joined by single spaces. *)
Lemma normalize_words s : normalize s = join (lit " ") (wordsOf s).
Proof.
  rewrite normalize_eq. unfold wordsOf.
  destruct (split_words s) as (_ & H2 & H3).
  destruct (trimEnd (replaceSpaceRuns true s)) as [|d t] eqn:E.
  - now rewrite H2.
  - rewrite <- H3 by discriminate. symmetry. apply join_split.
Qed.

(** The first words, as the code takes them. *)
Lemma first_words n s :
  join (lit " ") (firstn n (split (normalize s)))
  = join (lit " ") (firstn n (wordsOf s)).
Proof.
  rewrite normalize_eq. unfold wordsOf.
  destruct (split_words s) as (_ & H2 & H3).
  destruct (trimEnd (replaceSpaceRuns true s)) as [|d t] eqn:E.
  - rewrite H2 by reflexivity. destruct n as [|[|n]]; reflexivity.
  - now rewrite H3 by discriminate.
Qed.

(** C7, as the code has it.  With [subjectWordCount = n] and no
    classification, [generateSubject] returns the first [n] words of the
    message joined by single spaces, followed by "..." exactly when that
    prefix is shorter than the message as given (not the normalized one). *)
Theorem generateSubject_first_words (n : nat) (message : jsstring) :
  subjectWordCount CONFIG = Some (Z.of_nat n) ->
  generateSubject message None = inr (subjectAsCoded n message).
Proof.
  intros Hn. unfold generateSubject, subjectAsCoded, slice0. rewrite Hn.
  destruct (Z.ltb_spec (Z.of_nat n) 0) as [H|_]; [lia|].
  rewrite Nat2Z.id. fold (normalize message). rewrite first_words. reflexivity.
Qed.

(* ===================================================================== *)
(** ** The patterns of the validation schemas *)
(* ===================================================================== *)

Lemma Matches_seq_inv r1 r2 s :
  Matches (RSeq r1 r2) s <->
  exists s1 s2, s = s1 ++ s2 /\ Matches r1 s1 /\ Matches r2 s2.
Proof.
  split.
  - intros H. inversion H; subst. eauto.
  - intros (s1 & s2 & -> & H1 & H2). now constructor.
Qed.

Lemma Matches_class_inv p s :
  Matches (RClass p) s <-> exists c, s = [c] /\ p c = true.
Proof.
  split.
  - intros H. inversion H; subst. eauto.
  - intros (c & -> & H). now constructor.
Qed.

Lemma nullable_iff r : nullable r = true <-> Matches r [].
Proof.
  induction r as [| |p|r1 IH1 r2 IH2|r1 IH1 r2 IH2|r IH]; simpl.
  - split; [discriminate | intros H; inversion H].
  - split; [constructor | reflexivity].
  - split; [discriminate | intros H; inversion H].
  - rewrite andb_true_iff, IH1, IH2. split.
    + intros [H1 H2]. exact (MatchesSeq _ _ [] [] H1 H2).
    + intros H. apply Matches_seq_inv in H as (s1 & s2 & E & H1 & H2).
      symmetry in E. apply app_eq_nil in E as [-> ->]. now split.
  - rewrite orb_true_iff, IH1, IH2. split.
    + intros [H|H]; [now apply MatchesAltL | now apply MatchesAltR].
    + intros H. inversion H; subst; auto.
  - split; [constructor | reflexivity].
Qed.

Lemma Matches_star_cons r c s :
  Matches (RStar r) (c :: s) ->
  exists s1 s2, s = s1 ++ s2 /\ Matches r (c :: s1) /\ Matches (RStar r) s2.
Proof.
  intros H. remember (RStar r) as r' eqn:Er. remember (c :: s) as t eqn:Et.
  revert s Et.
  induction H as [| | | | | |r0 s1 s2 H1 _ H2 IH2]; intros u Et; try discriminate.
  inversion Er; subst r0. destruct s1 as [|d s1].
  - simpl in Et. exact (IH2 eq_refl u Et).
  - simpl in Et. inversion Et; subst. eauto.
Qed.

Lemma deriv_iff c r s : Matches (deriv c r) s <-> Matches r (c :: s).
Proof.
  revert s.
  induction r as [| |p|r1 IH1 r2 IH2|r1 IH1 r2 IH2|r IH]; intros s; simpl.
  - split; intros H; inversion H.
  - split; intros H; inversion H.
  - destruct (p c) eqn:E; split; intros H.
    + inversion H; subst. now constructor.
    + inversion H; subst. constructor.
    + inversion H.
    + inversion H; subst. congruence.
  - assert (Hseq : Matches (RSeq (deriv c r1) r2) s ->
                   Matches (RSeq r1 r2) (c :: s)).
    { intros H. apply Matches_seq_inv in H as (s1 & s2 & -> & H1 & H2).
      apply IH1 in H1. exact (MatchesSeq _ _ (c :: s1) s2 H1 H2). }
    destruct (nullable r1) eqn:En; split; intros H.
    + inversion H; subst; [now apply Hseq|].
      apply nullable_iff in En.
      match goal with K : Matches (deriv c r2) s |- _ => apply IH2 in K;
        exact (MatchesSeq _ _ [] (c :: s) En K) end.
    + apply Matches_seq_inv in H as (s1 & s2 & E & H1 & H2).
      destruct s1 as [|d s1]; simpl in E.
      * subst s2. apply MatchesAltR. now apply IH2.
      * inversion E; subst. apply MatchesAltL.
        apply Matches_seq_inv. exists s1, s2. repeat split; [now apply IH1 | assumption].
    + now apply Hseq.
    + apply Matches_seq_inv in H as (s1 & s2 & E & H1 & H2).
      destruct s1 as [|d s1]; simpl in E.
      * apply nullable_iff in H1. congruence.
      * inversion E; subst.
        apply Matches_seq_inv. exists s1, s2. repeat split; [now apply IH1 | assumption].
  - split; intros H.
    + inversion H; subst; [apply MatchesAltL; now apply IH1
                          | apply MatchesAltR; now apply IH2].
    + inversion H; subst; [apply MatchesAltL; now apply IH1
                          | apply MatchesAltR; now apply IH2].
  - split; intros H.
    + apply Matches_seq_inv in H as (s1 & s2 & -> & H1 & H2).
      apply IH in H1. exact (MatchesStarApp _ (c :: s1) s2 H1 H2).
    + apply Matches_star_cons in H as (s1 & s2 & -> & H1 & H2).
      apply Matches_seq_inv. exists s1, s2. repeat split; [now apply IH | assumption].
Qed.

(** The matcher decides the language. *)
Lemma matches_iff r s : matches r s = true <-> Matches r s.
Proof.
  revert r. induction s as [|c s IH]; intros r; simpl.
  - apply nullable_iff.
  - rewrite IH. apply deriv_iff.
Qed.

Lemma Matches_star_class p s : Matches (RStar (RClass p)) s <-> forallb p s = true.
Proof.
  split.
  - intros H. remember (RStar (RClass p)) as r eqn:Er.
    induction H as [| | | | | |r0 s1 s2 H1 _ H2 IH2]; try discriminate; [reflexivity|].
    inversion Er; subst r0. apply Matches_class_inv in H1 as (c & -> & Hc).
    simpl. now rewrite Hc, (IH2 eq_refl).
  - induction s as [|c s IH]; simpl; intros H; [constructor|].
    apply andb_true_iff in H as [Hc Hs].
    exact (MatchesStarApp _ [c] s (MatchesClass p c Hc) (IH Hs)).
Qed.

Lemma Matches_plus_class p s :
  Matches (RPlus (RClass p)) s <-> s <> [] /\ forallb p s = true.
Proof.
  unfold RPlus. rewrite Matches_seq_inv. split.
  - intros (s1 & s2 & -> & H1 & H2).
    apply Matches_class_inv in H1 as (c & -> & Hc). apply Matches_star_class in H2.
    split; [discriminate|]. simpl. now rewrite Hc, H2.
  - intros [Hne H]. destruct s as [|c s]; [now contradiction Hne|].
    simpl in H. apply andb_true_iff in H as [Hc Hs].
    exists [c], s. repeat split; [now constructor | now apply Matches_star_class].
Qed.

Lemma codePoints_nil s : codePoints s = [] <-> s = [].
Proof.
  split; [|now intros ->].
  destruct s as [|h [|l t]]; simpl; [reflexivity | discriminate |].
  destruct (isHighSurrogate h && isLowSurrogate l); discriminate.
Qed.

(** X1.  The email pattern [/^[^\s@]+@[^\s@]+\.[^\s@]+$/] accepts exactly the
    strings of the shape local@domain.tld: three non-empty parts free of
    white space and of [@], an [@] after the first and a dot before the
    last. *)
Theorem email_pattern_shape (s : jsstring) :
  patternAccepts (v_email VALIDATION) s = true <-> emailShape s.
Proof.
  unfold patternAccepts, emailShape, VALIDATION. cbn [v_email pattern].
  unfold RegExp_test. cbn [re_unicode re_body].
  rewrite matches_iff, Matches_seq_inv. split.
  - intros (a & t1 & -> & Ha & H).
    apply Matches_seq_inv in H as (x & t2 & -> & Hx & H).
    apply Matches_seq_inv in H as (b & t3 & -> & Hb & H).
    apply Matches_seq_inv in H as (y & c & -> & Hy & Hc).
    apply Matches_class_inv in Hx as (cx & -> & Ex). apply N.eqb_eq in Ex. subst cx.
    apply Matches_class_inv in Hy as (cy & -> & Ey). apply N.eqb_eq in Ey. subst cy.
    apply Matches_plus_class in Ha as [Ha1 Ha2].
    apply Matches_plus_class in Hb as [Hb1 Hb2].
    apply Matches_plus_class in Hc as [Hc1 Hc2].
    exists a, b, c. now repeat split.
  - intros (a & b & c & -> & Ha & Hb & Hc & Fa & Fb & Fc).
    exists a, (64%N :: b ++ 46%N :: c). split; [reflexivity|].
    split; [now apply Matches_plus_class|].
    apply Matches_seq_inv. exists [64%N], (b ++ 46%N :: c). split; [reflexivity|].
    split; [now constructor|].
    apply Matches_seq_inv. exists b, (46%N :: c). split; [reflexivity|].
    split; [now apply Matches_plus_class|].
    apply Matches_seq_inv. exists [46%N], c. split; [reflexivity|].
    split; [now constructor | now apply Matches_plus_class].
Qed.

(** X2.  The name, phone and message patterns accept exactly the non-empty
    strings all of whose characters are in the class of the pattern: code
    units for the phone, code points (the [u] flag) for the name and the
    message. *)
Theorem class_patterns (s : jsstring) :
  (patternAccepts (v_name VALIDATION) s = true
   <-> s <> [] /\ forallb class_name (codePoints s) = true)
  /\ (patternAccepts (v_phone VALIDATION) s = true
      <-> s <> [] /\ forallb class_phone s = true)
  /\ (patternAccepts (v_message VALIDATION) s = true
      <-> s <> [] /\ forallb class_message (codePoints s) = true).
Proof.
  unfold patternAccepts, VALIDATION. cbn [v_name v_phone v_message pattern].
  unfold RegExp_test. cbn [re_unicode re_body].
  rewrite !matches_iff, !Matches_plus_class.
  assert (K : codePoints s <> [] <-> s <> []) by (rewrite codePoints_nil; tauto).
  rewrite K. tauto.
Qed.

(* ===================================================================== *)
(** ** What the validator lets through, and what it answers *)
(* ===================================================================== *)

Lemma validateField_output v fieldName schema t :
  validateField v fieldName schema = inr t ->
  wellFormedField schema t /\ validateField (JStr t) fieldName schema = inr t.
Proof.
  intros H.
  destruct (validateField_inr _ _ _ _ H) as (s & -> & -> & Hne).
  assert (H' : validateField (JStr (trim s)) fieldName schema = inr (trim s)).
  { apply (validateField_same_trim s); [exact H | apply trim_idem]. }
  split; [|exact H'].
  rewrite validateField_string in H'.
  destruct (trim s) as [|c t] eqn:Et; [now contradiction Hne|].
  assert (Hid : trim (c :: t) = c :: t) by (rewrite <- Et; apply trim_idem).
  rewrite Hid in H'.
  destruct (exceeds _ _) eqn:Ex; [discriminate|].
  destruct (patternAccepts _ _) eqn:Ep; [|discriminate].
  repeat split; try assumption; discriminate.
Qed.

(** X3.  A value that [validateField] returns is well formed for the schema
    (not empty, no white space at either end, within the maximum length,
    accepted by the pattern), and validating it again returns it
    unchanged. *)
Theorem validateField_idempotent (v : jsval) (fieldName : jsstring) (schema : Schema)
    (t : jsstring) :
  validateField v fieldName schema = inr t ->
  wellFormedField schema t
  /\ forall otherName, validateField (JStr t) otherName schema = inr t.
Proof.
  intros H. destruct (validateField_output _ _ _ _ H) as [W _].
  split; [exact W|]. intros otherName.
  destruct W as (Hne & Ht & Hx & Hp). rewrite validateField_string, Ht.
  destruct t as [|c t]; [now contradiction Hne|]. now rewrite Hx, Hp.
Qed.

Lemma contactObject_fields cd :
  isNullish (contactObject cd) = false
  /\ getProp (contactObject cd) (lit "email") = JStr (cd_email cd)
  /\ getProp (contactObject cd) (lit "name") = JStr (cd_name cd)
  /\ getProp (contactObject cd) (lit "phone") = JStr (cd_phone cd)
  /\ getProp (contactObject cd) (lit "message") = JStr (cd_message cd).
Proof. repeat split. Qed.

(** X4.  Validated contact data validates to itself, and each of its fields is
    well formed for its schema. *)
Theorem validateContactForm_idempotent (data : jsval) (cd : ContactData) :
  validateContactForm data = inr cd ->
  validateContactForm (contactObject cd) = inr cd
  /\ wellFormedField (v_email VALIDATION) (cd_email cd)
  /\ wellFormedField (v_name VALIDATION) (cd_name cd)
  /\ wellFormedField (v_phone VALIDATION) (cd_phone cd)
  /\ wellFormedField (v_message VALIDATION) (cd_message cd).
Proof.
  intros H. apply validateContactForm_inr in H as (_ & H1 & H2 & H3 & H4).
  apply validateField_output in H1 as [W1 V1].
  apply validateField_output in H2 as [W2 V2].
  apply validateField_output in H3 as [W3 V3].
  apply validateField_output in H4 as [W4 V4].
  split; [|exact (conj W1 (conj W2 (conj W3 W4)))].
  apply validateContactForm_inr.
  destruct (contactObject_fields cd) as (F0 & F1 & F2 & F3 & F4).
  rewrite F1, F2, F3, F4. now repeat split.
Qed.

Lemma validateField_rejection v fieldName schema e :
  validateField v fieldName schema = inl e ->
  exists message,
    e = ValidationError fieldName message
    /\ In message (rejectionMessages fieldName schema).
Proof.
  unfold validateField, rejectionMessages.
  repeat match goal with
         | |- context [if ?b then _ else _] => destruct b
         end; intros H; inversion H; eexists; (split; [reflexivity|]); simpl; auto.
Qed.

Lemma validateContactForm_rejected (data : jsval) (e : exn) :
  isNullish data = false ->
  validateContactForm data = inl e ->
  exists field schema message,
    In (field, schema) formSchemas
    /\ e = ValidationError field message
    /\ In message (rejectionMessages field schema).
Proof.
  intros Hn. unfold validateContactForm.
  rewrite !member_not_nullish by assumption. unfold rbind.
  assert (K : forall field schema v e',
             In (field, schema) formSchemas ->
             validateField v field schema = inl e' ->
             exists field schema message,
               In (field, schema) formSchemas
               /\ e' = ValidationError field message
               /\ In message (rejectionMessages field schema)).
  { intros field schema v e' Hin Hv.
    destruct (validateField_rejection _ _ _ _ Hv) as (message & -> & Hm).
    exists field, schema, message. auto. }
  destruct (validateField _ (lit "email") _) as [e1|email] eqn:E1.
  { intros H; inversion H; subst. eapply K; [|exact E1]. simpl; auto. }
  destruct (validateField _ (lit "name") _) as [e2|name] eqn:E2.
  { intros H; inversion H; subst. eapply K; [|exact E2]. simpl; auto. }
  destruct (validateField _ (lit "phone") _) as [e3|phone] eqn:E3.
  { intros H; inversion H; subst. eapply K; [|exact E3]. simpl; auto. }
  destruct (validateField _ (lit "message") _) as [e4|message] eqn:E4.
  { intros H; inversion H; subst. eapply K; [|exact E4]. simpl; auto 6. }
  discriminate.
Qed.

(** X5.  On a record, a rejection by [validateContactForm] is a ValidationError
    for one of the four fields whose message is one of the four fixed
    messages of that field: it is made of the field's name and of the
    configured maximum, never of the submitted value. *)
Theorem validateContactForm_rejection (data : jsval) (e : exn) :
  isNullish data = false ->
  validateContactForm data = inl e ->
  exists field schema message,
    In field formFields
    /\ In (field, schema) formSchemas
    /\ e = ValidationError field message
    /\ In message (rejectionMessages field schema).
Proof.
  intros Hn He.
  destruct (validateContactForm_rejected data e Hn He)
    as (field & schema & message & Hin & -> & Hm).
  exists field, schema, message. repeat split; try assumption.
  simpl in Hin.
  destruct Hin as [H|[H|[H|[H|[]]]]]; inversion H; simpl; auto.
Qed.

(* ===================================================================== *)
(** ** Every path of the handler *)
(* ===================================================================== *)

Lemma outcome_bind_inr {A B} (m : io A) (f : A -> io B) b :
  outcome (bind m f) = inr b ->
  exists a, outcome m = inr a /\ outcome (f a) = inr b.
Proof.
  unfold outcome, bind. destruct (snd m) as [e|a]; cbn [snd]; [discriminate|eauto].
Qed.

(** The decoding block returns decoded data or the 400 answer; it never
    throws. *)
Lemma parseRequestBody_cases requestId event :
  outcome (parseRequestBody requestId event) = inr (inl invalidFormatResponse)
  \/ exists data, outcome (parseRequestBody requestId event) = inr (inr data).
Proof.
  unfold parseRequestBody.
  match goal with
  | |- context [try_catch ?m ?h] =>
      destruct (outcome m) as [e|a] eqn:E;
      [ left; now rewrite (try_catch_throws _ _ _ E)
      | right; rewrite (try_catch_returns _ _ _ E) ]
  end.
  rewrite E.
  repeat (apply outcome_bind_inr in E as (? & _ & E)).
  match type of E with
  | context [if ?b then _ else _] => destruct b
  end;
    repeat (apply outcome_bind_inr in E as (? & _ & E));
    inversion E; eauto.
Qed.

Lemma validateInput_outcome requestId data :
  outcome (validateInput requestId data) =
  match validateContactForm data with
  | inr contactData => inr (inr contactData)
  | inl (ValidationError field message) =>
      inr (inl (validationFailureResponse field message))
  | inl (Error message stack) => inl (Error message stack)
  end.
Proof.
  unfold validateInput, try_catch, bind, lift, outcome. cbn [fst snd].
  destruct (validateContactForm data) as [[field message|message stack]|cd];
    reflexivity.
Qed.

Lemma preflight_answer event context sesClient bedrockClient dynamoClient :
  isPreflight event = inr true ->
  handler event context sesClient bedrockClient dynamoClient
  = ([], inr preflightResponse).
Proof. intros H. unfold handler, handler_try. cbv zeta. now rewrite H. Qed.

Lemma preflight_throws event context sesClient bedrockClient dynamoClient e :
  isPreflight event = inl e ->
  outcome (handler event context sesClient bedrockClient dynamoClient)
  = inr sendFailureResponse
  /\ quiet (trace (handler event context sesClient bedrockClient dynamoClient)).
Proof.
  intros H. unfold handler, handler_try. cbv zeta. rewrite H. now repeat split.
Qed.

Lemma quiet_handler_catch requestId e : quiet (trace (handler_catch requestId e)).
Proof. now repeat split. Qed.

Lemma outcome_handler_catch requestId e :
  outcome (handler_catch requestId e) = inr sendFailureResponse.
Proof. reflexivity. Qed.

(** The decoding block answered. *)
Lemma handler_undecoded event context sesClient bedrockClient dynamoClient r :
  isPreflight event = inr false ->
  outcome (parseRequestBody (requestIdOf context) event) = inr (inl r) ->
  outcome (handler event context sesClient bedrockClient dynamoClient) = inr r
  /\ quiet (trace (handler event context sesClient bedrockClient dynamoClient)).
Proof.
  intros Hpre Hparse. unfold handler, handler_try. cbv zeta.
  rewrite (bind_returns (lift (isPreflight event)) _ false) by (now rewrite Hpre).
  rewrite (bind_returns (log _ _ _ _) _ tt) by reflexivity.
  rewrite (bind_returns (parseRequestBody _ event) _ (inl r)) by exact Hparse.
  rewrite try_catch_returns with (a := r) by reflexivity.
  split; [reflexivity|]. cbn [trace outcome fst snd ret lift app].
  rewrite app_nil_r. apply quiet_app; [apply quiet_log | apply quiet_parseRequestBody].
Qed.

(** The validation rejected the decoded data, or threw on it. *)
Lemma handler_unaccepted event context sesClient bedrockClient dynamoClient data e :
  isPreflight event = inr false ->
  outcome (parseRequestBody (requestIdOf context) event) = inr (inr data) ->
  validateContactForm data = inl e ->
  outcome (handler event context sesClient bedrockClient dynamoClient)
  = inr match e with
        | ValidationError field message => validationFailureResponse field message
        | Error _ _ => sendFailureResponse
        end
  /\ quiet (trace (handler event context sesClient bedrockClient dynamoClient)).
Proof.
  intros Hpre Hparse Hv.
  pose proof (validateInput_outcome (requestIdOf context) data) as Ho.
  rewrite Hv in Ho.
  pose proof (quiet_validateInput (requestIdOf context) data) as Qv.
  pose proof (quiet_parseRequestBody (requestIdOf context) event) as Qp.
  unfold handler, handler_try. cbv zeta.
  rewrite (bind_returns (lift (isPreflight event)) _ false) by (now rewrite Hpre).
  rewrite (bind_returns (log _ _ _ _) _ tt) by reflexivity.
  rewrite (bind_returns (parseRequestBody _ event) _ (inr data)) by exact Hparse.
  destruct e as [field message|message stack].
  - rewrite (bind_returns (validateInput _ data) _ _ Ho).
    rewrite try_catch_returns
      with (a := validationFailureResponse field message) by reflexivity.
    split; [reflexivity|]. cbn [trace outcome fst snd ret lift app].
    rewrite app_nil_r.
    repeat apply quiet_app; first [assumption | apply quiet_log].
  - rewrite (bind_throws (validateInput _ data) _ _ Ho).
    rewrite try_catch_throws with (e := Error message stack) by reflexivity.
    split; [reflexivity|]. cbn [trace outcome fst snd ret lift app].
    repeat apply quiet_app;
      first [assumption | apply quiet_log | exact quiet_nil].
Qed.

(** C4.  On a record, the fields are checked in the order email, name,
    phone, message; the error of the first check that fails is the error
    of the whole validation, it is a ValidationError with that field's
    name and message, and the handler answers the request that carried the
    record with status 400 and a body that has both [error] (the message)
    and [field]. *)
Theorem validateContactForm_first_failure (event context : jsval)
    (sesClient bedrockClient dynamoClient : option client) (data : jsval) :
  isNullish data = false ->
  match firstFailure (fieldChecks data) with
  | Some (field, e) =>
      validateContactForm data = inl e
      /\ exists message,
           e = ValidationError field message
           /\ (isPreflight event = inr false ->
               outcome (parseRequestBody (requestIdOf context) event)
               = inr (inr data) ->
               outcome (handler event context sesClient bedrockClient dynamoClient)
               = inr (validationFailureResponse field message)
               /\ statusCode (validationFailureResponse field message) = 400%Z
               /\ body (validationFailureResponse field message)
                  = JSON_stringify rt
                      (JObj [ (lit "error", JStr message);
                              (lit "field", JStr field) ]))
  | None => exists contactData, validateContactForm data = inr contactData
  end.
Proof.
  intros Hn.
  assert (Hres : forall field e,
             validateContactForm data = inl e ->
             (exists message, e = ValidationError field message) ->
             validateContactForm data = inl e
             /\ exists message,
                  e = ValidationError field message
                  /\ (isPreflight event = inr false ->
                      outcome (parseRequestBody (requestIdOf context) event)
                      = inr (inr data) ->
                      outcome (handler event context sesClient bedrockClient
                                 dynamoClient)
                      = inr (validationFailureResponse field message)
                      /\ statusCode (validationFailureResponse field message) = 400%Z
                      /\ body (validationFailureResponse field message)
                         = JSON_stringify rt
                             (JObj [ (lit "error", JStr message);
                                     (lit "field", JStr field) ]))).
  { intros field e He [message ->]. split; [exact He|].
    exists message. split; [reflexivity|]. intros Hpre Hparse.
    destruct (handler_unaccepted event context sesClient bedrockClient dynamoClient
                data _ Hpre Hparse He) as [O _].
    split; [exact O|]. split; reflexivity. }
  assert (Hv : validateContactForm data =
               (email <- validateField (getProp data (lit "email")) (lit "email")
                           (v_email VALIDATION) ;;
                name <- validateField (getProp data (lit "name")) (lit "name")
                          (v_name VALIDATION) ;;
                phone <- validateField (getProp data (lit "phone")) (lit "phone")
                           (v_phone VALIDATION) ;;
                message <- validateField (getProp data (lit "message")) (lit "message")
                             (v_message VALIDATION) ;;
                inr {| cd_email := email; cd_name := name; cd_phone := phone;
                       cd_message := message |})%result).
  { unfold validateContactForm. now rewrite !member_not_nullish by assumption. }
  unfold fieldChecks, formSchemas. cbn [map fst snd firstFailure].
  unfold rbind in Hv.
  destruct (validateField _ (lit "email") _) as [e|email] eqn:E1.
  { apply Hres; [exact Hv | eapply validateField_error; eauto]. }
  destruct (validateField _ (lit "name") _) as [e|name] eqn:E2.
  { apply Hres; [exact Hv | eapply validateField_error; eauto]. }
  destruct (validateField _ (lit "phone") _) as [e|phone] eqn:E3.
  { apply Hres; [exact Hv | eapply validateField_error; eauto]. }
  destruct (validateField _ (lit "message") _) as [e|message] eqn:E4.
  { apply Hres; [exact Hv | eapply validateField_error; eauto]. }
  eauto.
Qed.

(** X6.  A body that is a string, is not form-encoded and is not JSON is
    answered with 400 "Invalid request format"; the classifier, the store
    and the email service are not called. *)
Theorem malformed_json_is_rejected (event context : jsval)
    (sesClient bedrockClient dynamoClient : option client) (s : jsstring) (e : exn) :
  isPreflight event = inr false ->
  truthy (getProp event (lit "isBase64Encoded")) = false ->
  callIncludes (contentTypeOf event) (lit "application/x-www-form-urlencoded")
    = inr false ->
  getProp event (lit "body") = JStr s ->
  JSON_parse rt s = inl e ->
  outcome (handler event context sesClient bedrockClient dynamoClient)
  = inr invalidFormatResponse
  /\ quiet (trace (handler event context sesClient bedrockClient dynamoClient)).
Proof.
  intros Hpre Hb64 Hct Hbody Hjson.
  apply handler_undecoded; [exact Hpre|].
  pose proof (isPreflight_not_nullish _ _ Hpre) as Hn.
  unfold parseRequestBody.
  rewrite !member_not_nullish by assumption.
  rewrite !bind_lift_inr, Hb64, !bind_lift_inr.
  unfold contentTypeOf in Hct. cbv zeta. rewrite Hct, bind_lift_inr.
  rewrite Hbody. cbn [isString asString]. rewrite Hjson, bind_lift_inl.
  reflexivity.
Qed.

(** X8.  A submission that the validator rejects is answered with 400, the
    message and the field of the rejection; the classifier, the store and
    the email service are not called. *)
Theorem rejected_submission_answer (event context : jsval)
    (sesClient bedrockClient dynamoClient : option client)
    (data : jsval) (field message : jsstring) :
  isPreflight event = inr false ->
  outcome (parseRequestBody (requestIdOf context) event) = inr (inr data) ->
  validateContactForm data = inl (ValidationError field message) ->
  outcome (handler event context sesClient bedrockClient dynamoClient)
  = inr (validationFailureResponse field message)
  /\ quiet (trace (handler event context sesClient bedrockClient dynamoClient)).
Proof.
  intros Hpre Hparse Hv.
  exact (handler_unaccepted event context sesClient bedrockClient dynamoClient data _
           Hpre Hparse Hv).
Qed.

(** X10.  Decoded data that is [null] or [undefined] (a request without a body,
    the JSON text [null]) is not a validation failure: reading its first
    field throws, and the answer is the 500 of the [catch] block. *)
Theorem missing_body_is_a_server_error (event context : jsval)
    (sesClient bedrockClient dynamoClient : option client) (data : jsval) :
  plainTypeErrors ->
  isPreflight event = inr false ->
  outcome (parseRequestBody (requestIdOf context) event) = inr (inr data) ->
  isNullish data = true ->
  outcome (handler event context sesClient bedrockClient dynamoClient)
  = inr sendFailureResponse
  /\ quiet (trace (handler event context sesClient bedrockClient dynamoClient)).
Proof.
  intros Hte Hpre Hparse Hn.
  destruct (Hte (lit "email")) as (message & stack & Ht).
  pose proof (validateContactForm_nullish data Hn) as Hv. rewrite Ht in Hv.
  exact (handler_unaccepted event context sesClient bedrockClient dynamoClient data _
           Hpre Hparse Hv).
Qed.

(** What a validated run amounts to: the answer is the success or the 500
    answer, the classifier is called once when detection is enabled and
    not at all otherwise, and either the store is written once and no
    email is dispatched, or the store is not written and at most one email
    is dispatched. *)
Lemma validated_summary event context sesClient bedrockClient dynamoClient contactData :
  passesValidation event context contactData ->
  let run := handler event context sesClient bedrockClient dynamoClient in
  (outcome run = inr successResponse \/ outcome run = inr sendFailureResponse)
  /\ classifierCalls (trace run) = (if spamDetectionEnabled CONFIG then 1 else 0)
  /\ ((spamDetectionEnabled CONFIG = true
       /\ storeWrites (trace run) = 1 /\ emailDispatches (trace run) = 0)
      \/ (storeWrites (trace run) = 0 /\ emailDispatches (trace run) <= 1)).
Proof.
  intros V run.
  pose proof (validated_event event context contactData V) as Hn.
  destruct (validated_counts event context sesClient bedrockClient dynamoClient
              contactData V) as (K1 & K2 & K3).
  pose proof (validated_outcome event context sesClient bedrockClient dynamoClient
                contactData V) as Ko.
  fold run in K1, K2, K3, Ko.
  set (rid := requestIdOf context) in *.
  set (ses := clientOr sesClient (new_SESClient rt)) in *.
  set (bed := clientOr bedrockClient (new_BedrockRuntimeClient rt)) in *.
  set (dyn := clientOr dynamoClient (new_DynamoDBDocumentClient rt)) in *.
  assert (Hfwd : forall ocr,
             outcome (spamDetection rid event contactData bed dyn) = inr (inr ocr) ->
             (outcome run = inr successResponse \/ outcome run = inr sendFailureResponse)
             /\ classifierCalls (trace run)
                = classifierCalls (trace (spamDetection rid event contactData bed dyn))
             /\ storeWrites (trace run) = 0 /\ emailDispatches (trace run) <= 1).
  { intros ocr O.
    destruct (validated_forwarded event context sesClient bedrockClient dynamoClient
                contactData V ocr O) as (E & S & Hok & Hko).
    fold run in E, S, Hok, Hko. fold ses in Hok, Hko.
    destruct (forward_counts rid contactData ses ocr) as (_ & _ & F3).
    split; [|split; [|split; [exact S|]]].
    - destruct (outcome (sendEmail contactData ses ocr)) as [e|mid] eqn:Es;
        [right; exact (Hko e eq_refl) | left; exact (Hok mid eq_refl)].
    - rewrite K3. unfold dispatch. rewrite (bind_returns _ _ _ O).
      cbn [trace fst]. rewrite classifierCalls_app. unfold trace in *.
      rewrite F3. lia.
    - rewrite E. destruct (convertibleClassification ocr); lia. }
  destruct (spamDetectionEnabled CONFIG) eqn:Hen.
  - destruct (classifySubmission_total contactData bed) as [cr Hc].
    destruct (convertible (confidence cr)) eqn:Hconv.
    + destruct (blockTest cr) eqn:Hb.
      * destruct (validated_blocked event context sesClient bedrockClient dynamoClient
                    contactData V cr Hen Hc Hb) as (O & S & E).
        fold run in O, S, E.
        destruct (spamDetection_blocks rid event contactData bed dyn cr Hen Hc Hb Hn)
          as (Os & _ & _ & C).
        split; [left; exact O|]. split; [|left; now repeat split].
        rewrite K3. unfold dispatch. rewrite (bind_returns _ _ _ Os).
        cbn [trace fst ret]. rewrite app_nil_r. exact C.
      * destruct (spamDetection_passes rid event contactData bed dyn cr Hen Hc Hconv Hb)
          as (Os & _ & _ & C).
        destruct (Hfwd _ Os) as (Ho & Hc' & Hs & He).
        split; [exact Ho|]. split; [|right; now split].
        rewrite Hc'. exact C.
    + destruct (validated_thrown event context sesClient bedrockClient dynamoClient
                  contactData V cr Hen Hc Hconv) as (O & E & S).
      fold run in O, S, E.
      destruct (spamDetection_throws rid event contactData bed dyn cr Hen Hc Hconv)
        as ([error Os] & _ & _ & C).
      split; [right; exact O|]. split; [|right; split; [exact S | rewrite E; lia]].
      rewrite K3. unfold dispatch. rewrite (bind_throws _ _ _ Os).
      cbn [trace fst]. exact C.
  - assert (Os : outcome (spamDetection rid event contactData bed dyn) = inr (inr None))
      by (now rewrite spamDetection_disabled).
    destruct (Hfwd _ Os) as (Ho & Hc' & Hs & He).
    split; [exact Ho|]. split; [|right; now split].
    rewrite Hc'. now rewrite spamDetection_disabled.
Qed.

(** X11.  The five answers of the handler.  The clients of the embedding
    reject with [Error] objects, as the SDK clients do (a client that
    rejected with [null] would make the [catch] block of the handler throw
    on [error.message]).  With such clients, whatever the event and the
    context, the handler returns (it does not throw), and what it returns
    is the preflight answer, the 400 of an undecodable body, the 400 of a
    rejected field (with one of the fixed messages of that field), the
    success answer or the 500 answer. *)
Theorem handler_answers (event context : jsval)
    (sesClient bedrockClient dynamoClient : option client) :
  plainTypeErrors ->
  exists response,
    outcome (handler event context sesClient bedrockClient dynamoClient) = inr response
    /\ (response = preflightResponse
        \/ response = invalidFormatResponse
        \/ (exists field schema message,
              In (field, schema) formSchemas
              /\ In message (rejectionMessages field schema)
              /\ response = validationFailureResponse field message)
        \/ response = successResponse
        \/ response = sendFailureResponse).
Proof.
  intros Hte.
  destruct (isPreflight event) as [e|[|]] eqn:Hpre.
  - destruct (preflight_throws event context sesClient bedrockClient dynamoClient e Hpre)
      as [O _].
    eexists. split; [exact O|]. auto 6.
  - rewrite (preflight_answer event context sesClient bedrockClient dynamoClient Hpre).
    eexists. split; [reflexivity|]. auto.
  - destruct (parseRequestBody_cases (requestIdOf context) event) as [Hp|[data Hp]].
    + destruct (handler_undecoded event context sesClient bedrockClient dynamoClient
                  _ Hpre Hp) as [O _].
      eexists. split; [exact O|]. auto.
    + destruct (validateContactForm data) as [e|cd] eqn:Hv.
      * destruct (handler_unaccepted event context sesClient bedrockClient
                    dynamoClient data e Hpre Hp Hv) as [O _].
        eexists. split; [exact O|].
        destruct e as [field message|message stack]; [|auto 6].
        right; right; left.
        destruct (isNullish data) eqn:Hn.
        -- rewrite (validateContactForm_nullish data Hn) in Hv.
           destruct (Hte (lit "email")) as (m & s & Ht). congruence.
        -- destruct (validateContactForm_rejected data _ Hn Hv)
             as (f & schema & msg & Hin & E & Hm).
           injection E as -> ->. exists f, schema, msg. auto.
      * assert (V : passesValidation event context cd).
        { split; [exact Hpre|]. eauto. }
        destruct (validated_summary event context sesClient bedrockClient
                    dynamoClient cd V) as ([O|O] & _);
          eexists; (split; [exact O|]); auto 6.
Qed.

Lemma trace_bind_prefix {A B} (m : io A) (f : A -> io B) :
  exists post, trace (bind m f) = trace m ++ post.
Proof.
  unfold trace, bind. destruct (snd m); cbn [fst]; [exists []; now rewrite app_nil_r|].
  eauto.
Qed.

Lemma trace_try_catch_prefix {A} (m : io A) h :
  exists post, trace (try_catch m h) = trace m ++ post.
Proof.
  unfold trace, try_catch. destruct (snd m); cbn [fst]; [eauto|].
  exists []. now rewrite app_nil_r.
Qed.

(** With detection enabled, a validated run is console lines, then the
    run of the classifier, then the rest. *)
Lemma validated_classifier_first event context sesClient bedrockClient dynamoClient
    contactData :
  passesValidation event context contactData ->
  spamDetectionEnabled CONFIG = true ->
  exists pre post,
    quiet pre
    /\ trace (handler event context sesClient bedrockClient dynamoClient)
       = (pre ++ trace (classifySubmission contactData
                          (clientOr bedrockClient (new_BedrockRuntimeClient rt))))
         ++ post.
Proof.
  intros V Hen.
  destruct (handler_validated event context sesClient bedrockClient dynamoClient
              contactData V) as (pre & Q & H).
  rewrite H. cbn [trace fst].
  destruct (trace_try_catch_prefix
              (dispatch (requestIdOf context) event contactData
                 (clientOr sesClient (new_SESClient rt))
                 (clientOr bedrockClient (new_BedrockRuntimeClient rt))
                 (clientOr dynamoClient (new_DynamoDBDocumentClient rt)))
              (handler_catch (requestIdOf context))) as [p1 ->].
  unfold dispatch at 1.
  match goal with
  | |- context [trace (bind ?m ?f)] => destruct (trace_bind_prefix m f) as [p2 ->]
  end.
  unfold spamDetection at 1. rewrite Hen.
  match goal with
  | |- context [trace (bind ?m ?f)] => destruct (trace_bind_prefix m f) as [p3 ->]
  end.
  exists pre, (p3 ++ p2 ++ p1). split; [exact Q|].
  now rewrite <- !app_assoc.
Qed.

(** In a trace that begins with a part without a store write and with a
    classifier call, every store write comes after a classifier call. *)
Lemma writes_follow_classifier (a b : list effect) :
  storeWrites a = 0 -> 1 <= classifierCalls a ->
  forall pre command post,
    a ++ b = pre ++ DynamoSend command :: post -> 1 <= classifierCalls pre.
Proof.
  intros Ha Hc pre command post E.
  apply app_eq_app in E as [l [[E1 E2]|[E1 E2]]].
  - destruct l as [|x l].
    + rewrite app_nil_r in E1. now subst.
    + injection E2 as <- _. subst a.
      rewrite storeWrites_app in Ha. cbn in Ha. lia.
  - subst pre. rewrite classifierCalls_app. lia.
Qed.

Lemma no_write_no_split (t : list effect) pre command post :
  storeWrites t = 0 -> t <> pre ++ DynamoSend command :: post.
Proof.
  intros H ->. rewrite storeWrites_app in H. cbn in H. lia.
Qed.

(** X12.  The external calls of a run.  Whatever the event: the classifier is
    called at most once; the store is written or an email is dispatched,
    never both, and at most once; a store write comes only after the
    classifier call (the part of the run before the write holds that
    call); with detection disabled neither the classifier nor the store is
    touched. *)
Theorem handler_call_bounds (event context : jsval)
    (sesClient bedrockClient dynamoClient : option client) :
  let run := trace (handler event context sesClient bedrockClient dynamoClient) in
  classifierCalls run <= 1
  /\ storeWrites run + emailDispatches run <= 1
  /\ storeWrites run <= classifierCalls run
  /\ (forall before command after,
        run = before ++ DynamoSend command :: after ->
        classifierCalls before = 1 /\ classifierCalls after = 0)
  /\ (spamDetectionEnabled CONFIG = false ->
      classifierCalls run = 0 /\ storeWrites run = 0).
Proof.
  intros run.
  assert (Hq : storeWrites run = 0 -> emailDispatches run <= 1 ->
               classifierCalls run <= 1 ->
               (spamDetectionEnabled CONFIG = false -> classifierCalls run = 0) ->
               classifierCalls run <= 1
               /\ storeWrites run + emailDispatches run <= 1
               /\ storeWrites run <= classifierCalls run
               /\ (forall before command after,
                     run = before ++ DynamoSend command :: after ->
                     classifierCalls before = 1 /\ classifierCalls after = 0)
               /\ (spamDetectionEnabled CONFIG = false ->
                   classifierCalls run = 0 /\ storeWrites run = 0)).
  { intros Q1 Q2 Q3 Q4. rewrite Q1. repeat split; try lia; auto.
    - exfalso. now apply (no_write_no_split run before command after Q1).
    - exfalso. now apply (no_write_no_split run before command after Q1). }
  assert (Hquiet : quiet run ->
               classifierCalls run <= 1
               /\ storeWrites run + emailDispatches run <= 1
               /\ storeWrites run <= classifierCalls run
               /\ (forall before command after,
                     run = before ++ DynamoSend command :: after ->
                     classifierCalls before = 1 /\ classifierCalls after = 0)
               /\ (spamDetectionEnabled CONFIG = false ->
                   classifierCalls run = 0 /\ storeWrites run = 0)).
  { intros (Q1 & Q2 & Q3). apply Hq; lia. }
  destruct (isPreflight event) as [e|[|]] eqn:Hpre.
  - apply Hquiet.
    now destruct (preflight_throws event context sesClient bedrockClient dynamoClient
                    e Hpre).
  - apply Hquiet. subst run.
    rewrite (preflight_answer event context sesClient bedrockClient dynamoClient Hpre).
    apply quiet_nil.
  - destruct (parseRequestBody_cases (requestIdOf context) event) as [Hp|[data Hp]].
    + apply Hquiet.
      now destruct (handler_undecoded event context sesClient bedrockClient
                      dynamoClient _ Hpre Hp).
    + destruct (validateContactForm data) as [e|cd] eqn:Hv.
      * apply Hquiet.
        now destruct (handler_unaccepted event context sesClient bedrockClient
                        dynamoClient data e Hpre Hp Hv).
      * assert (V : passesValidation event context cd).
        { split; [exact Hpre|]. eauto. }
        destruct (validated_summary event context sesClient bedrockClient
                    dynamoClient cd V) as (_ & C & [(En & S & E)|(S & E)]);
          fold run in C, S, E.
        2:{ apply Hq; try assumption.
            - rewrite C. destruct (spamDetectionEnabled CONFIG); lia.
            - intros Hd. now rewrite C, Hd. }
        rewrite En in C. rewrite C, S, E.
        split; [lia|]. split; [lia|]. split; [lia|]. split; [|congruence].
        intros before command after Hrun.
        destruct (validated_classifier_first event context sesClient bedrockClient
                    dynamoClient cd V En) as (pre & post & (Q1 & _ & Q3) & Ht).
        fold run in Ht.
        destruct (classifySubmission_counts cd
                    (clientOr bedrockClient (new_BedrockRuntimeClient rt)))
          as (C1 & C2 & _).
        assert (Hb : 1 <= classifierCalls before).
        { apply (writes_follow_classifier
                   (pre ++ trace (classifySubmission cd
                                    (clientOr bedrockClient
                                       (new_BedrockRuntimeClient rt))))
                   post) with (command := command) (post := after);
            [| |now rewrite <- Ht].
          - rewrite storeWrites_app. lia.
          - rewrite classifierCalls_app. lia. }
        rewrite Hrun, classifierCalls_app in C.
        change (classifierCalls (DynamoSend command :: after))
          with (classifierCalls after) in C.
        lia.
Qed.

(* ===================================================================== *)
(** ** What is logged, sent and recorded *)
(* ===================================================================== *)

Lemma In_trace_bind_l {A B} (m : io A) (f : A -> io B) x :
  In x (trace m) -> In x (trace (bind m f)).
Proof.
  unfold trace, bind. destruct (snd m); cbn [fst]; [auto|].
  intros H. apply in_or_app. now left.
Qed.

Lemma In_trace_bind_r {A B} (m : io A) (f : A -> io B) a x :
  outcome m = inr a -> In x (trace (f a)) -> In x (trace (bind m f)).
Proof.
  intros H Hx. rewrite (trace_bind _ _ _ H). apply in_or_app. now right.
Qed.

Lemma In_trace_try_catch {A} (m : io A) h x :
  In x (trace m) -> In x (trace (try_catch m h)).
Proof.
  unfold trace, try_catch. destruct (snd m); cbn [fst]; [|auto].
  intros H. apply in_or_app. now left.
Qed.

Lemma validateInput_rejected requestId data field message :
  validateContactForm data = inl (ValidationError field message) ->
  validateInput requestId data
  = ([ ConsoleLog
         (JSON_stringify rt
            (JObj [ (lit "level", JStr (lit "warn"));
                    (lit "requestId", requestId);
                    (lit "message", JStr message);
                    (lit "field", JStr field) ])) ],
     inr (inl (validationFailureResponse field message))).
Proof.
  intros H. unfold validateInput, try_catch, bind, lift. cbn [fst snd].
  rewrite H. reflexivity.
Qed.

(** X9.  The console line of a rejected submission: the data of the line is
    spread after its label, so the [message] of the line is the rejection
    message, and the label "Validation failed" is not in the line. *)
Theorem rejection_log_line (event context : jsval)
    (sesClient bedrockClient dynamoClient : option client)
    (data : jsval) (field message : jsstring) :
  isPreflight event = inr false ->
  outcome (parseRequestBody (requestIdOf context) event) = inr (inr data) ->
  validateContactForm data = inl (ValidationError field message) ->
  In (ConsoleLog
        (JSON_stringify rt
           (JObj [ (lit "level", JStr (lit "warn"));
                   (lit "requestId", requestIdOf context);
                   (lit "message", JStr message);
                   (lit "field", JStr field) ])))
     (trace (handler event context sesClient bedrockClient dynamoClient)).
Proof.
  intros Hpre Hparse Hv. unfold handler. cbv zeta.
  apply In_trace_try_catch. unfold handler_try.
  apply In_trace_bind_r with (a := false); [now rewrite Hpre|].
  apply In_trace_bind_r with (a := tt); [reflexivity|].
  apply In_trace_bind_r with (a := inr data); [exact Hparse|].
  apply In_trace_bind_l. rewrite (validateInput_rejected _ _ _ _ Hv).
  now left.
Qed.

Lemma In_trace_validated event context sesClient bedrockClient dynamoClient
    contactData x :
  passesValidation event context contactData ->
  In x (trace (dispatch (requestIdOf context) event contactData
                 (clientOr sesClient (new_SESClient rt))
                 (clientOr bedrockClient (new_BedrockRuntimeClient rt))
                 (clientOr dynamoClient (new_DynamoDBDocumentClient rt)))) ->
  In x (trace (handler event context sesClient bedrockClient dynamoClient)).
Proof.
  intros V Hx.
  destruct (handler_validated event context sesClient bedrockClient dynamoClient
              contactData V) as (pre & _ & H).
  rewrite H. cbn [trace fst]. apply in_or_app. right.
  now apply In_trace_try_catch.
Qed.

(** What [sendEmail] does is part of a validated run that forwards. *)
Lemma In_trace_forwarded event context sesClient bedrockClient dynamoClient
    contactData cr x :
  passesValidation event context contactData ->
  outcome (spamDetection (requestIdOf context) event contactData
             (clientOr bedrockClient (new_BedrockRuntimeClient rt))
             (clientOr dynamoClient (new_DynamoDBDocumentClient rt))) = inr (inr cr) ->
  In x (trace (sendEmail contactData (clientOr sesClient (new_SESClient rt)) cr)) ->
  In x (trace (handler event context sesClient bedrockClient dynamoClient)).
Proof.
  intros V O Hx.
  apply (In_trace_validated _ _ _ _ _ _ _ V). unfold dispatch.
  apply In_trace_bind_r with (a := inr cr); [exact O|].
  unfold forward. now apply In_trace_bind_l.
Qed.

(** X13.  The email of a forwarded submission.  Once the decision is to
    forward, the notifier makes the subject ([generateSubject] of the
    message) and the text ([formatEmailBody]) with the classification at
    hand.  It can whenever the label, the confidence and the reason of the
    classification convert to primitive values, and always without a
    classification; the command sent to the email service then goes from
    the configured sender to the configured recipient, replies go to
    "name <email>" of the validated (trimmed) fields, and it carries that
    subject and that text.  When the subject or the text cannot be made,
    nothing is sent and the answer is the 500 answer. *)
Theorem forwarded_email (event context : jsval)
    (sesClient bedrockClient dynamoClient : option client)
    (contactData : ContactData) (cr : option ClassificationResult) :
  passesValidation event context contactData ->
  outcome (spamDetection (requestIdOf context) event contactData
             (clientOr bedrockClient (new_BedrockRuntimeClient rt))
             (clientOr dynamoClient (new_DynamoDBDocumentClient rt))) = inr (inr cr) ->
  (convertibleClassification cr = true ->
   exists subject text command,
     generateSubject (cd_message contactData) cr = inr subject
     /\ formatEmailBody contactData cr = inr text
     /\ In (SesSend command)
          (trace (handler event context sesClient bedrockClient dynamoClient))
     /\ getProp command (lit "Source") = JStr (fromAddress CONFIG)
     /\ getPath command [lit "Destination"; lit "ToAddresses"]
        = JArr [ JStr (toAddress CONFIG) ]
     /\ getProp command (lit "ReplyToAddresses")
        = JArr [ JStr (cd_name contactData ++ lit " <" ++ cd_email contactData
                         ++ lit ">") ]
     /\ getPath command [lit "Message"; lit "Subject"; lit "Data"] = JStr subject
     /\ getPath command [lit "Message"; lit "Body"; lit "Text"; lit "Data"]
        = JStr text)
  /\ (convertibleClassification cr = false ->
      emailDispatches
        (trace (handler event context sesClient bedrockClient dynamoClient)) = 0
      /\ outcome (handler event context sesClient bedrockClient dynamoClient)
         = inr sendFailureResponse).
Proof.
  intros V O. split.
  - intros Hc.
    destruct (proj1 (email_built contactData cr) Hc) as (subject & text & Hs & Ht).
    destruct (sendEmail_command contactData (clientOr sesClient (new_SESClient rt)) cr
                subject text Hs Ht) as (command & Htr & F).
    exists subject, text, command.
    split; [exact Hs|]. split; [exact Ht|]. split; [|exact F].
    apply (In_trace_forwarded _ _ _ _ _ _ _ _ V O). rewrite Htr. now left.
  - intros Hc.
    destruct (validated_unbuilt event context sesClient bedrockClient dynamoClient
                contactData V cr O Hc) as (Ho & E & _).
    now split.
Qed.

(** The [try] block of the recorder sends one command and returns the id
    it put in the item. *)
Lemma logBlockedSubmission_try_sends contactData cr event dynamoClient :
  isNullish event = false ->
  exists item,
    logBlockedSubmission_try contactData cr event dynamoClient
    = ([ DynamoSend (JObj [ (lit "TableName", JStr (blockedSubmissionsTable CONFIG));
                            (lit "Item", JObj item) ]) ],
       match dynamoClient
               (JObj [ (lit "TableName", JStr (blockedSubmissionsTable CONFIG));
                       (lit "Item", JObj item) ]) with
       | inl e => inl e
       | inr _ => inr (JStr (randomUUID rt))
       end)
    /\ lookup (lit "submissionId") item = JStr (randomUUID rt)
    /\ lookup (lit "timestamp") item = JNum (num_of_Z (Date_now rt))
    /\ lookup (lit "ttl") item = JNum (num_of_Z (Date_now rt / 1000 + 7776000))
    /\ lookup (lit "name") item = JStr (cd_name contactData)
    /\ lookup (lit "email") item = JStr (cd_email contactData)
    /\ lookup (lit "phone") item = JStr (cd_phone contactData)
    /\ lookup (lit "message") item = JStr (cd_message contactData)
    /\ lookup (lit "classification") item = classification cr
    /\ lookup (lit "confidence") item = confidence cr
    /\ lookup (lit "reason") item = reason cr
    /\ lookup (lit "ipAddress") item
       = js_or (httpSourceIp event) (js_or (identitySourceIp event) (JStr (lit "unknown")))
    /\ lookup (lit "blockedAt") item = JStr (Date_toISOString rt).
Proof.
  intros Hn. unfold logBlockedSubmission_try.
  rewrite member_not_nullish by assumption. rewrite bind_lift_inr.
  unfold bind, send, ret. cbn [fst snd].
  match goal with
  | |- context [dynamoClient (JObj [_; (_, JObj ?it)])] => exists it
  end.
  split; [|repeat split].
  match goal with
  | |- context [dynamoClient ?c] => destruct (dynamoClient c)
  end; reflexivity.
Qed.

(** X14.  The record of a blocked submission.  When the policy blocks, the
    command sent to the store names the configured table, and its item
    holds a fresh id, the validated (trimmed) fields, the three parts of
    the classification, the time in milliseconds, and an expiry in seconds
    that is 90 days (7776000 s) after that time. *)
Theorem blocked_submission_record (event context : jsval)
    (sesClient bedrockClient dynamoClient : option client)
    (contactData : ContactData) (cr : ClassificationResult) :
  spamDetectionEnabled CONFIG = true ->
  passesValidation event context contactData ->
  outcome (classifySubmission contactData
             (clientOr bedrockClient (new_BedrockRuntimeClient rt))) = inr cr ->
  policyBlocks cr ->
  exists item,
    In (DynamoSend (JObj [ (lit "TableName", JStr (blockedSubmissionsTable CONFIG));
                           (lit "Item", JObj item) ]))
       (trace (handler event context sesClient bedrockClient dynamoClient))
    /\ lookup (lit "submissionId") item = JStr (randomUUID rt)
    /\ lookup (lit "name") item = JStr (cd_name contactData)
    /\ lookup (lit "email") item = JStr (cd_email contactData)
    /\ lookup (lit "phone") item = JStr (cd_phone contactData)
    /\ lookup (lit "message") item = JStr (cd_message contactData)
    /\ lookup (lit "classification") item = classification cr
    /\ lookup (lit "confidence") item = confidence cr
    /\ lookup (lit "reason") item = reason cr
    /\ lookup (lit "timestamp") item = JNum (num_of_Z (Date_now rt))
    /\ lookup (lit "ttl") item
       = JNum (num_of_Z (Date_now rt / 1000 + 90 * 24 * 60 * 60)).
Proof.
  intros Hen V Hc Hp. apply blockTest_policy in Hp.
  pose proof (validated_event event context contactData V) as Hn.
  destruct (logBlockedSubmission_try_sends contactData cr event
              (clientOr dynamoClient (new_DynamoDBDocumentClient rt)) Hn)
    as (item & Ht & F).
  exists item. split; [|tauto].
  apply (In_trace_validated _ _ _ _ _ _ _ V). unfold dispatch.
  apply In_trace_bind_l. unfold spamDetection. rewrite Hen.
  apply In_trace_bind_r with (a := cr); [exact Hc|].
  apply In_trace_bind_r with (a := tt); [reflexivity|].
  unfold blockTest in Hp.
  destruct (js_ge (confidence cr) (spamConfidenceThreshold CONFIG)) as [e|b] eqn:Hge;
    [now rewrite andb_false_r in Hp|].
  rewrite bind_lift_inr, Hp.
  apply In_trace_bind_l. unfold logBlockedSubmission.
  apply In_trace_try_catch. rewrite Ht. now left.
Qed.

(** X15.  The client address of a record: the [sourceIp] of
    [requestContext.http] when it is a non-empty string, else that of
    [requestContext.identity], else "unknown" (also when the event has no
    [requestContext] at all).  And when the store accepts the write, the
    function returns the id it stored, after that single write. *)
Theorem recorder_address_and_id (contactData : ContactData)
    (cr : ClassificationResult) (event : jsval) (dynamoClient : client) :
  isNullish event = false ->
  exists item,
    hd_error (trace (logBlockedSubmission contactData cr event dynamoClient))
    = Some (DynamoSend
              (JObj [ (lit "TableName", JStr (blockedSubmissionsTable CONFIG));
                      (lit "Item", JObj item) ]))
    /\ (forall ip, ip <> [] -> httpSourceIp event = JStr ip ->
                   lookup (lit "ipAddress") item = JStr ip)
    /\ (forall ip, ip <> [] -> truthy (httpSourceIp event) = false ->
                   identitySourceIp event = JStr ip ->
                   lookup (lit "ipAddress") item = JStr ip)
    /\ (truthy (httpSourceIp event) = false ->
        truthy (identitySourceIp event) = false ->
        lookup (lit "ipAddress") item = JStr (lit "unknown"))
    /\ (isNullish (getProp event (lit "requestContext")) = true ->
        lookup (lit "ipAddress") item = JStr (lit "unknown"))
    /\ (forall v,
          dynamoClient
            (JObj [ (lit "TableName", JStr (blockedSubmissionsTable CONFIG));
                    (lit "Item", JObj item) ]) = inr v ->
          logBlockedSubmission contactData cr event dynamoClient
          = ([ DynamoSend
                 (JObj [ (lit "TableName", JStr (blockedSubmissionsTable CONFIG));
                         (lit "Item", JObj item) ]) ],
             inr (lookup (lit "submissionId") item))).
Proof.
  intros Hn.
  destruct (logBlockedSubmission_try_sends contactData cr event dynamoClient Hn)
    as (item & Ht & Fid & _ & _ & _ & _ & _ & _ & _ & _ & _ & Fip & _).
  exists item. rewrite Fip.
  split; [|split; [|split; [|split; [|split]]]].
  - unfold logBlockedSubmission, try_catch, trace. rewrite Ht. cbn [fst snd].
    now destruct (dynamoClient _).
  - intros ip Hne E. rewrite E. unfold js_or.
    destruct ip; [now contradiction Hne | reflexivity].
  - intros ip Hne Hh E. unfold js_or at 1. rewrite Hh, E. unfold js_or.
    destruct ip; [now contradiction Hne | reflexivity].
  - intros Hh Hi. unfold js_or at 1. rewrite Hh. unfold js_or. now rewrite Hi.
  - intros Hrc. unfold httpSourceIp, identitySourceIp, optMember. now rewrite Hrc.
  - intros v Hv. unfold logBlockedSubmission, try_catch. rewrite Ht. cbn [fst snd].
    rewrite Hv, Fid. reflexivity.
Qed.

(* ===================================================================== *)
(** ** The subject and the text of the email *)
(* ===================================================================== *)

Lemma wordsFrom_noWhiteSpace s :
  forall cur, noWhiteSpace cur = true ->
              Forall (fun w => noWhiteSpace w = true) (wordsFrom cur s).
Proof.
  induction s as [|c s IH]; intros cur Hcur; simpl.
  - destruct cur; constructor; [assumption | constructor].
  - destruct (isWhiteSpace c) eqn:E.
    + destruct cur; [now apply IH|]. constructor; [assumption | now apply IH].
    + apply IH. now apply noWhiteSpace_snoc.
Qed.

Lemma split_normalize_noWhiteSpace message :
  Forall (fun w => noWhiteSpace w = true) (split (normalize message)).
Proof.
  rewrite normalize_eq.
  destruct (split_words message) as (_ & _ & H3).
  destruct (trimEnd (replaceSpaceRuns true message)) as [|d t] eqn:E.
  - repeat constructor.
  - rewrite H3 by discriminate. now apply wordsFrom_noWhiteSpace.
Qed.

Lemma Forall_firstn {A} (P : A -> Prop) n (l : list A) :
  Forall P l -> Forall P (firstn n l).
Proof.
  revert l. induction n as [|n IH]; intros l H; [constructor|].
  destruct H; simpl; constructor; auto.
Qed.

Lemma subjectChar_word w : noWhiteSpace w = true -> forallb subjectChar w = true.
Proof.
  unfold noWhiteSpace, subjectChar. rewrite !forallb_forall.
  intros H c Hc. now rewrite (H c Hc).
Qed.

Lemma subjectChar_join l :
  Forall (fun w => noWhiteSpace w = true) l ->
  forallb subjectChar (join (lit " ") l) = true.
Proof.
  induction 1 as [|w l Hw Hl IH]; [reflexivity|].
  destruct l as [|w' l']; [simpl; now apply subjectChar_word|].
  change (join (lit " ") (w :: w' :: l'))
    with (w ++ lit " " ++ join (lit " ") (w' :: l')).
  rewrite !forallb_app, (subjectChar_word w Hw), IH. reflexivity.
Qed.

(** X17.  The subject is a single line.  Whatever the message, the word count of
    the configuration and the classification, every code unit of a subject
    that [generateSubject] returns is a space or is not white space: no
    line break, no tab, no run of spaces that came from the message.
    Without a classification a subject is always returned. *)
Theorem subject_is_single_line (message : jsstring)
    (cr : option ClassificationResult) :
  (exists subject, generateSubject message None = inr subject)
  /\ forall subject,
       generateSubject message cr = inr subject ->
       forallb subjectChar subject = true.
Proof.
  split; [eexists; reflexivity|].
  assert (Hp : forallb subjectChar
                 (join (lit " ")
                    (slice0 (split (normalize message)) (subjectWordCount CONFIG)))
               = true).
  { apply subjectChar_join. unfold slice0.
    destruct (subjectWordCount CONFIG) as [e|]; [|constructor].
    destruct (e <? 0)%Z; apply Forall_firstn, split_normalize_noWhiteSpace. }
  unfold generateSubject. fold (normalize message).
  set (prefix := join _ _) in *.
  assert (Hs : forallb subjectChar
                 (if (List.length prefix <? List.length message)%nat
                  then prefix ++ lit "..." else prefix) = true).
  { destruct (_ <? _)%nat; [|exact Hp]. rewrite forallb_app, Hp. reflexivity. }
  cbv zeta. intros subject.
  destruct cr as [cr|]; [|intros H; injection H as <-; exact Hs].
  unfold rbind.
  match goal with
  | |- match ?t with _ => _ end = _ -> _ => destruct t as [e|[|]]
  end; intros H; [discriminate H| |]; injection H as <-; [|exact Hs].
  change (forallb subjectChar
            (marker ++ (if (List.length prefix <? List.length message)%nat
                        then prefix ++ lit "..." else prefix)) = true).
  rewrite forallb_app, Hs. reflexivity.
Qed.

Lemma marker_not_nil (s : jsstring) : marker ++ s <> s.
Proof.
  intros H. apply (f_equal (@List.length N)) in H.
  rewrite length_app in H. simpl in H. lia.
Qed.

(** X18.  The attention marker.  A classification puts the marker in front of
    the subject exactly when it is SALES, or LEGITIMATE with a confidence
    below 0.9, and leaves the subject as it is without one otherwise,
    unless the comparison of the confidence throws, which it does exactly
    when the label is LEGITIMATE and the confidence does not convert to a
    number.  So the fallback of a failed classification is always marked,
    and a SPAM or GIBBERISH classification that was not confident enough
    to block is forwarded without a marker. *)
Theorem attention_marker (message : jsstring) (cr : ClassificationResult) :
  exists subject,
    generateSubject message None = inr subject
    /\ (generateSubject message (Some cr) = inr (marker ++ subject) <-> notClean cr)
    /\ (generateSubject message (Some cr) = inr subject
        <-> ~ notClean cr
            /\ (classification cr = JStr (lit "LEGITIMATE") ->
                convertible (confidence cr) = true))
    /\ ((exists error, generateSubject message (Some cr) = inl error)
        <-> classification cr = JStr (lit "LEGITIMATE")
            /\ convertible (confidence cr) = false)
    /\ (forall error,
          generateSubject message (Some (failOpenResult error))
          = inr (marker ++ subject))
    /\ (classification cr = JStr (lit "SPAM")
        \/ classification cr = JStr (lit "GIBBERISH") ->
        generateSubject message (Some cr) = inr subject).
Proof.
  destruct (generateSubject_None message) as [subject Hs].
  exists subject. split; [exact Hs|].
  assert (Hg : forall cr',
             generateSubject message (Some cr')
             = if strictEqStr (classification cr') (lit "SALES")
               then inr (marker ++ subject)
               else if strictEqStr (classification cr') (lit "LEGITIMATE")
                    then match js_lt (confidence cr') num_0_9 with
                         | inl error => inl error
                         | inr true => inr (marker ++ subject)
                         | inr false => inr subject
                         end
                    else inr subject).
  { intros cr'. unfold generateSubject in *. cbv zeta in *. injection Hs as <-.
    destruct (strictEqStr (classification cr') (lit "SALES")); [reflexivity|].
    destruct (strictEqStr (classification cr') (lit "LEGITIMATE")); [|reflexivity].
    unfold rbind. now destruct (js_lt (confidence cr') num_0_9) as [e|[|]]. }
  assert (Hmark : inr (marker ++ subject) <> @inr exn jsstring subject).
  { intros H. injection H as H. now apply marker_not_nil in H. }
  assert (Hlabels : forall a b, jsstring_eqb a b = false ->
             classification cr = JStr a -> strictEqStr (classification cr) b = false).
  { now intros a b Hab ->. }
  pose proof (js_lt_convertible (confidence cr) num_0_9) as Hconv.
  assert (Hnot : notClean cr
                 <-> strictEqStr (classification cr) (lit "SALES") = true
                     \/ (strictEqStr (classification cr) (lit "LEGITIMATE") = true
                         /\ js_lt (confidence cr) num_0_9 = inr true)).
  { unfold notClean. now rewrite !strictEqStr_true. }
  assert (Hleg : classification cr = JStr (lit "LEGITIMATE")
                 <-> strictEqStr (classification cr) (lit "LEGITIMATE") = true)
    by (now rewrite strictEqStr_true).
  assert (Hexcl : strictEqStr (classification cr) (lit "SALES") = true ->
                  strictEqStr (classification cr) (lit "LEGITIMATE") = false).
  { rewrite strictEqStr_true. now apply Hlabels. }
  split; [|split; [|split; [|split]]].
  - rewrite Hg, Hnot.
    destruct (strictEqStr (classification cr) (lit "SALES")); [tauto|].
    destruct (strictEqStr (classification cr) (lit "LEGITIMATE")).
    + destruct (js_lt (confidence cr) num_0_9) as [e|[|]].
      * split; [discriminate|]. intros [H|[_ H]]; discriminate H.
      * tauto.
      * split; [intros H; symmetry in H; now contradiction Hmark|].
        intros [H|[_ H]]; discriminate H.
    + split; [intros H; symmetry in H; now contradiction Hmark|].
      intros [H|[H _]]; discriminate H.
  - rewrite Hg, Hnot, Hleg.
    destruct (strictEqStr (classification cr) (lit "SALES")).
    { split; [intros H; now contradiction Hmark|].
      intros [H _]. contradiction H. now left. }
    destruct (strictEqStr (classification cr) (lit "LEGITIMATE")).
    + destruct (js_lt (confidence cr) num_0_9) as [e|[|]].
      * split; [discriminate|]. intros [_ H].
        destruct (proj1 Hconv (H eq_refl)) as [b Hb]. discriminate Hb.
      * split; [intros H; now contradiction Hmark|].
        intros [H _]. contradiction H. now right.
      * split; [|reflexivity]. intros _. split.
        -- intros [H|[_ H]]; discriminate H.
        -- intros _. apply Hconv. eauto.
    + split; [|reflexivity]. intros _. split.
      * intros [H|[H _]]; discriminate H.
      * discriminate.
  - rewrite Hg, Hleg.
    destruct (strictEqStr (classification cr) (lit "SALES")).
    { rewrite Hexcl by reflexivity.
      split; [intros [e H]; discriminate H | intros [H _]; discriminate H]. }
    destruct (strictEqStr (classification cr) (lit "LEGITIMATE")).
    + destruct (js_lt (confidence cr) num_0_9) as [e|b].
      * split; [|eauto]. intros _. split; [reflexivity|].
        destruct (convertible (confidence cr)); [|reflexivity].
        destruct (proj1 Hconv eq_refl) as [b Hb]. discriminate Hb.
      * split.
        -- intros [e H]. destruct b; discriminate H.
        -- intros [_ H]. rewrite (proj2 Hconv) in H by eauto. discriminate H.
    + split; [intros [e H]; discriminate H | intros [H _]; discriminate H].
  - intros error. rewrite Hg. reflexivity.
  - intros Hl. rewrite Hg.
    assert (K : strictEqStr (classification cr) (lit "SALES") = false
                /\ strictEqStr (classification cr) (lit "LEGITIMATE") = false).
    { destruct Hl as [L|L]; rewrite L; split; reflexivity. }
    destruct K as [-> ->]. reflexivity.
Qed.

Lemma join_app sep (a b : list jsstring) :
  a <> [] -> b <> [] -> join sep (a ++ b) = join sep a ++ sep ++ join sep b.
Proof.
  intros Ha Hb. induction a as [|x a IH]; [now contradiction Ha|].
  destruct a as [|y a].
  - simpl. destruct b; [now contradiction Hb | reflexivity].
  - change (join sep ((x :: y :: a) ++ b)) with (x ++ sep ++ join sep ((y :: a) ++ b)).
    rewrite IH by discriminate.
    change (join sep (x :: y :: a)) with (x ++ sep ++ join sep (y :: a)).
    now rewrite <- !app_assoc.
Qed.

Lemma join_line sep (a b : list jsstring) w :
  a <> [] -> b <> [] ->
  join sep (a ++ w :: b) = join sep a ++ sep ++ w ++ sep ++ join sep b.
Proof.
  intros Ha Hb. rewrite join_app by (assumption || discriminate).
  destruct b; [now contradiction Hb | reflexivity].
Qed.

(** X20.  The email of a failed classification.  When the [try] block of the
    classifier throws on a validated submission, the email that goes out
    has the attention marker in front of the subject of the message, and
    its text has the line that reports the failed classification. *)
Theorem fail_open_email (event context : jsval)
    (sesClient bedrockClient dynamoClient : option client)
    (contactData : ContactData) (error : exn) :
  spamDetectionEnabled CONFIG = true ->
  passesValidation event context contactData ->
  outcome (classifySubmission_try (classifyPrompt contactData)
             (clientOr bedrockClient (new_BedrockRuntimeClient rt))) = inl error ->
  exists command subject before after,
    generateSubject (cd_message contactData) None = inr subject
    /\ In (SesSend command)
         (trace (handler event context sesClient bedrockClient dynamoClient))
    /\ getPath command [lit "Message"; lit "Subject"; lit "Data"]
       = JStr (marker ++ subject)
    /\ getPath command [lit "Message"; lit "Body"; lit "Text"; lit "Data"]
       = JStr (before ++ nl ++ failOpenLine ++ nl ++ after).
Proof.
  intros Hen V Ht.
  set (bed := clientOr bedrockClient (new_BedrockRuntimeClient rt)) in *.
  assert (Hc : outcome (classifySubmission contactData bed)
               = inr (failOpenResult error)).
  { unfold classifySubmission. now rewrite (try_catch_throws _ _ _ Ht). }
  destruct (spamDetection_passes (requestIdOf context) event contactData bed
              (clientOr dynamoClient (new_DynamoDBDocumentClient rt))
              _ Hen Hc eq_refl eq_refl) as (O & _).
  destruct (generateSubject_None (cd_message contactData)) as [subject Hs].
  set (lines :=
         [ lit "New Contact Form Submission"; [];
           lit "Name: " ++ cd_name contactData;
           lit "Email: " ++ cd_email contactData;
           lit "Phone: " ++ cd_phone contactData; [];
           lit "Spam Detection:";
           lit "  Classification: " ++ lit "LEGITIMATE";
           lit "  Confidence: "
             ++ Number_toFixed1 rt (num_mul (S754_zero false) (num_of_Z 100))
             ++ lit "%";
           lit "  Reason: " ++ lit "Classification error: " ++ exn_message error ]).
  set (rest :=
         [ []; lit "Message:"; cd_message contactData; []; lit "---";
           lit "Submitted: " ++ Date_toISOString rt ]).
  assert (Hsub : generateSubject (cd_message contactData) (Some (failOpenResult error))
                 = inr (marker ++ subject)).
  { unfold generateSubject in *. cbv zeta in *. injection Hs as <-. reflexivity. }
  assert (Hbody : formatEmailBody contactData (Some (failOpenResult error))
                  = inr (join nl (lines ++ failOpenLine :: rest))) by reflexivity.
  destruct (sendEmail_command contactData (clientOr sesClient (new_SESClient rt))
              (Some (failOpenResult error)) _ _ Hsub Hbody)
    as (command & Htr & _ & _ & _ & Hcs & Hcb).
  exists command, subject, (join nl lines), (join nl rest).
  split; [exact Hs|]. split; [|split].
  - apply (In_trace_forwarded _ _ _ _ _ _ _ _ V O). rewrite Htr. now left.
  - exact Hcs.
  - rewrite Hcb. f_equal. now apply join_line.
Qed.

(* ===================================================================== *)
(** ** The code fences of the model's answer *)
(* ===================================================================== *)

Lemma stripPrefix_app p s : stripPrefix p (p ++ s) = Some s.
Proof.
  induction p as [|a p IH]; simpl; [now destruct s|]. now rewrite N.eqb_refl.
Qed.

Lemma startsWith_app p s : startsWith (p ++ s) p = true.
Proof.
  induction p as [|a p IH]; simpl; [now destruct s|]. now rewrite N.eqb_refl.
Qed.

Lemma stripSuffix_app p s : stripSuffix p (s ++ p) = Some s.
Proof.
  unfold stripSuffix. rewrite rev_app_distr, stripPrefix_app. simpl.
  now rewrite rev_involutive.
Qed.

(** X21.  A JSON text that the model wrapped in a code fence, with or without
    the [json] tag, is unwrapped to the text itself, whatever the text;
    an opening fence with another tag is left in place. *)
Theorem fences_are_removed (t : jsstring) :
  let tagged := fence ++ lit "json" ++ nl ++ t ++ nl ++ fence in
  let plain := fence ++ nl ++ t ++ nl ++ fence in
  startsWith tagged fence = true
  /\ removeClosingFence (removeOpeningFence tagged) = t
  /\ startsWith plain fence = true
  /\ removeClosingFence (removeOpeningFence plain) = t
  /\ removeOpeningFence (fence ++ lit "js" ++ nl ++ t) = fence ++ lit "js" ++ nl ++ t.
Proof.
  intros tagged plain.
  assert (Hclose : removeClosingFence (t ++ nl ++ fence) = t).
  { unfold removeClosingFence. now rewrite stripSuffix_app. }
  split; [apply startsWith_app|]. split.
  - unfold removeOpeningFence, tagged.
    replace (fence ++ lit "json" ++ nl ++ t ++ nl ++ fence)
      with ((fence ++ lit "json" ++ nl) ++ (t ++ nl ++ fence))
      by (now rewrite <- !app_assoc).
    now rewrite stripPrefix_app.
  - split; [apply startsWith_app|]. split.
    + unfold removeOpeningFence, plain.
      assert (E1 : stripPrefix (fence ++ lit "json" ++ nl)
                     (fence ++ nl ++ t ++ nl ++ fence) = None) by reflexivity.
      rewrite E1.
      replace (fence ++ nl ++ t ++ nl ++ fence)
        with ((fence ++ nl) ++ (t ++ nl ++ fence))
        by (now rewrite <- !app_assoc).
      now rewrite stripPrefix_app.
    + unfold removeOpeningFence.
      assert (E1 : stripPrefix (fence ++ lit "json" ++ nl)
                     (fence ++ lit "js" ++ nl ++ t) = None) by reflexivity.
      assert (E2 : stripPrefix (fence ++ nl) (fence ++ lit "js" ++ nl ++ t) = None)
        by reflexivity.
      now rewrite E1, E2.
Qed.

(* ===================================================================== *)
(** ** The module before spam detection *)
(* ===================================================================== *)

Lemma bind_ext {A B} (m : io A) (f g : A -> io B) :
  (forall a, f a = g a) -> bind m f = bind m g.
Proof. intros H. unfold bind. destruct (snd m); [reflexivity | now rewrite H]. Qed.

Lemma bind_pure {A B} (a : A) (f : A -> io B) : bind ([], inr a) f = f a.
Proof. unfold bind. cbn [fst snd app]. now destruct (f a). Qed.

(** X22.  With spam detection disabled the handler is the earlier handler: for
    every event, context and clients it has the same console lines, sends
    the same email command and returns the same response. *)
Theorem disabled_detection_is_previous_handler (event context : jsval)
    (sesClient bedrockClient dynamoClient : option client) :
  spamDetectionEnabled CONFIG = false ->
  handler event context sesClient bedrockClient dynamoClient
  = handler_v1 event context sesClient.
Proof.
  intros Hen. unfold handler, handler_v1. cbv zeta. f_equal.
  unfold handler_try, handler_v1_try.
  apply bind_ext. intros [|]; [reflexivity|].
  apply bind_ext. intros _.
  apply bind_ext. intros [response|data]; [reflexivity|].
  apply bind_ext. intros [response|contactData]; [reflexivity|].
  rewrite spamDetection_disabled by assumption.
  rewrite bind_pure. reflexivity.
Qed.

(* ===================================================================== *)
(** ** Edges of the decision, of the decoding and of the configuration *)
(* ===================================================================== *)

Lemma num_ge_nan_l x : num_ge NaN x = false.
Proof. now destruct x. Qed.

Lemma num_ge_nan_r x : num_ge x NaN = false.
Proof. now destruct x. Qed.

(** X16.  Blocking needs two numbers.  A classification without a confidence
    ([undefined], as when the model left the property out) is never
    blocked, whatever its label; and when the configured threshold is NaN
    (a value that did not parse) nothing is blocked at all.  In both cases
    nothing is recorded for a validated submission, and its email is
    dispatched whenever the label, the confidence and the reason of the
    classification convert to primitive values (no email otherwise: the
    conversion throws). *)
Theorem no_block_without_numbers (event context : jsval)
    (sesClient bedrockClient dynamoClient : option client)
    (contactData : ContactData) (cr : ClassificationResult) :
  spamDetectionEnabled CONFIG = true ->
  passesValidation event context contactData ->
  outcome (classifySubmission contactData
             (clientOr bedrockClient (new_BedrockRuntimeClient rt))) = inr cr ->
  confidence cr = JUndefined \/ spamConfidenceThreshold CONFIG = NaN ->
  ~ policyBlocks cr
  /\ storeWrites
       (trace (handler event context sesClient bedrockClient dynamoClient)) = 0
  /\ emailDispatches
       (trace (handler event context sesClient bedrockClient dynamoClient))
     = (if convertibleResult cr then 1 else 0).
Proof.
  intros Hen V Hc Hnum.
  assert (Hb : blockTest cr = false).
  { unfold blockTest, js_ge, rbind. destruct Hnum as [H|H]; rewrite H.
    - cbn [ToNumber]. rewrite num_ge_nan_l. apply andb_false_r.
    - destruct (ToNumber (confidence cr)) as [e|n]; [apply andb_false_r|].
      rewrite num_ge_nan_r. apply andb_false_r. }
  split.
  - rewrite <- blockTest_policy, Hb. discriminate.
  - destruct (validated_unblocked event context sesClient bedrockClient dynamoClient
                contactData V cr Hen Hc Hb) as (S & E & _).
    now split.
Qed.

(** X7.  The JSON path of the decoding block.  On a request that is neither
    base64-flagged nor form-encoded, a body that is a string is what
    [JSON.parse] makes of it, and a body that is not a string (an object
    handed over by a direct invocation, or no body at all) is taken as it
    is, without parsing. *)
Theorem json_body_paths (requestId event : jsval) :
  isNullish event = false ->
  truthy (getProp event (lit "isBase64Encoded")) = false ->
  callIncludes (contentTypeOf event) (lit "application/x-www-form-urlencoded")
    = inr false ->
  (forall s data,
     getProp event (lit "body") = JStr s -> JSON_parse rt s = inr data ->
     outcome (parseRequestBody requestId event) = inr (inr data))
  /\ (isString (getProp event (lit "body")) = false ->
      outcome (parseRequestBody requestId event)
      = inr (inr (getProp event (lit "body")))).
Proof.
  intros Hn Hb64 Hct. unfold contentTypeOf in Hct.
  assert (K : forall data,
             (if isString (getProp event (lit "body"))
              then JSON_parse rt (asString (getProp event (lit "body")))
              else inr (getProp event (lit "body"))) = inr data ->
             outcome (parseRequestBody requestId event) = inr (inr data)).
  { intros data Hd. unfold parseRequestBody.
    rewrite !member_not_nullish by assumption.
    rewrite !bind_lift_inr, Hb64, !bind_lift_inr. cbv zeta.
    rewrite Hct, bind_lift_inr. cbv beta iota.
    match goal with
    | |- context [lift ?x] => replace x with (@inr exn jsval data) by (symmetry; exact Hd)
    end.
    rewrite bind_lift_inr. reflexivity. }
  split.
  - intros s data Hs Hj. apply K. now rewrite Hs.
  - intros Hs. apply K. now rewrite Hs.
Qed.

(** X19.  A word count of zero, or one that did not parse (NaN), leaves no word
    in the subject: the subject of a non-empty message is "..." alone, and
    that of the empty message is empty. *)
Theorem subject_without_words (message : jsstring) :
  subjectWordCount CONFIG = Some 0%Z \/ subjectWordCount CONFIG = None ->
  generateSubject message None
  = inr match message with [] => [] | _ :: _ => lit "..." end.
Proof.
  intros H. unfold generateSubject, slice0.
  destruct H as [H|H]; rewrite H; cbn [Z.ltb Z.compare Z.to_nat firstn join];
    now destruct message.
Qed.

End ContactForm.

(* ===================================================================== *)
(** ** Examples *)
(* ===================================================================== *)

(** The unit test of the boundary: ten code units against [maxLength = 10]. *)
Lemma validateField_max_length_inclusive_witness :
  validateField (JStr (lit "abcdefghij")) (lit "test") Sample.testSchema
  = inr (lit "abcdefghij").
Proof.
  apply (proj1 (validateField_max_length_inclusive (lit "test") Sample.testSchema 10
                  (lit "abcdefghij") eq_refl)); reflexivity.
Defined.

Lemma sample_padded : fieldsRelated isPadding Sample.validData Sample.paddedData.
Proof.
  split; [reflexivity|]. intros k Hk. simpl in Hk.
  destruct Hk as [<-|[<-|[<-|[<-|[]]]]]; eexists _, _;
    (split; [reflexivity | split; [reflexivity|]]);
    exists (lit "  "), (lit "  "); repeat split.
Qed.

Lemma sample_trimmed :
  fieldsRelated (fun s s' => s' = trim s) Sample.paddedData Sample.validData.
Proof.
  split; [reflexivity|]. intros k Hk. simpl in Hk.
  destruct Hk as [<-|[<-|[<-|[<-|[]]]]]; eexists _, _;
    (split; [reflexivity | split; reflexivity]).
Qed.

(** The unit test "should trim all fields". *)
Lemma validateContactForm_padding_witness :
  validateContactForm Sample.rt CONFIG_default Sample.paddedData
  = validateContactForm Sample.rt CONFIG_default Sample.validData
  /\ validateContactForm Sample.rt CONFIG_default Sample.validData
     = inr Sample.validContact.
Proof.
  assert (H : validateContactForm Sample.rt CONFIG_default Sample.validData
              = inr Sample.validContact) by (vm_compute; reflexivity).
  split; [|exact H].
  exact (proj1 (validateContactForm_padding Sample.rt CONFIG_default Sample.validData
                  Sample.paddedData Sample.validData Sample.validContact
                  H sample_padded sample_trimmed)).
Defined.

(** The unit test "should reject name with numbers". *)
Lemma validateContactForm_first_failure_witness :
  validateContactForm Sample.rt CONFIG_default Sample.badNameData
  = inl (ValidationError (lit "name") (lit "name contains invalid characters"))
  /\ outcome (handler Sample.rt CONFIG_default Sample.badNameEvent Sample.lambdaContext
                None None None)
     = inr (validationFailureResponse Sample.rt CONFIG_default (lit "name")
              (lit "name contains invalid characters")).
Proof.
  pose proof (validateContactForm_first_failure Sample.rt CONFIG_default
                Sample.badNameEvent Sample.lambdaContext None None None
                Sample.badNameData eq_refl) as H.
  assert (E : firstFailure (fieldChecks Sample.rt CONFIG_default Sample.badNameData)
              = Some (lit "name",
                      ValidationError (lit "name")
                        (lit "name contains invalid characters")))
    by (vm_compute; reflexivity).
  rewrite E in H. destruct H as (Hv & message & Hm & Hh).
  injection Hm as <-. split; [exact Hv|].
  refine (proj1 (Hh _ _)); vm_compute; reflexivity.
Defined.

Lemma handler_preflight_witness :
  handler Sample.rt Sample.CONFIG_spam Sample.optionsEvent Sample.lambdaContext
    None None None
  = ([], inr (preflightResponse Sample.rt Sample.CONFIG_spam)).
Proof. apply handler_preflight. left. reflexivity. Defined.

Lemma sample_passesValidation :
  passesValidation Sample.rt CONFIG_default
    Sample.postEvent Sample.lambdaContext Sample.validContact.
Proof.
  split; [reflexivity|]. exists Sample.validData. split; [reflexivity|].
  vm_compute. reflexivity.
Qed.

Lemma sample_passesValidation_spam :
  passesValidation Sample.rt Sample.CONFIG_spam
    Sample.postEvent Sample.lambdaContext Sample.validContact.
Proof.
  split; [reflexivity|]. exists Sample.validData. split; [reflexivity|].
  vm_compute. reflexivity.
Qed.

Lemma sample_policyBlocks : policyBlocks Sample.rt Sample.CONFIG_spam Sample.spamResult.
Proof. split; [left; reflexivity | reflexivity]. Qed.

Lemma sample_classified :
  outcome (classifySubmission Sample.rt Sample.CONFIG_spam Sample.validContact
             Sample.bedrockSpam) = inr Sample.spamResult.
Proof. vm_compute. reflexivity. Qed.

(** A blocked run (the model says SPAM at 0.95) and a sent run (the model
    is unreachable, the email goes out). *)
Lemma blocked_and_sent_responses_identical_witness :
  outcome (handler Sample.rt Sample.CONFIG_spam Sample.postEvent Sample.lambdaContext
             None None None)
  = outcome (handler Sample.rt Sample.CONFIG_spam Sample.postEvent Sample.lambdaContext
               None (Some Sample.bedrockFails) None).
Proof.
  refine (proj1 (blocked_and_sent_responses_identical Sample.rt Sample.CONFIG_spam
                   Sample.postEvent Sample.lambdaContext None None None
                   Sample.validContact Sample.spamResult
                   Sample.postEvent Sample.lambdaContext None (Some Sample.bedrockFails)
                   None Sample.validContact
                   (Some (failOpenResult
                            (Error (lit "Bedrock timeout") (lit "Error: Bedrock timeout"))))
                   (JStr (lit "test-message-id"))
                   eq_refl sample_passesValidation_spam sample_classified
                   sample_policyBlocks sample_passesValidation_spam _ _));
    vm_compute; reflexivity.
Defined.

Lemma sample_classified_odd :
  outcome (classifySubmission Sample.rt Sample.CONFIG_spam Sample.validContact
             Sample.bedrockOdd) = inr Sample.oddResult.
Proof. vm_compute. reflexivity. Qed.

Lemma sample_odd_not_blocked :
  ~ policyBlocks Sample.rt Sample.CONFIG_spam Sample.oddResult.
Proof. intros [[H|H] _]; discriminate H. Qed.

(** The scenario of the design document: SPAM at 0.95 against 0.8 is
    blocked, with one store write and no email.  And a result whose
    confidence is an object with an own [toString]: nothing is written or
    sent, and the answer is the 500 answer. *)
Lemma decision_policy_witness :
  (storeWrites (trace (handler Sample.rt Sample.CONFIG_spam Sample.postEvent
                         Sample.lambdaContext None None None)) = 1
   /\ emailDispatches (trace (handler Sample.rt Sample.CONFIG_spam Sample.postEvent
                                Sample.lambdaContext None None None)) = 0)
  /\ (emailDispatches (trace (handler Sample.rt Sample.CONFIG_spam Sample.postEvent
                                Sample.lambdaContext None (Some Sample.bedrockOdd)
                                None)) = 0
      /\ storeWrites (trace (handler Sample.rt Sample.CONFIG_spam Sample.postEvent
                               Sample.lambdaContext None (Some Sample.bedrockOdd)
                               None)) = 0
      /\ outcome (handler Sample.rt Sample.CONFIG_spam Sample.postEvent
                    Sample.lambdaContext None (Some Sample.bedrockOdd) None)
         = inr (sendFailureResponse Sample.rt Sample.CONFIG_spam)).
Proof.
  split.
  - apply (proj1 (proj2 (decision_policy Sample.rt Sample.CONFIG_spam Sample.postEvent
                           Sample.lambdaContext None None None Sample.validContact
                           sample_passesValidation_spam)
                    eq_refl Sample.spamResult sample_classified)).
    exact sample_policyBlocks.
  - exact (proj2 (proj2 (proj2 (proj2 (decision_policy Sample.rt Sample.CONFIG_spam
                                         Sample.postEvent Sample.lambdaContext None
                                         (Some Sample.bedrockOdd) None
                                         Sample.validContact
                                         sample_passesValidation_spam)
                                  eq_refl Sample.oddResult sample_classified_odd)))
             eq_refl sample_odd_not_blocked).
Defined.

Lemma sample_answersWith :
  answersWith Sample.rt (JObj [ (lit "body", JStr Sample.proseReplyText) ])
    (lit "This looks like spam to me.").
Proof.
  split; [reflexivity|].
  exists Sample.proseReplyText, Sample.proseReply,
    (JObj [ (lit "text", JStr (lit "This looks like spam to me.")) ]), [].
  repeat split.
Qed.

(** The classifier is unreachable, and the classifier answers with prose:
    the result is the fallback and the email is sent. *)
Lemma classifier_fails_open_witness :
  outcome (classifySubmission Sample.rt Sample.CONFIG_spam Sample.validContact
             Sample.bedrockFails)
  = inr (failOpenResult (Error (lit "Bedrock timeout") (lit "Error: Bedrock timeout")))
  /\ emailDispatches
       (trace (handler Sample.rt Sample.CONFIG_spam Sample.postEvent
                 Sample.lambdaContext None (Some Sample.bedrockFails) None)) = 1
  /\ outcome (classifySubmission Sample.rt Sample.CONFIG_spam Sample.validContact
                Sample.bedrockProse)
     = inr (failOpenResult Sample.syntaxError)
  /\ emailDispatches
       (trace (handler Sample.rt Sample.CONFIG_spam Sample.postEvent
                 Sample.lambdaContext None (Some Sample.bedrockProse) None)) = 1.
Proof.
  destruct (proj1 (classifier_fails_open Sample.rt Sample.CONFIG_spam
                     Sample.validContact (Some Sample.bedrockFails))
              (Error (lit "Bedrock timeout") (lit "Error: Bedrock timeout")) eq_refl)
    as [H1 H2].
  destruct (proj1 (proj2 (proj2 (classifier_fails_open Sample.rt Sample.CONFIG_spam
                                   Sample.validContact (Some Sample.bedrockProse))))
              (JObj [ (lit "body", JStr Sample.proseReplyText) ])
              (lit "This looks like spam to me.") Sample.syntaxError
              eq_refl sample_answersWith eq_refl)
    as [H3 H4].
  split; [exact (f_equal snd H1)|].
  split; [exact (proj1 (H2 Sample.postEvent Sample.lambdaContext None None eq_refl
                          sample_passesValidation_spam))|].
  split; [exact (f_equal snd H3)|].
  exact (proj1 (H4 Sample.postEvent Sample.lambdaContext None None eq_refl
                  sample_passesValidation_spam)).
Defined.

(** The store rejects the write of a blocked submission. *)
Lemma recorder_failure_is_absorbed_witness :
  outcome (logBlockedSubmission Sample.rt Sample.CONFIG_spam Sample.validContact
             Sample.spamResult Sample.postEvent Sample.dynamoFails) = inr JNull
  /\ outcome (handler Sample.rt Sample.CONFIG_spam Sample.postEvent Sample.lambdaContext
                None None (Some Sample.dynamoFails))
     = inr (successResponse Sample.rt Sample.CONFIG_spam).
Proof.
  destruct (recorder_failure_is_absorbed Sample.rt Sample.CONFIG_spam Sample.postEvent
              Sample.lambdaContext None None (Some Sample.dynamoFails)
              Sample.validContact Sample.spamResult Sample.dynamoError
              eq_refl sample_passesValidation_spam sample_classified
              sample_policyBlocks eq_refl) as [H1 H2].
  split; [exact (f_equal snd H1) | exact H2].
Defined.

(** The email service rejects the dispatch (detection disabled). *)
Lemma send_failure_is_generic_witness :
  outcome (handler Sample.rt CONFIG_default Sample.postEvent Sample.lambdaContext
             (Some Sample.sesFails) None None)
  = inr (sendFailureResponse Sample.rt CONFIG_default).
Proof.
  refine (proj1 (send_failure_is_generic Sample.rt CONFIG_default Sample.postEvent
                   Sample.lambdaContext (Some Sample.sesFails) None None
                   Sample.validContact None
                   (Error (lit "SES Error") (lit "Error: SES Error"))
                   sample_passesValidation eq_refl _)).
  vm_compute. reflexivity.
Defined.

(** The unit test "should normalize whitespace". *)
Lemma generateSubject_first_words_witness :
  generateSubject Sample.rt CONFIG_default (lit "Hello    world   test") None
  = inr (lit "Hello world test...").
Proof.
  rewrite (generateSubject_first_words Sample.rt CONFIG_default 8
             (lit "Hello    world   test") eq_refl).
  vm_compute. reflexivity.
Defined.

(** C7 as stated fails on the message of that unit test: its three words
    are the whole normalized message, so the stated subject has no
    ellipsis, and the code appends one. *)
Lemma generateSubject_ellipsis_counterexample :
  subjectWordCount CONFIG_default = Some 8%Z
  /\ generateSubject Sample.rt CONFIG_default (lit "Hello    world   test") None
     = inr (lit "Hello world test...")
  /\ subjectAsStated 8 (lit "Hello    world   test") = lit "Hello world test"
  /\ generateSubject Sample.rt CONFIG_default (lit "Hello    world   test") None
     <> inr (subjectAsStated 8 (lit "Hello    world   test")).
Proof.
  repeat split; try (vm_compute; reflexivity).
  vm_compute. discriminate.
Qed.

(** *** Further examples *)

Lemma sample_plainTypeErrors : plainTypeErrors Sample.rt.
Proof. intros k. eexists _, _. reflexivity. Qed.

Lemma sample_passesValidation_unparsed :
  passesValidation Sample.rt Sample.CONFIG_unparsed
    Sample.postEvent Sample.lambdaContext Sample.validContact.
Proof.
  split; [reflexivity|]. exists Sample.validData. split; [reflexivity|].
  vm_compute. reflexivity.
Qed.

Lemma sample_classified_unparsed :
  outcome (classifySubmission Sample.rt Sample.CONFIG_unparsed Sample.validContact
             Sample.bedrockSpam) = inr Sample.spamResult.
Proof. vm_compute. reflexivity. Qed.

(** The unit test "should trim whitespace": what comes out is a fixed
    point of the validator. *)
Lemma validateField_idempotent_witness :
  validateField (JStr (lit "  hello  ")) (lit "test") Sample.testSchema
  = inr (lit "hello")
  /\ validateField (JStr (lit "hello")) (lit "again") Sample.testSchema
     = inr (lit "hello").
Proof.
  split; [reflexivity|].
  exact (proj2 (validateField_idempotent (JStr (lit "  hello  ")) (lit "test")
                  Sample.testSchema (lit "hello") eq_refl) (lit "again")).
Defined.

Lemma validateContactForm_idempotent_witness :
  validateContactForm Sample.rt CONFIG_default
    (contactObject Sample.validContact) = inr Sample.validContact.
Proof.
  refine (proj1 (validateContactForm_idempotent Sample.rt CONFIG_default
                   Sample.paddedData Sample.validContact _)).
  vm_compute. reflexivity.
Defined.

(** The unit test "should reject name with numbers". *)
Lemma validateContactForm_rejection_witness :
  exists field schema message,
    In field formFields
    /\ In (field, schema) (formSchemas Sample.rt CONFIG_default)
    /\ ValidationError (lit "name") (lit "name contains invalid characters")
       = ValidationError field message
    /\ In message (rejectionMessages field schema).
Proof.
  apply (validateContactForm_rejection Sample.rt CONFIG_default Sample.badNameData).
  - reflexivity.
  - vm_compute. reflexivity.
Defined.

(** The unit test "should return 400 for invalid JSON". *)
Lemma malformed_json_is_rejected_witness :
  outcome (handler Sample.rt CONFIG_default Sample.jsonErrorEvent Sample.lambdaContext
             None None None)
  = inr (invalidFormatResponse Sample.rt CONFIG_default).
Proof.
  refine (proj1 (malformed_json_is_rejected Sample.rt CONFIG_default
                   Sample.jsonErrorEvent Sample.lambdaContext None None None
                   (lit "invalid json") Sample.syntaxError _ _ _ _ _));
    vm_compute; reflexivity.
Defined.

Lemma rejected_submission_answer_witness :
  outcome (handler Sample.rt Sample.CONFIG_spam Sample.badNameEvent Sample.lambdaContext
             None None None)
  = inr (validationFailureResponse Sample.rt Sample.CONFIG_spam (lit "name")
           (lit "name contains invalid characters")).
Proof.
  refine (proj1 (rejected_submission_answer Sample.rt Sample.CONFIG_spam
                   Sample.badNameEvent Sample.lambdaContext None None None
                   Sample.badNameData (lit "name")
                   (lit "name contains invalid characters") _ _ _));
    vm_compute; reflexivity.
Defined.

(** A request without a body. *)
Lemma missing_body_is_a_server_error_witness :
  outcome (handler Sample.rt CONFIG_default Sample.emptyEvent Sample.lambdaContext
             None None None)
  = inr (sendFailureResponse Sample.rt CONFIG_default).
Proof.
  refine (proj1 (missing_body_is_a_server_error Sample.rt CONFIG_default
                   Sample.emptyEvent Sample.lambdaContext None None None
                   JUndefined sample_plainTypeErrors _ _ _));
    vm_compute; reflexivity.
Defined.

Lemma handler_answers_witness :
  exists response,
    outcome (handler Sample.rt Sample.CONFIG_spam Sample.postEvent Sample.lambdaContext
               None None (Some Sample.dynamoFails)) = inr response
    /\ statusCode response = 200%Z.
Proof.
  destruct (handler_answers Sample.rt Sample.CONFIG_spam Sample.postEvent
              Sample.lambdaContext None None (Some Sample.dynamoFails)
              sample_plainTypeErrors) as (response & E & _).
  exists response. split; [exact E|].
  vm_compute in E. now injection E as <-.
Defined.

Lemma rejection_log_line_witness :
  In (ConsoleLog
        (Sample.stringify
           (JObj [ (lit "level", JStr (lit "warn"));
                   (lit "requestId", JStr (lit "test-request-id"));
                   (lit "message", JStr (lit "name contains invalid characters"));
                   (lit "field", JStr (lit "name")) ])))
     (trace (handler Sample.rt CONFIG_default Sample.badNameEvent Sample.lambdaContext
               None None None)).
Proof.
  refine (rejection_log_line Sample.rt CONFIG_default Sample.badNameEvent
            Sample.lambdaContext None None None Sample.badNameData (lit "name")
            (lit "name contains invalid characters") _ _ _);
    vm_compute; reflexivity.
Defined.

Lemma forwarded_email_witness :
  exists command,
    In (SesSend command)
       (trace (handler Sample.rt CONFIG_default Sample.postEvent Sample.lambdaContext
                 None None None))
    /\ getProp command (lit "ReplyToAddresses")
       = JArr [ JStr (lit "John Doe <test@example.com>") ]
    /\ getPath command [lit "Message"; lit "Subject"; lit "Data"]
       = JStr (lit "Test message").
Proof.
  destruct (proj1 (forwarded_email Sample.rt CONFIG_default Sample.postEvent
                     Sample.lambdaContext None None None Sample.validContact None
                     sample_passesValidation eq_refl) eq_refl)
    as (subject & text & command & Hs & _ & Hin & _ & _ & Hreply & Hsubject & _).
  vm_compute in Hs. injection Hs as <-.
  exists command. split; [exact Hin|]. split; [exact Hreply | exact Hsubject].
Defined.

Lemma blocked_submission_record_witness :
  exists item,
    In (DynamoSend
          (JObj [ (lit "TableName",
                   JStr (blockedSubmissionsTable Sample.CONFIG_spam));
                  (lit "Item", JObj item) ]))
       (trace (handler Sample.rt Sample.CONFIG_spam Sample.postEvent
                 Sample.lambdaContext None None None))
    /\ lookup (lit "email") item = JStr (lit "test@example.com")
    /\ lookup (lit "classification") item = JStr (lit "SPAM")
    /\ lookup (lit "ttl") item = JNum (num_of_Z 1707776000).
Proof.
  destruct (blocked_submission_record Sample.rt Sample.CONFIG_spam Sample.postEvent
              Sample.lambdaContext None None None Sample.validContact
              Sample.spamResult eq_refl sample_passesValidation_spam
              sample_classified sample_policyBlocks)
    as (item & Hin & _ & _ & Hemail & _ & _ & Hclass & _ & _ & _ & Httl).
  exists item. split; [exact Hin|]. split; [exact Hemail|].
  split; [exact Hclass | exact Httl].
Defined.

Lemma recorder_address_and_id_witness :
  exists item,
    hd_error (trace (logBlockedSubmission Sample.rt Sample.CONFIG_spam
                       Sample.validContact Sample.spamResult Sample.gatewayEvent
                       Sample.dynamoOk))
    = Some (DynamoSend
              (JObj [ (lit "TableName",
                       JStr (blockedSubmissionsTable Sample.CONFIG_spam));
                      (lit "Item", JObj item) ]))
    /\ lookup (lit "ipAddress") item = JStr (lit "203.0.113.7").
Proof.
  destruct (recorder_address_and_id Sample.rt Sample.CONFIG_spam Sample.validContact
              Sample.spamResult Sample.gatewayEvent Sample.dynamoOk eq_refl)
    as (item & Hhd & Hip & _).
  exists item. split; [exact Hhd|].
  apply Hip; [discriminate | reflexivity].
Defined.

Lemma fail_open_email_witness :
  exists command before after,
    In (SesSend command)
       (trace (handler Sample.rt Sample.CONFIG_spam Sample.postEvent
                 Sample.lambdaContext None (Some Sample.bedrockFails) None))
    /\ getPath command [lit "Message"; lit "Subject"; lit "Data"]
       = JStr (marker ++ lit "Test message")
    /\ getPath command [lit "Message"; lit "Body"; lit "Text"; lit "Data"]
       = JStr (before ++ nl ++ failOpenLine ++ nl ++ after).
Proof.
  destruct (fail_open_email Sample.rt Sample.CONFIG_spam Sample.postEvent
              Sample.lambdaContext None (Some Sample.bedrockFails) None
              Sample.validContact
              (Error (lit "Bedrock timeout") (lit "Error: Bedrock timeout"))
              eq_refl sample_passesValidation_spam eq_refl)
    as (command & subject & before & after & Hs & Hin & Hsubject & Htext).
  vm_compute in Hs. injection Hs as <-.
  exists command, before, after. split; [exact Hin|]. split; [exact Hsubject | exact Htext].
Defined.

Lemma disabled_detection_is_previous_handler_witness :
  handler Sample.rt CONFIG_default Sample.postEvent Sample.lambdaContext
    None (Some Sample.bedrockFails) (Some Sample.dynamoFails)
  = handler_v1 Sample.rt CONFIG_default Sample.postEvent Sample.lambdaContext None.
Proof.
  apply disabled_detection_is_previous_handler. reflexivity.
Defined.

(** SPAM at 0.95 against a threshold that is NaN: forwarded. *)
Lemma no_block_without_numbers_witness :
  emailDispatches
    (trace (handler Sample.rt Sample.CONFIG_unparsed Sample.postEvent
              Sample.lambdaContext None None None)) = 1
  /\ storeWrites
       (trace (handler Sample.rt Sample.CONFIG_unparsed Sample.postEvent
                 Sample.lambdaContext None None None)) = 0.
Proof.
  destruct (no_block_without_numbers Sample.rt Sample.CONFIG_unparsed
              Sample.postEvent Sample.lambdaContext None None None
              Sample.validContact Sample.spamResult eq_refl
              sample_passesValidation_unparsed sample_classified_unparsed
              (or_intror eq_refl)) as (_ & S & E).
  split; [exact E | exact S].
Defined.

(** The body of a direct invocation is an object and is taken as it is. *)
Lemma json_body_paths_witness :
  outcome (parseRequestBody Sample.rt CONFIG_default
             (JStr (lit "test-request-id")) Sample.postEvent)
  = inr (inr Sample.validData).
Proof.
  refine (proj2 (json_body_paths Sample.rt CONFIG_default
                   (JStr (lit "test-request-id")) Sample.postEvent _ _ _) _);
    vm_compute; reflexivity.
Defined.

Lemma subject_without_words_witness :
  generateSubject Sample.rt Sample.CONFIG_unparsed (lit "Hello world") None
  = inr (lit "...").
Proof.
  apply (subject_without_words Sample.rt Sample.CONFIG_unparsed (lit "Hello world")).
  right. reflexivity.
Defined.

(** *** The unit tests of the module, replayed on the embedding *)

Example validateField_correct :
  validateField (JStr (lit "hello")) (lit "test") Sample.testSchema = inr (lit "hello").
Proof. reflexivity. Qed.

Example validateField_trims :
  validateField (JStr (lit "  hello  ")) (lit "test") Sample.testSchema
  = inr (lit "hello").
Proof. reflexivity. Qed.

Example validateField_empty :
  validateField (JStr []) (lit "test") Sample.testSchema
  = inl (ValidationError (lit "test") (lit "test is required")).
Proof. reflexivity. Qed.

Example validateField_null :
  validateField JNull (lit "test") Sample.testSchema
  = inl (ValidationError (lit "test") (lit "test is required")).
Proof. reflexivity. Qed.

Example validateField_too_long :
  validateField (JStr (lit "verylongstring")) (lit "test") Sample.testSchema
  = inl (ValidationError (lit "test") (lit "test must be less than 10 characters")).
Proof. reflexivity. Qed.

Example validateField_invalid_characters :
  validateField (JStr (lit "hello123")) (lit "test") Sample.testSchema
  = inl (ValidationError (lit "test") (lit "test contains invalid characters")).
Proof. reflexivity. Qed.

Example validateContactForm_phone_letters :
  validateContactForm Sample.rt CONFIG_default
    (Sample.submission (lit "test@example.com") (lit "John Doe") (lit "555-CALL")
       (lit "Test message"))
  = inl (ValidationError (lit "phone") (lit "phone contains invalid characters")).
Proof. vm_compute. reflexivity. Qed.

Example validateContactForm_not_an_email :
  validateContactForm Sample.rt CONFIG_default
    (Sample.submission (lit "not-an-email") (lit "John Doe") (lit "555-1234")
       (lit "Test message"))
  = inl (ValidationError (lit "email") (lit "email contains invalid characters")).
Proof. vm_compute. reflexivity. Qed.

Example generateSubject_short :
  generateSubject Sample.rt CONFIG_default (lit "Hello world") None
  = inr (lit "Hello world").
Proof. vm_compute. reflexivity. Qed.

Example generateSubject_long :
  generateSubject Sample.rt CONFIG_default
    (lit "One two three four five six seven eight nine ten") None
  = inr (lit "One two three four five six seven eight...").
Proof. vm_compute. reflexivity. Qed.

Example generateSubject_padded :
  generateSubject Sample.rt CONFIG_default (lit "  Hello world  ") None
  = inr (lit "Hello world...").
Proof. vm_compute. reflexivity. Qed.

Example generateSubject_sales :
  generateSubject Sample.rt CONFIG_default (lit "Hello world")
    (Some {| classification := JStr (lit "SALES"); confidence := JNum Sample.num_0_95;
             reason := JStr (lit "SEO pitch"); failedOpen := JUndefined |})
  = inr (marker ++ lit "Hello world").
Proof. vm_compute. reflexivity. Qed.

Example generateSubject_clean :
  generateSubject Sample.rt CONFIG_default (lit "Hello world")
    (Some {| classification := JStr (lit "LEGITIMATE");
             confidence := JNum Sample.num_0_95;
             reason := JStr (lit "Genuine inquiry"); failedOpen := JUndefined |})
  = inr (lit "Hello world").
Proof. vm_compute. reflexivity. Qed.

(** The model answers with a confidence that is an object with an own
    [toString]: the comparison with the threshold throws. *)
Example handler_conversion_error :
  outcome (handler Sample.rt Sample.CONFIG_spam Sample.postEvent Sample.lambdaContext
             None (Some Sample.bedrockOdd) None)
  = inr (sendFailureResponse Sample.rt Sample.CONFIG_spam)
  /\ map (fun e => (isBedrockSend e, isDynamoSend e, isSesSend e))
       (trace (handler Sample.rt Sample.CONFIG_spam Sample.postEvent
                 Sample.lambdaContext None (Some Sample.bedrockOdd) None))
     = [ (false, false, false); (false, false, false); (true, false, false);
         (false, false, false); (false, false, false) ].
Proof. split; vm_compute; reflexivity. Qed.

Example ToString_objects :
  ToString Sample.rt (JObj [ (lit "a", JNull) ]) = inr (lit "[object Object]")
  /\ ToString Sample.rt (JObj [ (lit "toString", JNum (num_of_Z 1)) ])
     = inl (TypeError_toPrimitive Sample.rt)
  /\ ToString Sample.rt (JArr [ JStr (lit "a"); JNull; JStr (lit "b") ])
     = inr (lit "a,,b")
  /\ ToNumber Sample.rt (JObj [ (lit "toString", JNum (num_of_Z 1)) ])
     = inl (TypeError_toPrimitive Sample.rt).
Proof. repeat split. Qed.

Example handler_sends :
  outcome (handler Sample.rt CONFIG_default Sample.postEvent Sample.lambdaContext
             None None None)
  = inr (successResponse Sample.rt CONFIG_default).
Proof. vm_compute. reflexivity. Qed.

Example handler_invalid_json :
  outcome (handler Sample.rt CONFIG_default
             (JObj [ (lit "body", JStr (lit "invalid json")) ]) Sample.lambdaContext
             None None None)
  = inr (createResponse Sample.rt CONFIG_default 400
           (JObj [ (lit "error", JStr (lit "Invalid request format")) ]) []).
Proof. vm_compute. reflexivity. Qed.

Example handler_missing_email :
  outcome (handler Sample.rt CONFIG_default
             (JObj [ (lit "body",
                      JObj [ (lit "name", JStr (lit "John Doe"));
                             (lit "phone", JStr (lit "555-1234"));
                             (lit "message", JStr (lit "Test message")) ]) ])
             Sample.lambdaContext None None None)
  = inr (createResponse Sample.rt CONFIG_default 400
           (JObj [ (lit "error", JStr (lit "email is required"));
                   (lit "field", JStr (lit "email")) ]) []).
Proof. vm_compute. reflexivity. Qed.

Example handler_blocks_spam :
  trace (handler Sample.rt Sample.CONFIG_spam Sample.postEvent Sample.lambdaContext
           None None None)
  = [ ConsoleLog (lit "{" ++ Sample.quoted (lit "level") ++ lit ":"
                    ++ Sample.quoted (lit "info") ++ lit ","
                    ++ Sample.quoted (lit "requestId") ++ lit ":"
                    ++ Sample.quoted (lit "test-request-id") ++ lit ","
                    ++ Sample.quoted (lit "message") ++ lit ":"
                    ++ Sample.quoted (lit "Processing contact form submission")
                    ++ lit "}") ]
    ++ skipn 1 (trace (handler Sample.rt Sample.CONFIG_spam Sample.postEvent
                         Sample.lambdaContext None None None))
  /\ map (fun e => (isBedrockSend e, isDynamoSend e, isSesSend e))
       (trace (handler Sample.rt Sample.CONFIG_spam Sample.postEvent
                 Sample.lambdaContext None None None))
     = [ (false, false, false); (false, false, false); (true, false, false);
         (false, false, false); (false, true, false); (false, false, false) ].
Proof. split; vm_compute; reflexivity. Qed.
